(** * OpenShift Origin master: API version registry and master assembly

    A shallow embedding of two Go packages of the repository:

    - [pkg/api/latest]: the table of API versions ([Versions],
      [InterfacesFor]) and the REST mapping registration done by [init];
    - package [origin] (the master): [authorizationFilter], [forbidden],
      [ensureComponentAuthorizationRules], [InstallProtectedAPI] and the
      handler chain assembled by [Run].

    Go values are modelled as follows.  A [string] is a sequence of bytes
    ([String.string]).  A nilable pointer or interface value is an
    [option].  A Go [map] is a [gmap].  A Go function with several results
    returns a tuple.  Code that mutates shared state (the response writer,
    the request context map, the etcd registry) is written in state-passing
    style over an explicit state record. *)

From Stdlib Require Import ZArith Ascii String List Lia Bool.
From stdpp Require Import base option list strings gmap fin_maps.

Local Open Scope Z_scope.

(** ** Go runtime: strings, errors, formatting *)

Module strings.

(** [strings.HasPrefix(s, prefix)]. *)
Fixpoint HasPrefix (s prefix : string) : bool :=
  match prefix, s with
  | EmptyString, _ => true
  | String _ _, EmptyString => false
  | String p prefix', String c s' => Ascii.eqb c p && HasPrefix s' prefix'
  end.

(** [strings.Contains(s, substr)]: [substr] occurs somewhere in [s]. *)
Fixpoint Contains (s substr : string) : bool :=
  HasPrefix s substr ||
  match s with
  | EmptyString => false
  | String _ s' => Contains s' substr
  end.

(** [strings.Join(a, sep)]. *)
Fixpoint Join (a : list string) (sep : string) : string :=
  match a with
  | [] => ""
  | [x] => x
  | x :: rest => x +:+ sep +:+ Join rest sep
  end.

End strings.

(** The propositional reading of [strings.Contains]: the text splits around
    an occurrence of the fragment. *)
Definition occurs_in (substr s : string) : Prop :=
  exists before after : string, s = before +:+ substr +:+ after.

(** Go's [error] interface.  Values are compared by identity ([==]) only
    against the sentinel [authorizer.ErrNoStandardParts]; every other error
    value is known by its [Error()] text. *)
Inductive error : Type :=
| ErrNoStandardParts
| errorString (text : string).

Definition is_ErrNoStandardParts (e : error) : bool :=
  match e with
  | ErrNoStandardParts => true
  | errorString _ => false
  end.

(** ** Package [latest] *)

Module Latest.

(** [const Version = "v1beta1"], [const OldestVersion = "v1beta1"]. *)
Definition Version : string := "v1beta1".
Definition OldestVersion : string := "v1beta1".

(** [var Versions = []string{"v1beta1"}]. *)
Definition Versions : list string := ["v1beta1"].

(** The three collaborators bundled per version.  They are opaque values
    of other packages; the model only keeps which one is which. *)
Inductive Codec : Type := v1beta1_Codec.
Inductive ObjectConvertor : Type := api_Scheme.
Inductive MetadataAccessor : Type := accessor.

(** [kmeta.VersionInterfaces]. *)
Record VersionInterfaces : Type := {
  vi_Codec : Codec;
  vi_ObjectConvertor : ObjectConvertor;
  vi_MetadataAccessor : MetadataAccessor
}.

(** The text built by
    [fmt.Errorf("unsupported storage version: %s (valid: %s)", ...)]. *)
Definition unsupportedVersionText (version : string) : string :=
  "unsupported storage version: " +:+ version +:+
  " (valid: " +:+ strings.Join Versions ", " +:+ ")".

(** [func InterfacesFor(version string)], returning the pair of a
    [kmeta.VersionInterfaces] pointer and an [error]. *)
Definition InterfacesFor (version : string)
  : option VersionInterfaces * option error :=
  if String.eqb version "v1beta1" then
    (Some {| vi_Codec := v1beta1_Codec;
             vi_ObjectConvertor := api_Scheme;
             vi_MetadataAccessor := accessor |}, None)
  else
    (None, Some (errorString (unsupportedVersionText version))).

(** [var originTypes] and [func OriginKind(kind, apiVersion string) bool]. *)
Definition originTypes : list string :=
  [ "Build"; "BuildConfig"; "BuildLog";
    "Deployment"; "DeploymentConfig";
    "Image"; "ImageRepository"; "ImageRepositoryMapping";
    "Template"; "TemplateConfig";
    "Route";
    "Project";
    "User"; "UserIdentityMapping";
    "OAuthClient"; "OAuthClientAuthorization"; "OAuthAccessToken";
    "OAuthAuthorizeToken";
    "Role"; "RoleBinding"; "Policy"; "PolicyBinding" ].

Fixpoint rangeContains (ts : list string) (kind : string) : bool :=
  match ts with
  | [] => false
  | t :: ts' => if String.eqb t kind then true else rangeContains ts' kind
  end.

Definition OriginKind (kind apiVersion : string) : bool :=
  rangeContains originTypes kind.

(** [kmeta.RESTScope]: the three scope values of the Kubernetes mapper. *)
Inductive RESTScope : Type :=
| RESTScopeNamespaceLegacy
| RESTScopeNamespace
| RESTScopeRoot.

(** One call [originMapper.Add(scope, kind, version, mixedCase)].  The
    scope is an interface value and is [nil] ([None]) when the version
    has no entry in [versionToNamespaceScope] and the kind is not
    root-scoped. *)
Record Registration : Type := {
  reg_scope : option RESTScope;
  reg_kind : string;
  reg_version : string;
  reg_mixedCase : bool
}.

(** The three map literals of [init]. *)
Definition versionMixedCase : gmap string bool :=
  list_to_map [("v1beta1", true)].

Definition versionToNamespaceScope : gmap string RESTScope :=
  list_to_map [("v1beta1", RESTScopeNamespaceLegacy)].

Definition rootScopeKinds : list string :=
  [ "Project";
    "User"; "Identity"; "UserIdentityMapping";
    "OAuthAccessToken"; "OAuthAuthorizeToken"; "OAuthClient";
    "OAuthClientAuthorization" ].

Definition kindToRootScope : gmap string bool :=
  list_to_map (map (fun k => (k, true)) rootScopeKinds).

(** The body of the inner loop of [init] for one [kind] of one
    [version]. *)
Definition registrationFor (version kind : string) : Registration :=
  let mixedCase :=
    match versionMixedCase !! version with
    | Some b => b
    | None => false
    end in
  let scope := versionToNamespaceScope !! version in
  let scope :=
    match kindToRootScope !! kind with
    | Some _ => Some RESTScopeRoot
    | None => scope
    end in
  {| reg_scope := scope; reg_kind := kind;
     reg_version := version; reg_mixedCase := mixedCase |}.

(** The two nested loops of [init].  [KnownTypes version] lists the kinds
    of [api.Scheme] for the version in the order in which the [range]
    over the Go map happens to visit them; the result is the sequence of
    [Add] calls received by [originMapper]. *)
Definition init (KnownTypes : string -> list string) : list Registration :=
  flat_map (fun version => map (registrationFor version) (KnownTypes version))
           Versions.

(** The function literal that [init] gives to [kmeta.NewDefaultRESTMapper]:
    the interfaces of a version and whether the version is known. *)
Definition versionInterfacesFunc (version : string)
  : option VersionInterfaces * bool :=
  let '(interfaces, err) := InterfacesFor version in
  match err with
  | Some _ => (None, false)
  | None => (interfaces, true)
  end.

End Latest.

(** ** Go runtime: [strconv.Quote] and the response writer of [net/http] *)

Module strconv.

Definition byteOf (c : ascii) : Z := Z.of_N (N_of_ascii c).
Definition ofByte (z : Z) : ascii := ascii_of_N (Z.to_N z).

(** The two standard-library tables that quoting consults for bytes
    outside ASCII: UTF-8 decoding of the head of a string (rune and
    width) and the Unicode table of printable runes above Latin-1. *)
Class Unicode : Type := {
  DecodeRuneInString : string -> Z * nat;
  IsPrintTable : Z -> bool
}.

Definition RuneSelf : Z := 128.
Definition RuneError : Z := 65533.

Definition lowerhex (n : Z) : ascii :=
  nth (Z.to_nat n) (list_ascii_of_string "0123456789abcdef") "0"%char.

(** The digits written by [for s := top; s >= 0; s -= 4]. *)
Fixpoint hexDigits (count : nat) (r : Z) : string :=
  match count with
  | O => ""
  | S k => String (lowerhex (Z.land (Z.shiftr r (4 * Z.of_nat k)) 15))
                  (hexDigits k r)
  end.

Definition ValidRune (r : Z) : bool :=
  ((0 <=? r) && (r <? 55296)) || ((57343 <? r) && (r <=? 1114111)).

(** [utf8.AppendRune]. *)
Definition EncodeRune (r : Z) : string :=
  let cont (x : Z) := ofByte (Z.lor 128 (Z.land x 63)) in
  let r := if ValidRune r then r else RuneError in
  if r <? 128 then String (ofByte r) ""
  else if r <? 2048 then
    String (ofByte (Z.lor 192 (Z.shiftr r 6))) (String (cont r) "")
  else if r <? 65536 then
    String (ofByte (Z.lor 224 (Z.shiftr r 12)))
      (String (cont (Z.shiftr r 6)) (String (cont r) ""))
  else
    String (ofByte (Z.lor 240 (Z.shiftr r 18)))
      (String (cont (Z.shiftr r 12))
         (String (cont (Z.shiftr r 6)) (String (cont r) ""))).

Section Quote.
Context {U : Unicode}.

(** [strconv.IsPrint], with its fast path for Latin-1. *)
Definition IsPrint (r : Z) : bool :=
  if r <=? 255 then
    ((32 <=? r) && (r <=? 126)) ||
    ((161 <=? r) && (r <=? 255) && negb (r =? 173))
  else IsPrintTable r.

(** [appendEscapedRune] with the double quote as quote character and
    neither [ASCIIonly] nor [graphicOnly]: the bytes added for one
    rune. *)
Definition appendEscapedRune (r : Z) : string :=
  if (r =? 34) || (r =? 92) then String "\"%char (String (ofByte r) "")
  else if IsPrint r then EncodeRune r
  else if r =? 7 then "\a"
  else if r =? 8 then "\b"
  else if r =? 12 then "\f"
  else if r =? 10 then "\n"
  else if r =? 13 then "\r"
  else if r =? 9 then "\t"
  else if r =? 11 then "\v"
  else if (r <? 32) || (r =? 127) then
    "\x" +:+ hexDigits 2 r
  else if negb (ValidRune r) then "\u" +:+ hexDigits 4 RuneError
  else if r <? 65536 then "\u" +:+ hexDigits 4 r
  else "\U" +:+ hexDigits 8 r.

(** The loop of [appendQuotedWith]: [skip] counts the bytes of the
    current rune that remain to be stepped over ([s = s[width:]]). *)
Fixpoint quoteLoop (skip : nat) (s : string) : string :=
  match s with
  | EmptyString => ""
  | String c rest =>
    match skip with
    | S k => quoteLoop k rest
    | O =>
      let '(r, width) :=
        if byteOf c <? RuneSelf then (byteOf c, 1%nat)
        else DecodeRuneInString s in
      if (Nat.eqb width 1) && (r =? RuneError) then
        "\x" +:+ hexDigits 2 (byteOf c) +:+ quoteLoop 0 rest
      else
        appendEscapedRune r +:+ quoteLoop (Nat.pred width) rest
    end
  end.

(** [strconv.Quote(s)], which is what the verb [%q] of [fmt] prints for
    a string operand. *)
Definition Quote (s : string) : string :=
  String (ofByte 34) (quoteLoop 0 s +:+ String (ofByte 34) "").

End Quote.

End strconv.

Module http.

(** [*http.Request]: the address of the request value (the key under
    which the request context map files it) and the two fields of the
    request line. *)
Record Request : Type := {
  addr : nat;
  Method : string;
  RequestURI : string
}.

Definition StatusOK : Z := 200.
Definition StatusForbidden : Z := 403.

(** The state behind an [http.ResponseWriter]. *)
Record response : Type := {
  wroteHeader : bool;
  status : Z;
  written : string
}.

Definition newResponse : response :=
  {| wroteHeader := false; status := 0; written := "" |}.

(** [w.WriteHeader(code)]: only the first call sets the status. *)
Definition WriteHeader (code : Z) (w : response) : response :=
  if wroteHeader w then w
  else {| wroteHeader := true; status := code; written := written w |}.

(** [w.Write(data)]: an implicit [WriteHeader(StatusOK)] when no header
    was written yet, then the bytes are appended to the body. *)
Definition Write (data : string) (w : response) : response :=
  let w := WriteHeader StatusOK w in
  {| wroteHeader := wroteHeader w; status := status w;
     written := written w +:+ data |}.

End http.

(** ** Collaborating packages of the repository *)

(** [authcontext.RequestContextMap]: the acting user of each in-flight
    request, keyed by the address of the request. *)
Record UserInfo : Type := { userName : string }.

Abbreviation RequestContextMap := (gmap nat UserInfo).

Module authorizationapi.

(** Modelled from the spec: the persisted rule objects of package
    [authorization/api], whose declarations are not part of the sources.
    A policy holds roles (verbs granted on kinds); a binding associates
    subjects with roles; both are named and scoped to a namespace. *)
Record Role : Type := {
  roleName : string;
  verbs : list string;
  kinds : list string
}.

Record Policy : Type := {
  policyName : string;
  policyNamespace : string;
  roles : list Role
}.

Record RoleBinding : Type := {
  roleBindingName : string;
  subjects : list string;
  roleRef : string
}.

Record PolicyBinding : Type := {
  bindingName : string;
  bindingNamespace : string;
  roleBindings : list RoleBinding
}.

End authorizationapi.

Module authorizationetcd.
Import authorizationapi.

(** Modelled from the spec: the Policy Store contract (get and create of
    Policy and PolicyBinding, scoped by namespace, a missing object being
    reported as not-found); the registry of package
    [authorization/registry/etcd] is not part of the sources.  Objects
    are filed under the namespace of the call context and their name. *)
Record Etcd : Type := {
  policies : gmap (string * string) Policy;
  policyBindings : gmap (string * string) PolicyBinding
}.

Definition empty : Etcd := {| policies := ∅; policyBindings := ∅ |}.

Definition NewNotFound (kind name : string) : error :=
  errorString (kind +:+ " " +:+ name +:+ " not found").

Definition NewAlreadyExists (kind name : string) : error :=
  errorString (kind +:+ " " +:+ name +:+ " already exists").

Definition GetPolicy (ns name : string) (r : Etcd)
  : option Policy * option error :=
  match policies r !! (ns, name) with
  | Some p => (Some p, None)
  | None => (None, Some (NewNotFound "policy" name))
  end.

Definition CreatePolicy (ns : string) (p : Policy) (r : Etcd)
  : option error * Etcd :=
  match policies r !! (ns, policyName p) with
  | Some _ => (Some (NewAlreadyExists "policy" (policyName p)), r)
  | None =>
    (None, {| policies := <[(ns, policyName p) := p]> (policies r);
              policyBindings := policyBindings r |})
  end.

Definition GetPolicyBinding (ns name : string) (r : Etcd)
  : option PolicyBinding * option error :=
  match policyBindings r !! (ns, name) with
  | Some b => (Some b, None)
  | None => (None, Some (NewNotFound "policyBinding" name))
  end.

Definition CreatePolicyBinding (ns : string) (b : PolicyBinding) (r : Etcd)
  : option error * Etcd :=
  match policyBindings r !! (ns, bindingName b) with
  | Some _ => (Some (NewAlreadyExists "policyBinding" (bindingName b)), r)
  | None =>
    (None, {| policies := policies r;
              policyBindings :=
                <[(ns, bindingName b) := b]> (policyBindings r) |})
  end.

End authorizationetcd.

Module authorizer.
Import authorizationapi.

(** What package [authorization/authorizer] provides to the master.  Its
    code is not part of the sources, so the attribute builder, the
    authorizer and the bootstrap rule sets are parameters:

    - [Attributes]: the authorization attributes of a request;
    - [GetAttributes m req]: the builder, reading the request and the
      context map [m] it was built over; both results can be [nil];
    - [Authorize masterNamespace store attributes]: the verdict, its
      reason and an error;
    - [NoStandardPartsText]: the [Error()] text of the sentinel;
    - [PolicyName]: the constant [authorizationapi.PolicyName];
    - the roles and role bindings of the bootstrap rule sets. *)
Class Package : Type := {
  Attributes : Type;
  GetAttributes :
    RequestContextMap -> http.Request -> option Attributes * option error;
  Authorize :
    string -> authorizationetcd.Etcd -> option Attributes ->
    bool * string * option error;
  NoStandardPartsText : string;
  PolicyName : string;
  bootstrapRoles : string -> list Role;
  bootstrapRoleBindings : string -> list RoleBinding
}.

Section Bootstrap.
Context {A : Package}.

(** [err.Error()]. *)
Definition Error (e : error) : string :=
  match e with
  | ErrNoStandardParts => NoStandardPartsText
  | errorString text => text
  end.

(** Modelled from the spec: [GetBootstrapPolicy] is not part of the
    sources; the bootstrap Policy is the one named by the well-known
    identifier, in the master authorization namespace. *)
Definition GetBootstrapPolicy (masterNamespace : string) : Policy :=
  {| policyName := PolicyName;
     policyNamespace := masterNamespace;
     roles := bootstrapRoles masterNamespace |}.

(** Modelled from the spec: [GetBootstrapPolicyBinding] is not part of
    the sources; the bootstrap PolicyBinding is the one named by the
    master authorization namespace. *)
Definition GetBootstrapPolicyBinding (masterNamespace : string)
  : PolicyBinding :=
  {| bindingName := masterNamespace;
     bindingNamespace := masterNamespace;
     roleBindings := bootstrapRoleBindings masterNamespace |}.

End Bootstrap.

End authorizer.

(** ** The process: memory, store, observable actions *)

(** The part of the process memory that the modelled code shares:
    [requestsToUsers] is the field [c.requestsToUsers] of the master
    configuration ([nil] until first use), [heap] holds the request context
    maps allocated so far, each under its address, and [etcd] is the policy
    store. *)
Record Process : Type := {
  requestsToUsers : option nat;
  heap : gmap nat RequestContextMap;
  etcd : authorizationetcd.Etcd
}.

Inductive LogArg : Type :=
| ArgString (s : string)
| ArgError (err : option error)
| ArgPolicy (p : authorizationapi.Policy)
| ArgPolicyBinding (b : authorizationapi.PolicyBinding).

(** The calls that the modelled code makes to its collaborators, in the
    order in which it makes them: registry operations (a creation with the
    error that it returned), the authenticator,
    the attribute builder (with the context map it was given to read), the
    authorizer, the wrapped handler, and [glog] (verbosity level, format,
    operands). *)
Inductive Call {A : authorizer.Package} : Type :=
| CallGetPolicy (ns name : string)
| CallCreatePolicy (ns : string) (p : authorizationapi.Policy)
    (err : option error)
| CallGetPolicyBinding (ns name : string)
| CallCreatePolicyBinding (ns : string) (b : authorizationapi.PolicyBinding)
    (err : option error)
| CallAuthenticateRequest (req : http.Request)
| CallGetAttributes (m : RequestContextMap) (req : http.Request)
| CallAuthorize (attributes : option authorizer.Attributes)
| CallServeHTTP (req : http.Request)
| CallGlog (level : option nat) (format : string) (args : list LogArg).

(** What a request handler of the chain works on: the response writer [w]
    of the request, the process, and the calls made so far. *)
Record State {A : authorizer.Package} : Type := {
  resp : http.response;
  proc : Process;
  trace : list Call
}.

(** [http.Handler], as the chain composes it. *)
Definition Handler {A : authorizer.Package} : Type :=
  http.Request -> State -> State.

(** A handler outside the chain (a container serving its routes): it sees
    the response writer and the process only. *)
Definition Servlet : Type :=
  http.Request -> http.response * Process -> http.response * Process.

Module restful.

(** [restful.FilterFunction]: the filters that the model tells apart are
    the current-user filter, built over a request context map, and the
    filters that routes carry already. *)
Inductive FilterFunction : Type :=
| currentUserContextFilter (contexts : nat)
| routeFilter (id : nat).

Record Route : Type := {
  Method : string;
  Path : string;
  Filters : list FilterFunction
}.

Record WebService : Type := {
  RootPath : string;
  Routes : list Route;
  Documentation : string;
  ApiVersion : string
}.

(** [restful.Container]: the registered web services, in registration
    order, and the handlers mounted on its mux by [Handle]. *)
Record Container {A : authorizer.Package} : Type := {
  RegisteredWebServices : list WebService;
  Handlers : list (string * Handler)
}.

End restful.

(** The outcome of a startup step: [glog.Fatalf] ends the process. *)
Inductive Outcome (T : Type) : Type :=
| Fatal (format : string) (args : list LogArg) (p : Process)
| Return (result : T) (p : Process).

Arguments Fatal {T} format args p.
Arguments Return {T} result p.

Definition Startup (T : Type) : Type := Process -> Outcome T.

Definition sret {T : Type} (x : T) : Startup T := fun p => Return x p.

Definition sbind {T U : Type} (m : Startup T) (k : T -> Startup U)
  : Startup U :=
  fun p =>
    match m p with
    | Fatal format args p' => Fatal format args p'
    | Return x p' => k x p'
    end.

Definition Fatalf {T : Type} (format : string) (args : list LogArg)
  : Startup T :=
  fun p => Fatal format args p.

(** A step of the policy bootstrap: it returns a value, the process and the
    calls it made. *)
Definition Boot {A : authorizer.Package} (T : Type) : Type :=
  Process -> T * Process * list Call.

Definition bret {A : authorizer.Package} {T : Type} (x : T) : Boot T :=
  fun p => (x, p, []).

Definition bbind {A : authorizer.Package} {T U : Type}
  (m : Boot T) (k : T -> Boot U) : Boot U :=
  fun p =>
    let '(x, p1, calls1) := m p in
    let '(y, p2, calls2) := k x p1 in
    (y, p2, calls1 ++ calls2).

Declare Scope startup_scope.
Delimit Scope startup_scope with startup.
Declare Scope boot_scope.
Delimit Scope boot_scope with boot.

Notation "'do' x <~ m ;; k" := (sbind m (fun x => k))
  (at level 10, x pattern, m at level 99, k at level 200)
  : startup_scope.
Notation "'do' x <~ m ;; k" := (bbind m (fun x => k))
  (at level 10, x pattern, m at level 99, k at level 200)
  : boot_scope.

(** ** Package [origin]: the master *)

Module Origin.

Definition OpenShiftAPIPrefix : string := "/osapi".
Definition OpenShiftAPIPrefixV1Beta1 : string :=
  OpenShiftAPIPrefix +:+ "/v1beta1".
Definition swaggerAPIPrefix : string := "/swaggerapi/".

(** [MasterConfig]: the fields read by the modelled functions.  The field
    [requestsToUsers], the only one written after construction, lives in
    the [Process]. *)
Record MasterConfig : Type := {
  MasterBindAddr : string;
  MasterAddr : string;
  CORSAllowedOrigins : list string;
  Authenticator : http.Request -> UserInfo * bool * option error;
  MasterAuthorizationNamespace : string;
  TLS : bool;
  MasterCertFile : string;
  MasterKeyFile : string
}.

(** Functions of libraries and of packages outside the sources that the
    master calls during startup:

    - [Getenv]: [os.Getenv];
    - [Defer]: the error result of [svcCache.Defer];
    - [InstallREST]: [apiserver.NewAPIGroupVersion(...).InstallREST];
    - [ServeRoutes]: how a container serves a request;
    - [webhookController]: the build webhook handler, prefix stripped;
    - [RegisterSwaggerService]: [swagger.RegisterSwaggerService];
    - [CompileRegexps]: [util.CompileRegexps];
    - [unauthenticated]: the answer of the authentication stage to a
      request that it could not authenticate. *)
Class Libraries {A : authorizer.Package} : Type := {
  Getenv : string -> string;
  Defer : string -> option error;
  InstallREST : restful.Container -> restful.Container * option error;
  ServeRoutes : restful.Container -> Servlet;
  webhookController : Servlet;
  RegisterSwaggerService :
    list restful.WebService -> string -> restful.Container ->
    restful.Container;
  CompileRegexps : list string -> list string * option error;
  unauthenticated : http.Request -> http.response -> http.response
}.

(** [APIInstaller]: [InstallAPI] changes the container, describes what it
    installed, and may end the process. *)
Definition APIInstaller {A : authorizer.Package} : Type :=
  restful.Container -> Startup (restful.Container * list string).

(** The handler that [Run] gives to the server: the open container,
    possibly wrapped by [apiserver.CORS]. *)
Inductive ServerHandler {A : authorizer.Package} : Type :=
| ContainerHandler (c : restful.Container)
| CORS (h : ServerHandler) (allowedOriginPatterns : list string).

Record Server {A : authorizer.Package} : Type := {
  Addr : string;
  Handler_ : ServerHandler;
  ReadTimeout : Z;
  WriteTimeout : Z;
  MaxHeaderBytes : Z
}.

(** [tls.Config], as [Run] fills it. *)
Record TLSConfig : Type := {
  MinVersion : Z;
  ClientAuth : Z;
  CertFile : string;
  KeyFile : string
}.

(** The operands of [cmdutil.WaitForSuccessfulDial]. *)
Record DialProbe : Type := {
  network : string;
  address : string;
  timeout : Z;
  interval : Z;
  retries : Z
}.

(** What [Run] leaves behind when it returns: the server handed to the
    listener goroutine, its TLS configuration, the lines the goroutine
    logs, the readiness probe that was made, and the two containers. *)
Record Started {A : authorizer.Package} : Type := {
  server : Server;
  tlsConfig : option TLSConfig;
  startedLines : list string;
  probe : DialProbe;
  safeContainer : restful.Container;
  openContainer : restful.Container
}.

Definition Millisecond : Z := 1000000.
Definition Minute : Z := 60 * 1000 * Millisecond.
Definition VersionTLS10 : Z := 769.
Definition RequestClientCert : Z := 1.

Section Master.
Context {A : authorizer.Package} {U : strconv.Unicode} {L : Libraries}.
Variable c : MasterConfig.

(** *** Shared request context map *)

Definition allocate (p : Process) : nat * Process :=
  let l := fresh (dom (heap p) : gset nat) in
  (l, {| requestsToUsers := requestsToUsers p;
         heap := <[l := ∅]> (heap p);
         etcd := etcd p |}).

(** [func (c *MasterConfig) getRequestsToUsers()]. *)
Definition getRequestsToUsers : Startup nat :=
  fun p =>
    match requestsToUsers p with
    | Some l => Return l p
    | None =>
      let '(l, p) := allocate p in
      Return l {| requestsToUsers := Some l;
                  heap := heap p; etcd := etcd p |}
    end.

(** The map behind a pointer. *)
Definition contextMap (l : nat) (p : Process) : RequestContextMap :=
  default ∅ (heap p !! l).

Definition setContextMap (l : nat) (m : RequestContextMap) (p : Process)
  : Process :=
  {| requestsToUsers := requestsToUsers p;
     heap := <[l := m]> (heap p);
     etcd := etcd p |}.

(** *** Request handling *)

Definition called (e : Call) (s : State) : State :=
  {| resp := resp s; proc := proc s; trace := trace s ++ [e] |}.

(** A handler outside the chain, as a link of the chain. *)
Definition serve (f : Servlet) : Handler :=
  fun req s =>
    let s := called (CallServeHTTP req) s in
    let '(w, p) := f req (resp s, proc s) in
    {| resp := w; proc := p; trace := trace s |}.

(** [fmt.Fprintf(w, "Forbidden: %q %s", req.RequestURI, reason)]. *)
Definition forbiddenText (reason : string) (req : http.Request) : string :=
  "Forbidden: " +:+ strconv.Quote (http.RequestURI req) +:+ " " +:+ reason.

(** [func forbidden(reason string, w http.ResponseWriter, req *http.Request)];
    the response writer is the one of the state. *)
Definition forbidden (reason : string) (req : http.Request) (s : State)
  : State :=
  let s := called (CallGlog (Some 1%nat)
                     "!!!!!!!!!!!! FORBIDDING because %v!\n"
                     [ArgString reason]) s in
  let w := http.WriteHeader http.StatusForbidden (resp s) in
  let w := http.Write (forbiddenText reason req) w in
  {| resp := w; proc := proc s; trace := trace s |}.

(** The [http.HandlerFunc] returned by [authorizationFilter]; [contexts]
    is the map that the attribute builder was built over. *)
Definition authorizationHandlerFunc (contexts : nat) (handler : Handler)
  : Handler :=
  fun req s =>
    let m := contextMap contexts (proc s) in
    let s := called (CallGetAttributes m req) s in
    let '(attributes, err) := authorizer.GetAttributes m req in
    match err with
    | Some ErrNoStandardParts =>
      let s := called (CallGlog (Some 4%nat)
                         "Allowing %q because it is not a recognized form"
                         [ArgString (http.RequestURI req)]) s in
      handler req s
    | Some e => forbidden (authorizer.Error e) req s
    | None =>
      match attributes with
      | None => forbidden "No attributes" req s
      | Some _ =>
        let s := called (CallAuthorize attributes) s in
        let '(allowed, reason, err) :=
          authorizer.Authorize (MasterAuthorizationNamespace c)
                               (etcd (proc s)) attributes in
        match err with
        | Some e => forbidden (authorizer.Error e) req s
        | None =>
          if negb allowed then forbidden reason req s
          else handler req s
        end
      end
    end.

(** [func (c *MasterConfig) authorizationFilter(handler http.Handler)]. *)
Definition authorizationFilter (handler : Handler) : Startup Handler :=
  (do contexts <~ getRequestsToUsers ;;
   sret (authorizationHandlerFunc contexts handler))%startup.

(** Modelled from the spec: [authenticationHandlerFilter] is not part
    of the sources.  The authentication stage asks the authenticator
    for [(identity, ok, error)]; for an authenticated request it writes
    the entry of the request into the context map, runs the wrapped
    handler, and removes the entry when the request completes; a
    request that is not authenticated is answered by the stage. *)
Definition authenticationHandlerFilter (handler : Handler)
  (authenticator : http.Request -> UserInfo * bool * option error)
  (contexts : nat) : Handler :=
  fun req s =>
    let s := called (CallAuthenticateRequest req) s in
    let '(user, ok, err) := authenticator req in
    match err with
    | None =>
      if ok then
        let m := contextMap contexts (proc s) in
        let s := {| resp := resp s;
                    proc := setContextMap contexts
                              (<[http.addr req := user]> m) (proc s);
                    trace := trace s |} in
        let s := handler req s in
        let m := contextMap contexts (proc s) in
        {| resp := resp s;
           proc := setContextMap contexts (delete (http.addr req) m)
                     (proc s);
           trace := trace s |}
      else {| resp := unauthenticated req (resp s);
              proc := proc s; trace := trace s |}
    | Some _ => {| resp := unauthenticated req (resp s);
                   proc := proc s; trace := trace s |}
    end.

(** The two statements of [Run] that wrap the protected container. *)
Definition protectedHandler (safe : restful.Container) : Startup Handler :=
  (do handler <~ authorizationFilter (serve (ServeRoutes safe)) ;;
   do contexts <~ getRequestsToUsers ;;
   sret (authenticationHandlerFilter handler (Authenticator c)
                                     contexts))%startup.

(** *** Policy bootstrap *)

Definition GetPolicy (ns name : string)
  : Boot (option authorizationapi.Policy * option error) :=
  fun p => (authorizationetcd.GetPolicy ns name (etcd p), p,
            [CallGetPolicy ns name]).

Definition CreatePolicy (ns : string) (policy : authorizationapi.Policy)
  : Boot (option error) :=
  fun p =>
    let '(err, r) := authorizationetcd.CreatePolicy ns policy (etcd p) in
    (err,
     {| requestsToUsers := requestsToUsers p; heap := heap p; etcd := r |},
     [CallCreatePolicy ns policy err]).

Definition GetPolicyBinding (ns name : string)
  : Boot (option authorizationapi.PolicyBinding * option error) :=
  fun p => (authorizationetcd.GetPolicyBinding ns name (etcd p), p,
            [CallGetPolicyBinding ns name]).

Definition CreatePolicyBinding (ns : string)
  (binding : authorizationapi.PolicyBinding) : Boot (option error) :=
  fun p =>
    let '(err, r) :=
      authorizationetcd.CreatePolicyBinding ns binding (etcd p) in
    (err,
     {| requestsToUsers := requestsToUsers p; heap := heap p; etcd := r |},
     [CallCreatePolicyBinding ns binding err]).

Definition Errorf (format : string) (args : list LogArg) : Boot unit :=
  fun p => (tt, p, [CallGlog None format args]).

(** [err != nil]. *)
Definition is_Some_b {T : Type} (o : option T) : bool :=
  match o with
  | Some _ => true
  | None => false
  end.

(** [err == nil || strings.Contains(err.Error(), " not found")]. *)
Definition nilOrNotFound (err : option error) : bool :=
  match err with
  | None => true
  | Some e => strings.Contains (authorizer.Error e) " not found"
  end.

(** [existing != nil && existing.Name == name], for either kind of
    object. *)
Definition existsNamed {T : Type} (Name : T -> string)
  (existing : option T) (name : string) : bool :=
  match existing with
  | None => false
  | Some o => String.eqb (Name o) name
  end.

(** The first [if] statement of [ensureComponentAuthorizationRules],
    about the global Policy; the result tells whether the statement
    executed [return]. *)
Definition ensureGlobalPolicy : Boot bool :=
  let ctx := MasterAuthorizationNamespace c in
  (do (existing, err) <~ GetPolicy ctx authorizer.PolicyName ;;
   if nilOrNotFound err then
     if existsNamed authorizationapi.policyName existing
                    authorizer.PolicyName
     then bret true
     else
       let bootstrapGlobalPolicy :=
         authorizer.GetBootstrapPolicy (MasterAuthorizationNamespace c) in
       do err <~ CreatePolicy ctx bootstrapGlobalPolicy ;;
       do _ <~
         (if is_Some_b err then
            Errorf "Error creating policy: %v due to %v\n"
                   [ArgPolicy bootstrapGlobalPolicy; ArgError err]
          else bret tt) ;;
       bret false
   else
     do _ <~
       Errorf "Error getting policy: %v due to %v\n"
              [ArgString authorizer.PolicyName; ArgError err] ;;
     bret false)%boot.

(** The second [if] statement, about the global PolicyBinding. *)
Definition ensureGlobalPolicyBinding : Boot unit :=
  let ctx := MasterAuthorizationNamespace c in
  (do (existing, err) <~
      GetPolicyBinding ctx (MasterAuthorizationNamespace c) ;;
   if nilOrNotFound err then
     if existsNamed authorizationapi.bindingName existing
                    (MasterAuthorizationNamespace c)
     then bret tt
     else
       let bootstrapGlobalPolicyBinding :=
         authorizer.GetBootstrapPolicyBinding
           (MasterAuthorizationNamespace c) in
       do err <~ CreatePolicyBinding ctx bootstrapGlobalPolicyBinding ;;
       if is_Some_b err then
         Errorf "Error creating policy: %v due to %v\n"
                [ArgPolicyBinding bootstrapGlobalPolicyBinding;
                 ArgError err]
       else bret tt
   else
     Errorf "Error getting policy: %v due to %v\n"
            [ArgString (MasterAuthorizationNamespace c);
             ArgError err])%boot.

(** [func (c *MasterConfig) ensureComponentAuthorizationRules()]: the
    two statements in sequence, the second one skipped when the first
    one returned. *)
Definition ensureComponentAuthorizationRules : Boot unit :=
  (do returned <~ ensureGlobalPolicy ;;
   if (returned : bool) then bret tt
   else ensureGlobalPolicyBinding)%boot.

(** *** Installation of the API *)

(** [func env(key string, defaultValue string) string]. *)
Definition env (key defaultValue : string) : string :=
  let val := Getenv key in
  if Nat.eqb (String.length val) 0 then defaultValue else val.

(** [container.Add(service)]: a service without root path gets [/]. *)
Definition Add (service : restful.WebService) (container : restful.Container)
  : restful.Container :=
  let service :=
    if Nat.eqb (String.length (restful.RootPath service)) 0 then
      {| restful.RootPath := "/";
         restful.Routes := restful.Routes service;
         restful.Documentation := restful.Documentation service;
         restful.ApiVersion := restful.ApiVersion service |}
    else service in
  {| restful.RegisteredWebServices :=
       restful.RegisteredWebServices container ++ [service];
     restful.Handlers := restful.Handlers container |}.

(** [container.Handle(pattern, handler)]. *)
Definition Handle (pattern : string) (handler : Handler)
  (container : restful.Container) : restful.Container :=
  {| restful.RegisteredWebServices :=
       restful.RegisteredWebServices container;
     restful.Handlers := restful.Handlers container ++ [(pattern, handler)] |}.

(** [new(restful.WebService)]. *)
Definition newWebService : restful.WebService :=
  {| restful.RootPath := ""; restful.Routes := [];
     restful.Documentation := ""; restful.ApiVersion := "" |}.

(** [kmaster.NewHandlerContainer(http.NewServeMux())]. *)
Definition NewHandlerContainer : restful.Container :=
  {| restful.RegisteredWebServices := []; restful.Handlers := [] |}.

(** The test of the inner loop of [InstallProtectedAPI]:
    [route.Method == "GET" && route.Path == prefix+"/users/{name}"]. *)
Definition isCurrentUserRoute (route : restful.Route) : bool :=
  String.eqb (restful.Method route) "GET" &&
  String.eqb (restful.Path route)
             (OpenShiftAPIPrefixV1Beta1 +:+ "/users/{name}").

(** The inner loop, [for i := range routes]: the routes after the loop
    and the number of increments of [userRoutesChanged].  The loop writes
    through [&routes[i]] into the slice that [svc.Routes()] returned,
    which is the slice of the web service. *)
Fixpoint installUserFilter (filter : restful.FilterFunction)
  (routes : list restful.Route) : list restful.Route * nat :=
  match routes with
  | [] => ([], 0%nat)
  | route :: rest =>
    let '(rest', changed) := installUserFilter filter rest in
    if isCurrentUserRoute route then
      ({| restful.Method := restful.Method route;
          restful.Path := restful.Path route;
          restful.Filters := restful.Filters route ++ [filter] |} :: rest',
       S changed)
    else (route :: rest', changed)
  end.

(** The outer loop, [for _, svc := range container.RegisteredWebServices()]:
    [index] is the position of the head of [services] in the
    container; [root] points to a web service by its position.  The
    result is the services, [root] and [userRoutesChanged] after the
    loop. *)
Fixpoint scanWebServices (services : list restful.WebService)
  (index : nat) (root : option nat) (userRoutesChanged : nat)
  : Startup (list restful.WebService * option nat * nat) :=
  match services with
  | [] => sret ([], root, userRoutesChanged)
  | svc :: rest =>
    if String.eqb (restful.RootPath svc) "/" then
      (do (rest', root', changed) <~
          scanWebServices rest (S index) (Some index) userRoutesChanged ;;
       sret (svc :: rest', root', changed))%startup
    else if String.eqb (restful.RootPath svc) OpenShiftAPIPrefixV1Beta1 then
      (do contexts <~ getRequestsToUsers ;;
       let filter := restful.currentUserContextFilter contexts in
       let '(routes, changed) :=
         installUserFilter filter (restful.Routes svc) in
       let svc :=
         {| restful.RootPath := restful.RootPath svc;
            restful.Routes := routes;
            restful.Documentation := "OpenShift REST API, version v1beta1";
            restful.ApiVersion := "v1beta1" |} in
       do (rest', root', changed') <~
          scanWebServices rest (S index) root
                          (userRoutesChanged + changed)%nat ;;
       sret (svc :: rest', root', changed'))%startup
    else
      (do (rest', root', changed) <~
          scanWebServices rest (S index) root userRoutesChanged ;;
       sret (svc :: rest', root', changed))%startup
  end.

(** [func initAPIVersionRoute(root *restful.WebService, version string)],
    on the web service at position [root]. *)
Definition initAPIVersionRoute (root : nat) (version : string)
  (services : list restful.WebService) : list restful.WebService :=
  alter (fun svc =>
           {| restful.RootPath := restful.RootPath svc;
              restful.Routes :=
                restful.Routes svc ++
                [{| restful.Method := "GET";
                    restful.Path := OpenShiftAPIPrefix;
                    restful.Filters := [] |}];
              restful.Documentation := restful.Documentation svc;
              restful.ApiVersion := restful.ApiVersion svc |})
        root services.

(** [func (c *MasterConfig) InstallProtectedAPI(container *restful.Container) []string]. *)
Definition InstallProtectedAPI : APIInstaller :=
  fun container =>
    let defaultRegistry :=
      env "OPENSHIFT_DEFAULT_REGISTRY"
          "${DOCKER_REGISTRY_SERVICE_HOST}:${DOCKER_REGISTRY_SERVICE_PORT}" in
    if is_Some_b (Defer defaultRegistry) then
      Fatalf "OPENSHIFT_DEFAULT_REGISTRY variable is invalid %q: %v"
             [ArgString defaultRegistry; ArgError (Defer defaultRegistry)]
    else
      let '(container, err) := InstallREST container in
      if is_Some_b err then
        Fatalf "Unable to initialize API: %v" [ArgError err]
      else
        (do (services, root, userRoutesChanged) <~
            scanWebServices (restful.RegisteredWebServices container)
                            0 None 0 ;;
         let container :=
           {| restful.RegisteredWebServices := services;
              restful.Handlers := restful.Handlers container |} in
         if negb (Nat.eqb userRoutesChanged 1) then
           Fatalf
             "Could not find user route to install the current user filter."
             []
         else
           let '(root, container) :=
             match root with
             | Some r => (r, container)
             | None =>
               (length (restful.RegisteredWebServices container),
                Add newWebService container)
             end in
           let container :=
             {| restful.RegisteredWebServices :=
                  initAPIVersionRoute
                    root "v1beta1"
                    (restful.RegisteredWebServices container);
                restful.Handlers := restful.Handlers container |} in
           sret (container,
                 ["Started OpenShift API at %s" +:+
                  OpenShiftAPIPrefixV1Beta1]))%startup.

(** [func (c *MasterConfig) InstallUnprotectedAPI(container *restful.Container) []string]. *)
Definition InstallUnprotectedAPI : APIInstaller :=
  fun container =>
    let prefix := OpenShiftAPIPrefixV1Beta1 +:+ "/buildConfigHooks/" in
    sret (Handle prefix (serve webhookController) container, []).

(** [func (c *MasterConfig) ensureCORSAllowedOrigins() []*regexp.Regexp]. *)
Definition ensureCORSAllowedOrigins : Startup (list string) :=
  if Nat.eqb (length (CORSAllowedOrigins c)) 0 then sret []
  else
    let '(allowedOriginRegexps, err) :=
      CompileRegexps (CORSAllowedOrigins c) in
    if is_Some_b err then
      Fatalf "Invalid --cors-allowed-origins: %v" [ArgError err]
    else sret allowedOriginRegexps.

(** [for _, i := range installers { extra = append(extra, i.InstallAPI(container)...) }]. *)
Fixpoint installAll (installers : list APIInstaller)
  (container : restful.Container) (extra : list string)
  : Startup (restful.Container * list string) :=
  match installers with
  | [] => sret (container, extra)
  | i :: rest =>
    (do (container, lines) <~ i container ;;
     installAll rest container (extra ++ lines))%startup
  end.

(** [func (c *MasterConfig) Run(protected []APIInstaller, unprotected []APIInstaller)].
    The listener goroutine and the readiness probe are not executed by
    the model: the result records the server that the goroutine is
    given and the operands of the probe. *)
Definition Run (protected unprotected : list APIInstaller)
  : Startup Started :=
  (do _ <~ (fun p => Return tt (ensureComponentAuthorizationRules p).1.2) ;;
   let safe := NewHandlerContainer in
   let open := NewHandlerContainer in
   let protected := protected ++ [InstallProtectedAPI] in
   do (safe, extra) <~ installAll protected safe [] ;;
   do handler <~ protectedHandler safe ;;
   let unprotected := unprotected ++ [InstallUnprotectedAPI] in
   do (open, extra) <~ installAll unprotected open extra ;;
   let open := Handle "/" handler open in
   let open :=
     RegisterSwaggerService
       (restful.RegisteredWebServices safe ++
        restful.RegisteredWebServices open)
       swaggerAPIPrefix open in
   let extra :=
     extra ++ ["Started Swagger Schema API at %s" +:+ swaggerAPIPrefix] in
   let handler := ContainerHandler open in
   do origins <~ ensureCORSAllowedOrigins ;;
   let handler :=
     if negb (Nat.eqb (length origins) 0) then CORS handler origins
     else handler in
   let server :=
     {| Addr := MasterBindAddr c;
        Handler_ := handler;
        ReadTimeout := 5 * Minute;
        WriteTimeout := 5 * Minute;
        MaxHeaderBytes := Z.shiftl 1 20 |} in
   sret {| server := server;
           tlsConfig :=
             if TLS c then
               Some {| MinVersion := VersionTLS10;
                       ClientAuth := RequestClientCert;
                       CertFile := MasterCertFile c;
                       KeyFile := MasterKeyFile c |}
             else None;
           startedLines := extra;
           probe := {| network := "tcp";
                       address := MasterBindAddr c;
                       timeout := 100 * Millisecond;
                       interval := 100 * Millisecond;
                       retries := 100 |};
           safeContainer := safe;
           openContainer := open |})%startup.

End Master.

(** [tools.RuntimeVersionAdapter{accessor}]. *)
Record RuntimeVersionAdapter : Type := {
  adapted : Latest.MetadataAccessor
}.

(** [tools.EtcdHelper]: the etcd client (a pointer), the codec and the
    resource versioner (interface values).  All three are [nil] in the
    zero value, which is what the named result [helper] holds until it is
    assigned. *)
Record EtcdHelper (etcdClient : Type) : Type := {
  Client : option etcdClient;
  Codec : option Latest.Codec;
  ResourceVersioner : option RuntimeVersionAdapter
}.

Arguments Client {etcdClient} _.
Arguments Codec {etcdClient} _.
Arguments ResourceVersioner {etcdClient} _.

(** [func NewEtcdHelper(version string, client *etcdclient.Client) (helper tools.EtcdHelper, err error)].
    The result is [None] where the function would dereference a [nil]
    [interfaces]. *)
Definition NewEtcdHelper {etcdClient : Type} (version : string)
  (client : option etcdClient)
  : option (EtcdHelper etcdClient * option error) :=
  let helper :=
    {| Client := None; Codec := None; ResourceVersioner := None |} in
  let version :=
    if Nat.eqb (String.length version) 0 then Latest.Version else version in
  let '(interfaces, err) := Latest.InterfacesFor version in
  if is_Some_b err then Some (helper, err)
  else
    match interfaces with
    | None => None
    | Some interfaces =>
      Some ({| Client := client;
               Codec := Some (Latest.vi_Codec interfaces);
               ResourceVersioner :=
                 Some {| adapted := Latest.vi_MetadataAccessor interfaces |} |},
            None)
    end.

End Origin.

(** ** The policy bootstrap over any registry *)

(** [ensureComponentAuthorizationRules] once more, over a registry whose
    four operations may answer anything: an object or none, with any
    error or none.  The store of the registry is of any kind. *)
Module AnyRegistry.

Declare Scope registry_scope.
Delimit Scope registry_scope with registry.

Section Over.
Context {A : authorizer.Package} {Store : Type}.

Variable GetPolicy :
  string -> string -> Store ->
  option authorizationapi.Policy * option error.
Variable CreatePolicy :
  string -> authorizationapi.Policy -> Store -> option error * Store.
Variable GetPolicyBinding :
  string -> string -> Store ->
  option authorizationapi.PolicyBinding * option error.
Variable CreatePolicyBinding :
  string -> authorizationapi.PolicyBinding -> Store ->
  option error * Store.
Variable c : Origin.MasterConfig.

(** A step of the bootstrap: its value, the store and the calls made. *)
Definition Step (T : Type) : Type := Store -> T * Store * list Call.

Definition ret {T : Type} (x : T) : Step T := fun r => (x, r, []).

Definition bind {T T' : Type} (m : Step T) (k : T -> Step T') : Step T' :=
  fun r =>
    let '(x, r1, calls1) := m r in
    let '(y, r2, calls2) := k x r1 in
    (y, r2, calls1 ++ calls2).

Notation "'do' x <~ m ;; k" := (bind m (fun x => k))
  (at level 10, x pattern, m at level 99, k at level 200)
  : registry_scope.

Definition getPolicy (ns name : string)
  : Step (option authorizationapi.Policy * option error) :=
  fun r => (GetPolicy ns name r, r, [CallGetPolicy ns name]).

Definition createPolicy (ns : string) (policy : authorizationapi.Policy)
  : Step (option error) :=
  fun r =>
    let '(err, r') := CreatePolicy ns policy r in
    (err, r', [CallCreatePolicy ns policy err]).

Definition getPolicyBinding (ns name : string)
  : Step (option authorizationapi.PolicyBinding * option error) :=
  fun r => (GetPolicyBinding ns name r, r, [CallGetPolicyBinding ns name]).

Definition createPolicyBinding (ns : string)
  (binding : authorizationapi.PolicyBinding) : Step (option error) :=
  fun r =>
    let '(err, r') := CreatePolicyBinding ns binding r in
    (err, r', [CallCreatePolicyBinding ns binding err]).

Definition Errorf (format : string) (args : list LogArg) : Step unit :=
  fun r => (tt, r, [CallGlog None format args]).

(** The first [if] statement; the result tells whether it executed
    [return]. *)
Definition ensureGlobalPolicy : Step bool :=
  let ctx := Origin.MasterAuthorizationNamespace c in
  (do (existing, err) <~ getPolicy ctx authorizer.PolicyName ;;
   if Origin.nilOrNotFound err then
     if Origin.existsNamed authorizationapi.policyName existing
                           authorizer.PolicyName
     then ret true
     else
       let bootstrapGlobalPolicy :=
         authorizer.GetBootstrapPolicy
           (Origin.MasterAuthorizationNamespace c) in
       do err <~ createPolicy ctx bootstrapGlobalPolicy ;;
       do _ <~
         (if Origin.is_Some_b err then
            Errorf "Error creating policy: %v due to %v\n"
                   [ArgPolicy bootstrapGlobalPolicy; ArgError err]
          else ret tt) ;;
       ret false
   else
     do _ <~
       Errorf "Error getting policy: %v due to %v\n"
              [ArgString authorizer.PolicyName; ArgError err] ;;
     ret false)%registry.

(** The second [if] statement. *)
Definition ensureGlobalPolicyBinding : Step unit :=
  let ctx := Origin.MasterAuthorizationNamespace c in
  (do (existing, err) <~
      getPolicyBinding ctx (Origin.MasterAuthorizationNamespace c) ;;
   if Origin.nilOrNotFound err then
     if Origin.existsNamed authorizationapi.bindingName existing
                           (Origin.MasterAuthorizationNamespace c)
     then ret tt
     else
       let bootstrapGlobalPolicyBinding :=
         authorizer.GetBootstrapPolicyBinding
           (Origin.MasterAuthorizationNamespace c) in
       do err <~ createPolicyBinding ctx bootstrapGlobalPolicyBinding ;;
       if Origin.is_Some_b err then
         Errorf "Error creating policy: %v due to %v\n"
                [ArgPolicyBinding bootstrapGlobalPolicyBinding;
                 ArgError err]
       else ret tt
   else
     Errorf "Error getting policy: %v due to %v\n"
            [ArgString (Origin.MasterAuthorizationNamespace c);
             ArgError err])%registry.

(** [func (c *MasterConfig) ensureComponentAuthorizationRules()]. *)
Definition ensureComponentAuthorizationRules : Step unit :=
  (do returned <~ ensureGlobalPolicy ;;
   if (returned : bool) then ret tt
   else ensureGlobalPolicyBinding)%registry.

End Over.

End AnyRegistry.

(** ** Vocabulary of the statements *)

(** A text that [%q] prints as it is between the quotes: printable ASCII
    without the double quote and the backslash. *)
Definition plainByte (c : ascii) : bool :=
  let b := strconv.byteOf c in
  (32 <=? b) && (b <=? 126) && negb (b =? 34) && negb (b =? 92).

Fixpoint plainText (s : string) : bool :=
  match s with
  | EmptyString => true
  | String c rest => plainByte c && plainText rest
  end.

(** The routes that the structural check of [InstallProtectedAPI] is
    about: the [GET] routes on the current-user path among the routes of
    the web services rooted at the versioned API prefix. *)
Definition currentUserRoutes (services : list restful.WebService)
  : list restful.Route :=
  filter (fun route =>
            restful.Method route = "GET" /\
            restful.Path route = "/osapi/v1beta1/users/{name}")
         (flat_map restful.Routes
            (filter (fun svc => restful.RootPath svc = "/osapi/v1beta1")
                    services)).

(** What the installation of the current-user filter is to do to a route
    of a web service: the filter is added after the filters of a [GET]
    route on the current-user path of a service rooted at the versioned
    API prefix, and every other route stays as it is. *)
Definition injectFilter (filter : restful.FilterFunction)
  (svc : restful.WebService) (route : restful.Route) : restful.Route :=
  if bool_decide (restful.RootPath svc = "/osapi/v1beta1" /\
                  restful.Method route = "GET" /\
                  restful.Path route = "/osapi/v1beta1/users/{name}")
  then {| restful.Method := restful.Method route;
          restful.Path := restful.Path route;
          restful.Filters := restful.Filters route ++ [filter] |}
  else route.

(** The same for a web service; a service rooted at the versioned API
    prefix is also given its documentation and version. *)
Definition withUserFilter (filter : restful.FilterFunction)
  (svc : restful.WebService) : restful.WebService :=
  if bool_decide (restful.RootPath svc = "/osapi/v1beta1") then
    {| restful.RootPath := restful.RootPath svc;
       restful.Routes := map (injectFilter filter svc) (restful.Routes svc);
       restful.Documentation := "OpenShift REST API, version v1beta1";
       restful.ApiVersion := "v1beta1" |}
  else svc.

(** The request context map that [getRequestsToUsers] hands out in a
    process: the one of the configuration, or the one that the first call
    allocates. *)
Definition sharedContexts (p : Process) : nat :=
  match requestsToUsers p with
  | Some l => l
  | None => fresh (dom (heap p) : gset nat)
  end.

(** The web service at position [r] is rooted at [/] and no web service
    after it is. *)
Definition lastRootedAt (services : list restful.WebService) (r : nat)
  : Prop :=
  (exists svc, services !! r = Some svc /\ restful.RootPath svc = "/") /\
  forall (j : nat) (svc : restful.WebService),
    (r < j)%nat -> services !! j = Some svc -> restful.RootPath svc <> "/".

(** The route that lists the API versions: [GET /osapi]. *)
Definition versionRoute : restful.Route :=
  {| restful.Method := "GET"; restful.Path := "/osapi";
     restful.Filters := [] |}.

Section Vocabulary.
Context {A : authorizer.Package} {U : strconv.Unicode}.

(** The filter forwards: the wrapped handler receives the request with
    the response writer and the process as they were, after the filter
    made [calls]. *)
Definition forwarded (handler : Handler) (req : http.Request) (s : State)
  (calls : list Call) (out : State) : Prop :=
  out = handler req {| resp := resp s; proc := proc s;
                       trace := trace s ++ calls |}.

(** The filter denies: status 403 is written to the response writer,
    then the body text with the quoted request URI and the reason; the
    process is as it was and the filter made [calls]. *)
Definition denied (reason : string) (req : http.Request) (s : State)
  (calls : list Call) (out : State) : Prop :=
  resp out =
    http.Write ("Forbidden: " +:+ strconv.Quote (http.RequestURI req) +:+
                " " +:+ reason)
               (http.WriteHeader 403 (resp s)) /\
  proc out = proc s /\
  trace out = trace s ++ calls.

(** The line that [forbidden] logs. *)
Definition forbiddenLog (reason : string) : Call :=
  CallGlog (Some 1%nat) "!!!!!!!!!!!! FORBIDDING because %v!\n"
           [ArgString reason].

(** The line that the filter logs before it forwards an unrecognized
    path. *)
Definition allowingLog (req : http.Request) : Call :=
  CallGlog (Some 4%nat) "Allowing %q because it is not a recognized form"
           [ArgString (http.RequestURI req)].

Definition is_CallServeHTTP (e : Call) : bool :=
  match e with
  | CallServeHTTP _ => true
  | _ => false
  end.

Definition is_CallAuthorize (e : Call) : bool :=
  match e with
  | CallAuthorize _ => true
  | _ => false
  end.

Definition is_CallGetAttributes (e : Call) : bool :=
  match e with
  | CallGetAttributes _ _ => true
  | _ => false
  end.

Definition is_CallAuthenticateRequest (e : Call) : bool :=
  match e with
  | CallAuthenticateRequest _ => true
  | _ => false
  end.

Definition is_CallGetPolicy (e : Call) : bool :=
  match e with
  | CallGetPolicy _ _ => true
  | _ => false
  end.

Definition is_CallGetPolicyBinding (e : Call) : bool :=
  match e with
  | CallGetPolicyBinding _ _ => true
  | _ => false
  end.

(** Lines logged with [glog.Errorf]. *)
Definition is_Errorf (e : Call) : bool :=
  match e with
  | CallGlog None _ _ => true
  | _ => false
  end.

(** Creations that the registry answered with an error. *)
Definition refusedCreation (e : Call) : bool :=
  match e with
  | CallCreatePolicy _ _ (Some _) => true
  | CallCreatePolicyBinding _ _ (Some _) => true
  | _ => false
  end.

(** Objects that the registry accepted. *)
Definition createdPolicy (e : Call) : bool :=
  match e with
  | CallCreatePolicy _ _ None => true
  | _ => false
  end.

Definition createdPolicyBinding (e : Call) : bool :=
  match e with
  | CallCreatePolicyBinding _ _ None => true
  | _ => false
  end.

Definition count (f : Call -> bool) (calls : list Call) : nat :=
  length (List.filter f calls).

(** The denials that the specification lists, each with its reason: an
    attribute-build error other than the sentinel, an authorizer error,
    a not-allowed verdict. *)
Inductive denial (c : Origin.MasterConfig) (contexts : nat)
  (req : http.Request) (s : State) : string -> Prop :=
| denial_build_error attributes e :
    authorizer.GetAttributes (Origin.contextMap contexts (proc s)) req =
      (attributes, Some e) ->
    e <> ErrNoStandardParts ->
    denial c contexts req s (authorizer.Error e)
| denial_authorize_error attributes allowed reason e :
    authorizer.GetAttributes (Origin.contextMap contexts (proc s)) req =
      (Some attributes, None) ->
    authorizer.Authorize (Origin.MasterAuthorizationNamespace c)
                         (etcd (proc s)) (Some attributes) =
      (allowed, reason, Some e) ->
    denial c contexts req s (authorizer.Error e)
| denial_not_allowed attributes reason :
    authorizer.GetAttributes (Origin.contextMap contexts (proc s)) req =
      (Some attributes, None) ->
    authorizer.Authorize (Origin.MasterAuthorizationNamespace c)
                         (etcd (proc s)) (Some attributes) =
      (false, reason, None) ->
    denial c contexts req s reason.

(** Creations that were asked of the registry, accepted or not. *)
Definition attemptedPolicy (e : Call) : bool :=
  match e with
  | CallCreatePolicy _ _ _ => true
  | _ => false
  end.

Definition attemptedPolicyBinding (e : Call) : bool :=
  match e with
  | CallCreatePolicyBinding _ _ _ => true
  | _ => false
  end.

(** A store in which what is filed under the key of the global Policy and
    under the key of the global PolicyBinding carries the name of its
    key, as every object does that the registry filed itself. *)
Definition filedByName (c : Origin.MasterConfig) (r : authorizationetcd.Etcd)
  : Prop :=
  let ns := Origin.MasterAuthorizationNamespace c in
  (forall policy,
     authorizationetcd.policies r !! (ns, authorizer.PolicyName) =
       Some policy ->
     authorizationapi.policyName policy = authorizer.PolicyName) /\
  (forall binding,
     authorizationetcd.policyBindings r !! (ns, ns) = Some binding ->
     authorizationapi.bindingName binding = ns).

(** A store that a run of the bootstrap does not change any more: the
    global Policy is there under its name, or an object with another name
    takes its place and the key of the global PolicyBinding is taken. *)
Definition settled (c : Origin.MasterConfig) (r : authorizationetcd.Etcd)
  : Prop :=
  let ns := Origin.MasterAuthorizationNamespace c in
  exists policy,
    authorizationetcd.policies r !! (ns, authorizer.PolicyName) =
      Some policy /\
    (authorizationapi.policyName policy = authorizer.PolicyName \/
     is_Some (authorizationetcd.policyBindings r !! (ns, ns))).

(** Calls about a PolicyBinding. *)
Definition touchesPolicyBinding (e : Call) : bool :=
  match e with
  | CallGetPolicyBinding _ _ => true
  | CallCreatePolicyBinding _ _ _ => true
  | _ => false
  end.

End Vocabulary.

(** The root-scope allow-set, as the specification enumerates it: project,
    user, identity, user-identity mapping, and the OAuth client, token and
    authorization kinds. *)
Definition rootScopeAllowSet : list string :=
  [ "Project"; "User"; "Identity"; "UserIdentityMapping";
    "OAuthClient"; "OAuthAccessToken"; "OAuthAuthorizeToken";
    "OAuthClientAuthorization" ].

(** The registration that the specification expects for a kind of the
    legacy version. *)
Definition expectedRegistration (kind : string) : Latest.Registration :=
  {| Latest.reg_scope :=
       Some (if bool_decide (kind ∈ rootScopeAllowSet)
             then Latest.RESTScopeRoot else Latest.RESTScopeNamespaceLegacy);
     Latest.reg_kind := kind;
     Latest.reg_version := "v1beta1";
     Latest.reg_mixedCase := true |}.

(** ** A small installation, for the examples *)

Module Example.

(** Tables for texts that are ASCII only: a byte outside ASCII is an
    invalid encoding, as it is for [utf8.DecodeRuneInString] when no
    continuation byte follows. *)
#[export] Instance tables : strconv.Unicode :=
  {| strconv.DecodeRuneInString := fun _ => (strconv.RuneError, 1%nat);
     strconv.IsPrintTable := fun _ => false |}.

(** An attribute builder that knows four kinds of paths and an
    authorizer that grants builds, fails on policies and denies the
    rest; it would grant a request without attributes. *)
Definition GetAttributes (m : RequestContextMap) (req : http.Request)
  : option string * option error :=
  let uri := http.RequestURI req in
  if String.eqb uri "/healthz" then (None, Some ErrNoStandardParts)
  else if String.eqb uri "/osapi/v1beta1/%zz" then
    (None, Some (errorString "invalid URL escape"))
  else if String.eqb uri "/osapi/v1beta1" then (None, None)
  else (Some uri, None).

Definition Authorize (ns : string) (store : authorizationetcd.Etcd)
  (attributes : option string) : bool * string * option error :=
  match attributes with
  | None => (true, "", None)
  | Some uri =>
    if String.eqb uri "/osapi/v1beta1/builds" then (true, "", None)
    else if String.eqb uri "/osapi/v1beta1/policies" then
      (false, "", Some (errorString "policy store unavailable"))
    else (false, "denied by default", None)
  end.

#[export] Instance package : authorizer.Package :=
  {| authorizer.Attributes := string;
     authorizer.GetAttributes := GetAttributes;
     authorizer.Authorize := Authorize;
     authorizer.NoStandardPartsText :=
       "the provided URL does not match the standard API form";
     authorizer.PolicyName := "default";
     authorizer.bootstrapRoles := fun ns =>
       [{| authorizationapi.roleName := "cluster-admin";
           authorizationapi.verbs := ["*"];
           authorizationapi.kinds := ["*"] |}];
     authorizer.bootstrapRoleBindings := fun ns =>
       [{| authorizationapi.roleBindingName := "cluster-admins";
           authorizationapi.subjects := ["system:admin"];
           authorizationapi.roleRef := "cluster-admin" |}] |}.

Definition route (method path : string) : restful.Route :=
  {| restful.Method := method; restful.Path := path;
     restful.Filters := [] |}.

(** The web service of the versioned API, with one current-user route. *)
Definition apiService : restful.WebService :=
  {| restful.RootPath := "/osapi/v1beta1";
     restful.Routes :=
       [ route "GET" "/osapi/v1beta1/users/{name}";
         route "PUT" "/osapi/v1beta1/users/{name}";
         route "GET" "/osapi/v1beta1/builds" ];
     restful.Documentation := "";
     restful.ApiVersion := "" |}.

(** The same without a current-user route. *)
Definition apiServiceWithoutUsers : restful.WebService :=
  {| restful.RootPath := "/osapi/v1beta1";
     restful.Routes := [ route "GET" "/osapi/v1beta1/builds" ];
     restful.Documentation := "";
     restful.ApiVersion := "" |}.

#[export] Instance libraries : Origin.Libraries :=
  {| Origin.Getenv := fun _ => "";
     Origin.Defer := fun _ => None;
     Origin.InstallREST := fun container =>
       ({| restful.RegisteredWebServices :=
             restful.RegisteredWebServices container ++ [apiService];
           restful.Handlers := restful.Handlers container |}, None);
     Origin.ServeRoutes := fun _ _ wp => (http.Write "ok" wp.1, wp.2);
     Origin.webhookController := fun _ wp => wp;
     Origin.RegisterSwaggerService := fun _ _ container => container;
     Origin.CompileRegexps := fun patterns => (patterns, None);
     Origin.unauthenticated := fun _ w =>
       http.Write "Unauthorized" (http.WriteHeader 401 w) |}.

(** A library set whose [InstallREST] registers no current-user route. *)
Definition librariesWithoutUsers : Origin.Libraries :=
  {| Origin.Getenv := fun _ => "";
     Origin.Defer := fun _ => None;
     Origin.InstallREST := fun container =>
       ({| restful.RegisteredWebServices :=
             restful.RegisteredWebServices container ++
             [apiServiceWithoutUsers];
           restful.Handlers := restful.Handlers container |}, None);
     Origin.ServeRoutes := fun _ _ wp => (http.Write "ok" wp.1, wp.2);
     Origin.webhookController := fun _ wp => wp;
     Origin.RegisterSwaggerService := fun _ _ container => container;
     Origin.CompileRegexps := fun patterns => (patterns, None);
     Origin.unauthenticated := fun _ w =>
       http.Write "Unauthorized" (http.WriteHeader 401 w) |}.

Definition config : Origin.MasterConfig :=
  {| Origin.MasterBindAddr := "127.0.0.1:8443";
     Origin.MasterAddr := "https://127.0.0.1:8443";
     Origin.CORSAllowedOrigins := [];
     Origin.Authenticator := fun req =>
       ({| userName := "alice" |}, true, None);
     Origin.MasterAuthorizationNamespace := "master";
     Origin.TLS := false;
     Origin.MasterCertFile := "";
     Origin.MasterKeyFile := "" |}.

(** A process at boot, with an empty store. *)
Definition boot : Process :=
  {| requestsToUsers := None; heap := ∅;
     etcd := authorizationetcd.empty |}.

(** A store that holds the global Policy but no PolicyBinding. *)
Definition policyOnly : Process :=
  {| requestsToUsers := None; heap := ∅;
     etcd :=
       {| authorizationetcd.policies :=
            {[ ("master", "default") :=
                 authorizer.GetBootstrapPolicy "master" ]};
          authorizationetcd.policyBindings := ∅ |} |}.

(** A store that holds both global objects. *)
Definition bootstrapped : Process :=
  {| requestsToUsers := None; heap := ∅;
     etcd :=
       {| authorizationetcd.policies :=
            {[ ("master", "default") :=
                 authorizer.GetBootstrapPolicy "master" ]};
          authorizationetcd.policyBindings :=
            {[ ("master", "master") :=
                 authorizer.GetBootstrapPolicyBinding "master" ]} |} |}.

Definition request (uri : string) : http.Request :=
  {| http.addr := 7; http.Method := "GET"; http.RequestURI := uri |}.

(** A request as the chain receives it: nothing written yet. *)
Definition arrival : State :=
  {| resp := http.newResponse; proc := boot; trace := [] |}.

(** The wrapped handler of the examples. *)
Definition inner : Handler :=
  Origin.serve (Origin.ServeRoutes Origin.NewHandlerContainer).

(** A request URI with a double quote in it. *)
Definition quotedURI : string :=
  "/osapi/v1beta1/builds/a" +:+ String (strconv.ofByte 34) "b".

End Example.

(** * Properties *)

(** ** Texts *)

(** The proofs below compute with string concatenation. *)
Local Arguments String.append : simpl nomatch.

Lemma append_assoc (a b c : string) : (a +:+ b) +:+ c = a +:+ b +:+ c.
Proof. induction a as [|x a IH]; simpl; [reflexivity | now rewrite IH]. Qed.

Lemma append_empty_r (a : string) : a +:+ "" = a.
Proof. induction a as [|x a IH]; simpl; [reflexivity | now rewrite IH]. Qed.

Lemma HasPrefix_split (s prefix : string) :
  strings.HasPrefix s prefix = true <-> exists rest, s = prefix +:+ rest.
Proof.
  revert s. induction prefix as [|p prefix IH]; intros s; simpl.
  - split; [intros _; now exists s | intros _; now destruct s].
  - destruct s as [|c s]; simpl.
    + split; [discriminate | intros [rest H]; discriminate].
    + rewrite andb_true_iff, Ascii.eqb_eq, IH. split.
      * intros [-> [rest ->]]. now exists rest.
      * intros [rest H]. injection H as -> ->. split; [reflexivity | now exists rest].
Qed.

Lemma occurs_in_here (x before after : string) :
  occurs_in x (before +:+ x +:+ after).
Proof. now exists before, after. Qed.

Lemma occurs_in_append_l (x a b : string) : occurs_in x b -> occurs_in x (a +:+ b).
Proof.
  intros (before & after & ->). exists (a +:+ before), after.
  now rewrite append_assoc.
Qed.

Lemma occurs_in_append_r (x a b : string) : occurs_in x a -> occurs_in x (a +:+ b).
Proof.
  intros (before & after & ->). exists before, (after +:+ b).
  now rewrite !append_assoc.
Qed.

Lemma Contains_step (s substr : string) :
  strings.Contains s substr =
  strings.HasPrefix s substr ||
  match s with
  | EmptyString => false
  | String _ s' => strings.Contains s' substr
  end.
Proof. destruct s; reflexivity. Qed.

(** [strings.Contains] decides [occurs_in]. *)
Lemma Contains_occurs_in (s substr : string) :
  strings.Contains s substr = true <-> occurs_in substr s.
Proof.
  induction s as [|c s IH]; rewrite Contains_step.
  - rewrite orb_false_r, HasPrefix_split. split.
    + intros [rest H]. now exists "", rest.
    + intros (before & after & H). destruct before; [now exists after |].
      discriminate.
  - rewrite orb_true_iff, HasPrefix_split, IH. split.
    + intros [[rest H] | (before & after & ->)].
      * now exists "", rest.
      * now exists (String c before), after.
    + intros (before & after & H). destruct before as [|b before]; simpl in H.
      * left. now exists after.
      * injection H as -> ->. right. now exists before, after.
Qed.

(** ** Package [latest] *)

(** C7. [InterfacesFor]: a version string that is not one of [Versions]
    yields no interfaces and an error whose message holds the known
    versions joined by [", "] (and hence every known version); a known
    version yields the codec, the object converter and the metadata
    accessor of the version, and no error. *)
Theorem InterfacesFor_unknown_and_known (version : string) :
  (version ∉ Latest.Versions ->
   exists text,
     Latest.InterfacesFor version = (None, Some (errorString text)) /\
     occurs_in (strings.Join Latest.Versions ", ") text /\
     (forall known, known ∈ Latest.Versions -> occurs_in known text)) /\
  (version ∈ Latest.Versions ->
   Latest.InterfacesFor version =
     (Some {| Latest.vi_Codec := Latest.v1beta1_Codec;
              Latest.vi_ObjectConvertor := Latest.api_Scheme;
              Latest.vi_MetadataAccessor := Latest.accessor |}, None)).
Proof.
  unfold Latest.Versions. split.
  - intros Hunknown.
    assert (Hne : version <> "v1beta1").
    { intros ->. apply Hunknown. apply list_elem_of_singleton. reflexivity. }
    apply String.eqb_neq in Hne.
    exists (Latest.unsupportedVersionText version).
    unfold Latest.InterfacesFor. rewrite Hne. split; [reflexivity |].
    assert (Hjoined : occurs_in (strings.Join ["v1beta1"] ", ")
                        (Latest.unsupportedVersionText version)).
    { unfold Latest.unsupportedVersionText, Latest.Versions.
      apply occurs_in_append_l, occurs_in_append_l, occurs_in_append_l.
      apply occurs_in_append_r. exists "", "". reflexivity. }
    split; [exact Hjoined |].
    intros known Hknown. apply list_elem_of_singleton in Hknown. subst known.
    exact Hjoined.
  - intros Hknown. apply list_elem_of_singleton in Hknown. subst version.
    reflexivity.
Qed.

Lemma InterfacesFor_unknown_and_known_witness :
  ("v1beta3" ∉ Latest.Versions) /\
  ("v1beta1" ∈ Latest.Versions) /\
  (exists text,
     Latest.InterfacesFor "v1beta3" = (None, Some (errorString text)) /\
     occurs_in "v1beta1" text) /\
  fst (Latest.InterfacesFor "v1beta1") =
    Some {| Latest.vi_Codec := Latest.v1beta1_Codec;
            Latest.vi_ObjectConvertor := Latest.api_Scheme;
            Latest.vi_MetadataAccessor := Latest.accessor |}.
Proof.
  assert (Hunknown : "v1beta3" ∉ Latest.Versions).
  { intros H. apply list_elem_of_singleton in H. discriminate H. }
  assert (Hknown : "v1beta1" ∈ Latest.Versions).
  { apply list_elem_of_singleton. reflexivity. }
  split; [exact Hunknown |]. split; [exact Hknown |]. split.
  - destruct (proj1 (InterfacesFor_unknown_and_known "v1beta3") Hunknown)
      as (text & Herr & _ & Hall).
    exists text. split; [exact Herr | exact (Hall "v1beta1" Hknown)].
  - rewrite (proj2 (InterfacesFor_unknown_and_known "v1beta1") Hknown).
    reflexivity.
Defined.

Lemma rootScopeAllowSet_kinds (kind : string) :
  kind ∈ rootScopeAllowSet <-> kind ∈ Latest.rootScopeKinds.
Proof.
  unfold rootScopeAllowSet, Latest.rootScopeKinds.
  rewrite !elem_of_cons, !elem_of_nil. tauto.
Qed.

(** The map literal [kindToRootScope] holds exactly the allow-set. *)
Lemma kindToRootScope_lookup (kind : string) :
  Latest.kindToRootScope !! kind =
  if bool_decide (kind ∈ rootScopeAllowSet) then Some true else None.
Proof.
  unfold Latest.kindToRootScope. case_bool_decide as Hkind.
  - apply elem_of_list_to_map_1.
    + apply (bool_decide_unpack _). vm_compute. reflexivity.
    + apply rootScopeAllowSet_kinds in Hkind.
      apply list_elem_of_In, in_map_iff. exists kind.
      split; [reflexivity | now apply list_elem_of_In].
  - apply not_elem_of_list_to_map_1. intros Hin. apply Hkind.
    apply rootScopeAllowSet_kinds.
    apply list_elem_of_fmap in Hin. destruct Hin as ([k b] & -> & Hin).
    apply list_elem_of_In, in_map_iff in Hin.
    destruct Hin as (k' & Heq & Hin). injection Heq as -> _.
    now apply list_elem_of_In.
Qed.

Lemma registrationFor_legacy (kind : string) :
  Latest.registrationFor "v1beta1" kind = expectedRegistration kind.
Proof.
  unfold Latest.registrationFor, expectedRegistration.
  rewrite kindToRootScope_lookup. case_bool_decide; reflexivity.
Qed.

Lemma init_registrations (KnownTypes : string -> list string)
  (r : Latest.Registration) :
  r ∈ Latest.init KnownTypes <->
  exists kind, kind ∈ KnownTypes "v1beta1" /\ r = expectedRegistration kind.
Proof.
  unfold Latest.init, Latest.Versions. simpl. rewrite app_nil_r.
  rewrite list_elem_of_In, in_map_iff. split.
  - intros (kind & <- & Hin). exists kind.
    split; [now apply list_elem_of_In | apply registrationFor_legacy].
  - intros (kind & Hin & ->). exists kind.
    split; [apply registrationFor_legacy | now apply list_elem_of_In].
Qed.

(** C6. Registration over the active schema: the registrations that
    [init] hands to [originMapper] are those of the known kinds of
    [v1beta1] and no others, with [Root] scope for a kind of the allow-set
    and [NamespaceLegacy] scope for every other kind, always with
    [mixedCase = true]; so [Project], when known, is registered with
    [Root], and [Build], when known, with [NamespaceLegacy] and
    [mixedCase = true]. *)
Theorem init_registers_scopes (KnownTypes : string -> list string) :
  (forall r : Latest.Registration,
     r ∈ Latest.init KnownTypes <->
     exists kind,
       kind ∈ KnownTypes "v1beta1" /\
       r = {| Latest.reg_scope :=
                Some (if bool_decide (kind ∈ rootScopeAllowSet)
                      then Latest.RESTScopeRoot
                      else Latest.RESTScopeNamespaceLegacy);
              Latest.reg_kind := kind;
              Latest.reg_version := "v1beta1";
              Latest.reg_mixedCase := true |}) /\
  ("Project" ∈ KnownTypes "v1beta1" ->
   {| Latest.reg_scope := Some Latest.RESTScopeRoot;
      Latest.reg_kind := "Project";
      Latest.reg_version := "v1beta1";
      Latest.reg_mixedCase := true |} ∈ Latest.init KnownTypes) /\
  ("Build" ∈ KnownTypes "v1beta1" ->
   {| Latest.reg_scope := Some Latest.RESTScopeNamespaceLegacy;
      Latest.reg_kind := "Build";
      Latest.reg_version := "v1beta1";
      Latest.reg_mixedCase := true |} ∈ Latest.init KnownTypes).
Proof.
  split; [intros r; apply init_registrations |].
  split; intros Hknown; apply init_registrations.
  - exists "Project". split; [exact Hknown |].
    unfold expectedRegistration. rewrite bool_decide_eq_true_2; [reflexivity |].
    unfold rootScopeAllowSet. rewrite !elem_of_cons. tauto.
  - exists "Build". split; [exact Hknown |].
    unfold expectedRegistration. rewrite bool_decide_eq_false_2; [reflexivity |].
    unfold rootScopeAllowSet. rewrite !elem_of_cons, elem_of_nil.
    intros H. repeat destruct H as [H | H]; try discriminate H. exact H.
Qed.

Lemma init_registers_scopes_witness :
  let KnownTypes := fun _ : string => ["Build"; "Project"; "User"] in
  ("Project" ∈ KnownTypes "v1beta1") /\
  ("Build" ∈ KnownTypes "v1beta1") /\
  ({| Latest.reg_scope := Some Latest.RESTScopeRoot;
      Latest.reg_kind := "Project";
      Latest.reg_version := "v1beta1";
      Latest.reg_mixedCase := true |} ∈ Latest.init KnownTypes) /\
  ({| Latest.reg_scope := Some Latest.RESTScopeNamespaceLegacy;
      Latest.reg_kind := "Build";
      Latest.reg_version := "v1beta1";
      Latest.reg_mixedCase := true |} ∈ Latest.init KnownTypes).
Proof.
  intros KnownTypes.
  assert (HProject : "Project" ∈ KnownTypes "v1beta1").
  { unfold KnownTypes. rewrite !elem_of_cons. tauto. }
  assert (HBuild : "Build" ∈ KnownTypes "v1beta1").
  { unfold KnownTypes. rewrite !elem_of_cons. tauto. }
  split; [exact HProject |]. split; [exact HBuild |].
  destruct (init_registers_scopes KnownTypes) as (_ & HP & HB).
  split; [exact (HP HProject) | exact (HB HBuild)].
Defined.

(** ** [strconv.Quote] on plain texts *)

Lemma ofByte_byteOf (c : ascii) : strconv.ofByte (strconv.byteOf c) = c.
Proof.
  unfold strconv.ofByte, strconv.byteOf.
  rewrite N2Z.id. apply ascii_N_embedding.
Qed.

Lemma plainByte_range (c : ascii) :
  plainByte c = true ->
  32 <= strconv.byteOf c <= 126 /\
  strconv.byteOf c <> 34 /\ strconv.byteOf c <> 92.
Proof.
  unfold plainByte. rewrite !andb_true_iff, !negb_true_iff.
  intros (((Hlo & Hhi) & Hq) & Hb).
  apply Z.leb_le in Hlo, Hhi. apply Z.eqb_neq in Hq, Hb. lia.
Qed.

Section QuotePlain.
Context {U : strconv.Unicode}.

(** A plain byte is printed as it is. *)
Lemma appendEscapedRune_plain (c : ascii) :
  plainByte c = true ->
  strconv.appendEscapedRune (strconv.byteOf c) = String c "".
Proof.
  intros H. apply plainByte_range in H. destruct H as (Hrange & Hq & Hb).
  unfold strconv.appendEscapedRune, strconv.IsPrint, strconv.EncodeRune,
    strconv.ValidRune.
  rewrite (proj2 (Z.eqb_neq _ 34) Hq), (proj2 (Z.eqb_neq _ 92) Hb).
  rewrite (proj2 (Z.leb_le _ 255)) by lia.
  rewrite (proj2 (Z.leb_le 32 _)) by lia.
  rewrite (proj2 (Z.leb_le _ 126)) by lia.
  rewrite (proj2 (Z.leb_le 0 _)) by lia.
  rewrite (proj2 (Z.ltb_lt _ 55296)) by lia.
  simpl. rewrite (proj2 (Z.ltb_lt _ 128)) by lia.
  now rewrite ofByte_byteOf.
Qed.

Lemma quoteLoop_plain (s : string) :
  plainText s = true -> strconv.quoteLoop 0 s = s.
Proof.
  induction s as [|c s IH]; [reflexivity |].
  simpl plainText. rewrite andb_true_iff. intros [Hc Hs].
  pose proof (plainByte_range c Hc) as (Hrange & _ & _).
  simpl strconv.quoteLoop. unfold strconv.RuneSelf, strconv.RuneError.
  rewrite (proj2 (Z.ltb_lt _ 128)) by lia.
  rewrite (proj2 (Z.eqb_neq _ 65533)) by lia.
  simpl. rewrite appendEscapedRune_plain by exact Hc.
  simpl. now rewrite IH.
Qed.

(** [%q] prints a plain text between two double quotes. *)
Lemma Quote_plain (s : string) :
  plainText s = true ->
  strconv.Quote s =
  String (strconv.ofByte 34) (s +:+ String (strconv.ofByte 34) "").
Proof. intros H. unfold strconv.Quote. now rewrite quoteLoop_plain. Qed.

End QuotePlain.

(** ** The response writer *)

Lemma WriteHeader_fresh (code : Z) (w : http.response) :
  http.wroteHeader w = false ->
  http.WriteHeader code w =
  {| http.wroteHeader := true; http.status := code;
     http.written := http.written w |}.
Proof. intros H. unfold http.WriteHeader. now rewrite H. Qed.

(** A denial written to a fresh response writer. *)
Lemma Write_after_WriteHeader (text : string) (code : Z) (w : http.response) :
  http.wroteHeader w = false ->
  http.Write text (http.WriteHeader code w) =
  {| http.wroteHeader := true; http.status := code;
     http.written := http.written w +:+ text |}.
Proof. intros H. rewrite WriteHeader_fresh by exact H. reflexivity. Qed.

(** ** The authorization filter *)

Section AuthorizationFilter.
Context {A : authorizer.Package} {U : strconv.Unicode}.
Variable c : Origin.MasterConfig.

(** What [forbidden] does to the state. *)
Lemma forbidden_denied (reason : string) (req : http.Request) (s : State)
  (calls : list Call) (s0 : State) :
  resp s = resp s0 -> proc s = proc s0 -> trace s = trace s0 ++ calls ->
  denied reason req s0 (calls ++ [forbiddenLog reason])
         (Origin.forbidden reason req s).
Proof.
  intros Hresp Hproc Htrace. unfold denied, Origin.forbidden. simpl.
  rewrite Hresp, Hproc, Htrace, app_assoc. repeat split.
Qed.

(** A denial on a fresh response writer: status and body. *)
Lemma denied_fresh (reason : string) (req : http.Request) (s : State)
  (calls : list Call) (out : State) :
  denied reason req s calls out ->
  http.wroteHeader (resp s) = false ->
  http.status (resp out) = 403 /\
  http.written (resp out) =
    http.written (resp s) +:+ "Forbidden: " +:+
    strconv.Quote (http.RequestURI req) +:+ " " +:+ reason.
Proof.
  intros (Hresp & _ & _) Hfresh. rewrite Hresp.
  rewrite Write_after_WriteHeader by exact Hfresh. split; reflexivity.
Qed.

(** The six paths through the filter. *)
Section Paths.
Variables (contexts : nat) (handler : Handler) (req : http.Request)
          (s : State).
Let m := Origin.contextMap contexts (proc s).
Let out := Origin.authorizationHandlerFunc c contexts handler req s.
Let ns := Origin.MasterAuthorizationNamespace c.

Lemma filter_sentinel attributes :
  authorizer.GetAttributes m req = (attributes, Some ErrNoStandardParts) ->
  forwarded handler req s [CallGetAttributes m req; allowingLog req] out.
Proof.
  intros H. unfold out, Origin.authorizationHandlerFunc. fold m.
  rewrite H. unfold forwarded, Origin.called. simpl.
  now rewrite <- app_assoc.
Qed.

Lemma filter_build_error attributes text :
  authorizer.GetAttributes m req = (attributes, Some (errorString text)) ->
  denied text req s [CallGetAttributes m req; forbiddenLog text] out.
Proof.
  intros H. unfold out, Origin.authorizationHandlerFunc. fold m.
  rewrite H.
  apply (forbidden_denied text req _ [CallGetAttributes m req] s);
    reflexivity.
Qed.

Lemma filter_no_attributes :
  authorizer.GetAttributes m req = (None, None) ->
  denied "No attributes" req s
         [CallGetAttributes m req; forbiddenLog "No attributes"] out.
Proof.
  intros H. unfold out, Origin.authorizationHandlerFunc. fold m.
  rewrite H.
  apply (forbidden_denied _ req _ [CallGetAttributes m req] s);
    reflexivity.
Qed.

Lemma filter_authorize_error attributes allowed reason e :
  authorizer.GetAttributes m req = (Some attributes, None) ->
  authorizer.Authorize ns (etcd (proc s)) (Some attributes) =
    (allowed, reason, Some e) ->
  denied (authorizer.Error e) req s
         [CallGetAttributes m req; CallAuthorize (Some attributes);
          forbiddenLog (authorizer.Error e)] out.
Proof.
  intros H Hauth. unfold out, Origin.authorizationHandlerFunc. fold m.
  rewrite H. cbn [Origin.called proc trace resp]. fold ns.
  rewrite Hauth.
  apply (forbidden_denied _ req _
           [CallGetAttributes m req; CallAuthorize (Some attributes)] s);
    try reflexivity.
  simpl. now rewrite <- app_assoc.
Qed.

Lemma filter_not_allowed attributes reason :
  authorizer.GetAttributes m req = (Some attributes, None) ->
  authorizer.Authorize ns (etcd (proc s)) (Some attributes) =
    (false, reason, None) ->
  denied reason req s
         [CallGetAttributes m req; CallAuthorize (Some attributes);
          forbiddenLog reason] out.
Proof.
  intros H Hauth. unfold out, Origin.authorizationHandlerFunc. fold m.
  rewrite H. cbn [Origin.called proc trace resp]. fold ns.
  rewrite Hauth. cbn [negb].
  apply (forbidden_denied _ req _
           [CallGetAttributes m req; CallAuthorize (Some attributes)] s);
    try reflexivity.
  simpl. now rewrite <- app_assoc.
Qed.

Lemma filter_allowed attributes reason :
  authorizer.GetAttributes m req = (Some attributes, None) ->
  authorizer.Authorize ns (etcd (proc s)) (Some attributes) =
    (true, reason, None) ->
  forwarded handler req s
            [CallGetAttributes m req; CallAuthorize (Some attributes)] out.
Proof.
  intros H Hauth. unfold out, Origin.authorizationHandlerFunc. fold m.
  rewrite H. cbn [Origin.called proc trace resp]. fold ns.
  rewrite Hauth. cbn [negb]. unfold forwarded, Origin.called. simpl.
  now rewrite <- app_assoc.
Qed.

End Paths.

(** C1 (amended). The decision procedure of the filter, in order: an
    attribute-build failure with the sentinel forwards the request to
    the wrapped handler, the filter writing nothing; any other
    attribute-build error denies with the error text; no error but no
    attributes denies with [No attributes], the authorizer not being
    consulted; otherwise the authorizer is consulted, and its error or a
    not-allowed verdict denies while an allowed verdict forwards the
    request with the response writer and the process untouched. *)
Theorem authorizationFilter_decision (contexts : nat) (handler : Handler)
  (req : http.Request) (s : State) :
  let m := Origin.contextMap contexts (proc s) in
  let out := Origin.authorizationHandlerFunc c contexts handler req s in
  match authorizer.GetAttributes m req with
  | (_, Some ErrNoStandardParts) =>
    forwarded handler req s [CallGetAttributes m req; allowingLog req] out
  | (_, Some (errorString text)) =>
    denied text req s [CallGetAttributes m req; forbiddenLog text] out
  | (None, None) =>
    denied "No attributes" req s
           [CallGetAttributes m req; forbiddenLog "No attributes"] out
  | (Some attributes, None) =>
    match authorizer.Authorize (Origin.MasterAuthorizationNamespace c)
                               (etcd (proc s)) (Some attributes) with
    | (_, _, Some e) =>
      denied (authorizer.Error e) req s
             [CallGetAttributes m req; CallAuthorize (Some attributes);
              forbiddenLog (authorizer.Error e)] out
    | (false, reason, None) =>
      denied reason req s
             [CallGetAttributes m req; CallAuthorize (Some attributes);
              forbiddenLog reason] out
    | (true, _, None) =>
      forwarded handler req s
                [CallGetAttributes m req; CallAuthorize (Some attributes)]
                out
    end
  end.
Proof.
  intros m out. subst m out.
  destruct (authorizer.GetAttributes _ req) as [attributes err] eqn:Hbuild.
  destruct err as [[|text]|], attributes as [attributes|].
  - eapply filter_sentinel, Hbuild.
  - eapply filter_sentinel, Hbuild.
  - eapply filter_build_error, Hbuild.
  - eapply filter_build_error, Hbuild.
  - destruct (authorizer.Authorize _ _ _) as [[allowed reason] err] eqn:Hauth.
    destruct err as [e|], allowed.
    + eapply filter_authorize_error; [exact Hbuild | exact Hauth].
    + eapply filter_authorize_error; [exact Hbuild | exact Hauth].
    + eapply filter_allowed; [exact Hbuild | exact Hauth].
    + eapply filter_not_allowed; [exact Hbuild | exact Hauth].
  - apply filter_no_attributes, Hbuild.
Qed.

(** C2 (amended). Every denial that the specification lists, made on a
    response writer on which nothing was written yet, answers with
    status 403 and with the body [Forbidden: ], the request URI as [%q]
    prints it, a space and the reason: the body holds the reason as it
    is and the quoted URI, and it holds the URI as it is when the URI is
    a plain text. *)
Theorem denial_response (contexts : nat) (handler : Handler)
  (req : http.Request) (s : State) (reason : string) :
  denial c contexts req s reason ->
  http.wroteHeader (resp s) = false ->
  let out := Origin.authorizationHandlerFunc c contexts handler req s in
  http.status (resp out) = 403 /\
  http.written (resp out) =
    http.written (resp s) +:+ "Forbidden: " +:+
    strconv.Quote (http.RequestURI req) +:+ " " +:+ reason /\
  occurs_in reason (http.written (resp out)) /\
  occurs_in (strconv.Quote (http.RequestURI req)) (http.written (resp out)) /\
  (plainText (http.RequestURI req) = true ->
   occurs_in (http.RequestURI req) (http.written (resp out))).
Proof.
  intros Hdenial Hfresh out.
  assert (Hdenied : exists calls, denied reason req s calls out).
  { destruct Hdenial as [attributes e Hbuild Hne
                        |attributes allowed reason e Hbuild Hauth
                        |attributes reason Hbuild Hauth].
    - destruct e as [|text]; [congruence |].
      eexists. eapply filter_build_error. exact Hbuild.
    - eexists. eapply filter_authorize_error; eassumption.
    - eexists. eapply filter_not_allowed; eassumption. }
  destruct Hdenied as [calls Hdenied].
  destruct (denied_fresh _ _ _ _ _ Hdenied Hfresh) as [Hstatus Hbody].
  split; [exact Hstatus |]. split; [exact Hbody |]. rewrite Hbody.
  split; [| split].
  - apply occurs_in_append_l, occurs_in_append_l, occurs_in_append_l.
    exists " ", "". now rewrite append_empty_r.
  - apply occurs_in_append_l, occurs_in_append_l, occurs_in_append_r.
    exists "", "". simpl. now rewrite append_empty_r.
  - intros Hplain. rewrite (Quote_plain _ Hplain).
    apply occurs_in_append_l, occurs_in_append_l.
    exists (String (strconv.ofByte 34) ""),
           (String (strconv.ofByte 34) "" +:+ " " +:+ reason).
    simpl. now rewrite append_assoc.
Qed.

(** C10. A request for which the attribute builder returns neither
    attributes nor an error is denied: on a response writer on which
    nothing was written yet the status is 403 and the body carries the
    reason [No attributes]; the filter leaves the process as it was, it
    calls the attribute builder and logs the denial and makes no other
    call (the authorizer is not consulted), and the outcome is the same
    whatever the wrapped handler is (it is not invoked). *)
Theorem nil_attributes_denied (contexts : nat) (handler : Handler)
  (req : http.Request) (s : State) :
  authorizer.GetAttributes (Origin.contextMap contexts (proc s)) req =
    (None, None) ->
  http.wroteHeader (resp s) = false ->
  let out := Origin.authorizationHandlerFunc c contexts handler req s in
  http.status (resp out) = 403 /\
  http.written (resp out) =
    http.written (resp s) +:+ "Forbidden: " +:+
    strconv.Quote (http.RequestURI req) +:+ " No attributes" /\
  proc out = proc s /\
  trace out =
    trace s ++
    [CallGetAttributes (Origin.contextMap contexts (proc s)) req;
     forbiddenLog "No attributes"] /\
  (forall other : Handler,
     Origin.authorizationHandlerFunc c contexts other req s = out).
Proof.
  intros Hbuild Hfresh out.
  pose proof (filter_no_attributes contexts handler req s Hbuild) as H.
  destruct (denied_fresh _ _ _ _ _ H Hfresh) as [Hstatus Hbody].
  destruct H as (_ & Hproc & Htrace).
  repeat split; try assumption.
  intros other. subst out. unfold Origin.authorizationHandlerFunc.
  now rewrite Hbuild.
Qed.

End AuthorizationFilter.

(** *** The filter on the example installation *)

Import Example.

(** C1, as stated, fails for a request without attributes and without
    error: nothing failed and the authorizer would allow the request, yet
    the filter answers 403 without consulting the authorizer and without
    invoking the wrapped handler. *)
Lemma authorizationFilter_skips_authorizer :
  let req := request "/osapi/v1beta1" in
  let out := Origin.authorizationHandlerFunc config 0 inner req arrival in
  authorizer.GetAttributes (Origin.contextMap 0 (proc arrival)) req =
    (None, None) /\
  authorizer.Authorize (Origin.MasterAuthorizationNamespace config)
                       (etcd (proc arrival)) None = (true, "", None) /\
  http.status (resp out) = 403 /\
  List.filter is_CallAuthorize (trace out) = [] /\
  List.filter is_CallServeHTTP (trace out) = [].
Proof. vm_compute. repeat split. Qed.

(** C2, as stated, fails for a request URI with a double quote: the
    request is denied with 403, and the body holds the URI with the quote
    escaped, not the URI. *)
Lemma denial_body_escapes_uri :
  let req := request quotedURI in
  let out := Origin.authorizationHandlerFunc config 0 inner req arrival in
  authorizer.GetAttributes (Origin.contextMap 0 (proc arrival)) req =
    (Some quotedURI, None) /\
  authorizer.Authorize (Origin.MasterAuthorizationNamespace config)
                       (etcd (proc arrival)) (Some quotedURI) =
    (false, "denied by default", None) /\
  http.status (resp out) = 403 /\
  http.written (resp out) =
    "Forbidden: " +:+
    String (strconv.ofByte 34)
      ("/osapi/v1beta1/builds/a\" +:+
       String (strconv.ofByte 34) ("b" +:+ String (strconv.ofByte 34) "")) +:+
    " denied by default" /\
  strings.Contains (http.written (resp out)) (http.RequestURI req) = false.
Proof. vm_compute. repeat split. Qed.

Lemma denial_response_witness :
  let req := request "/osapi/v1beta1/projects" in
  let out := Origin.authorizationHandlerFunc config 0 inner req arrival in
  denial config 0 req arrival "denied by default" /\
  http.wroteHeader (resp arrival) = false /\
  plainText (http.RequestURI req) = true /\
  http.status (resp out) = 403 /\
  occurs_in "denied by default" (http.written (resp out)) /\
  occurs_in "/osapi/v1beta1/projects" (http.written (resp out)).
Proof.
  intros req out.
  assert (Hdenial : denial config 0 req arrival "denied by default").
  { apply (denial_not_allowed config 0 req arrival "/osapi/v1beta1/projects");
      reflexivity. }
  destruct (denial_response config 0 inner req arrival "denied by default"
              Hdenial eq_refl) as (Hstatus & _ & Hreason & _ & Huri).
  split; [exact Hdenial |]. split; [reflexivity |]. split; [reflexivity |].
  split; [exact Hstatus |]. split; [exact Hreason |]. exact (Huri eq_refl).
Defined.

Lemma nil_attributes_denied_witness :
  let req := request "/osapi/v1beta1" in
  let out := Origin.authorizationHandlerFunc config 0 inner req arrival in
  authorizer.GetAttributes (Origin.contextMap 0 (proc arrival)) req =
    (None, None) /\
  http.wroteHeader (resp arrival) = false /\
  http.status (resp out) = 403 /\
  trace out =
    [CallGetAttributes (Origin.contextMap 0 (proc arrival)) req;
     forbiddenLog "No attributes"].
Proof.
  intros req out.
  destruct (nil_attributes_denied config 0 inner req arrival eq_refl eq_refl)
    as (Hstatus & _ & _ & Htrace & _).
  split; [reflexivity |]. split; [reflexivity |].
  split; [exact Hstatus | exact Htrace].
Defined.

(** ** The policy bootstrap *)

Section PolicyBootstrap.
Context {A : authorizer.Package}.
Variable c : Origin.MasterConfig.

Let ns : string := Origin.MasterAuthorizationNamespace c.

Lemma nilOrNotFound_NewNotFound (kind name : string) :
  Origin.nilOrNotFound (Some (authorizationetcd.NewNotFound kind name)) = true.
Proof.
  unfold Origin.nilOrNotFound, authorizationetcd.NewNotFound.
  cbn [authorizer.Error]. apply Contains_occurs_in.
  exists (kind +:+ " " +:+ name), "". now rewrite !append_assoc.
Qed.

Lemma count_app (f : Call -> bool) (l1 l2 : list Call) :
  count f (l1 ++ l2) = (count f l1 + count f l2)%nat.
Proof. unfold count. now rewrite List.filter_app, length_app. Qed.

(** *** The first statement *)

(** The global Policy is there under its name: the statement returns,
    having read the Policy only. *)
Lemma ensureGlobalPolicy_present (p : Process) policy :
  authorizationetcd.policies (etcd p) !! (ns, authorizer.PolicyName) =
    Some policy ->
  authorizationapi.policyName policy = authorizer.PolicyName ->
  Origin.ensureGlobalPolicy c p =
  (true, p, [CallGetPolicy ns authorizer.PolicyName]).
Proof.
  intros Hlookup Hname.
  unfold Origin.ensureGlobalPolicy, bbind, Origin.GetPolicy,
    authorizationetcd.GetPolicy.
  fold ns. rewrite Hlookup. simpl.
  apply String.eqb_eq in Hname. rewrite Hname. reflexivity.
Qed.

(** An object is filed under the key of the global Policy but carries
    another name: the creation is refused and the store stays. *)
Lemma ensureGlobalPolicy_misnamed (p : Process) policy :
  authorizationetcd.policies (etcd p) !! (ns, authorizer.PolicyName) =
    Some policy ->
  authorizationapi.policyName policy <> authorizer.PolicyName ->
  exists p1 calls,
    Origin.ensureGlobalPolicy c p = (false, p1, calls) /\
    etcd p1 = etcd p /\
    count createdPolicy calls = 0%nat /\
    count createdPolicyBinding calls = 0%nat.
Proof.
  intros Hlookup Hname.
  unfold Origin.ensureGlobalPolicy, bbind, Origin.GetPolicy,
    authorizationetcd.GetPolicy.
  fold ns. rewrite Hlookup. simpl.
  apply String.eqb_neq in Hname. rewrite Hname.
  unfold Origin.CreatePolicy, authorizationetcd.CreatePolicy. simpl.
  fold ns. rewrite Hlookup. simpl.
  eexists _, _. split; [reflexivity |]. repeat split.
Qed.

(** No global Policy: the bootstrap Policy is created. *)
Lemma ensureGlobalPolicy_absent (p : Process) :
  authorizationetcd.policies (etcd p) !! (ns, authorizer.PolicyName) = None ->
  exists p1,
    Origin.ensureGlobalPolicy c p =
      (false, p1,
       [CallGetPolicy ns authorizer.PolicyName;
        CallCreatePolicy ns (authorizer.GetBootstrapPolicy ns) None]) /\
    authorizationetcd.policies (etcd p1) =
      <[(ns, authorizer.PolicyName) := authorizer.GetBootstrapPolicy ns]>
        (authorizationetcd.policies (etcd p)) /\
    authorizationetcd.policyBindings (etcd p1) =
      authorizationetcd.policyBindings (etcd p).
Proof.
  intros Hlookup.
  unfold Origin.ensureGlobalPolicy, bbind, Origin.GetPolicy,
    authorizationetcd.GetPolicy.
  fold ns. rewrite Hlookup.
  rewrite nilOrNotFound_NewNotFound. simpl.
  unfold Origin.CreatePolicy, authorizationetcd.CreatePolicy. simpl.
  fold ns. rewrite Hlookup. simpl.
  eexists. split; [reflexivity |]. split; reflexivity.
Qed.

(** *** The second statement *)

Lemma ensureGlobalPolicyBinding_present (p : Process) binding :
  authorizationetcd.policyBindings (etcd p) !! (ns, ns) = Some binding ->
  authorizationapi.bindingName binding = ns ->
  Origin.ensureGlobalPolicyBinding c p =
  (tt, p, [CallGetPolicyBinding ns ns]).
Proof.
  intros Hlookup Hname.
  unfold Origin.ensureGlobalPolicyBinding, bbind, Origin.GetPolicyBinding,
    authorizationetcd.GetPolicyBinding.
  fold ns. rewrite Hlookup. simpl.
  apply String.eqb_eq in Hname. fold ns. rewrite Hname. reflexivity.
Qed.

Lemma ensureGlobalPolicyBinding_misnamed (p : Process) binding :
  authorizationetcd.policyBindings (etcd p) !! (ns, ns) = Some binding ->
  authorizationapi.bindingName binding <> ns ->
  exists p1 calls,
    Origin.ensureGlobalPolicyBinding c p = (tt, p1, calls) /\
    etcd p1 = etcd p /\
    count createdPolicy calls = 0%nat /\
    count createdPolicyBinding calls = 0%nat /\
    count attemptedPolicy calls = 0%nat.
Proof.
  intros Hlookup Hname.
  unfold Origin.ensureGlobalPolicyBinding, bbind, Origin.GetPolicyBinding,
    authorizationetcd.GetPolicyBinding.
  fold ns. rewrite Hlookup. simpl.
  apply String.eqb_neq in Hname. fold ns. rewrite Hname.
  unfold Origin.CreatePolicyBinding, authorizationetcd.CreatePolicyBinding.
  simpl. fold ns. rewrite Hlookup. simpl.
  eexists _, _. split; [reflexivity |]. repeat split.
Qed.

Lemma ensureGlobalPolicyBinding_absent (p : Process) :
  authorizationetcd.policyBindings (etcd p) !! (ns, ns) = None ->
  exists p1,
    Origin.ensureGlobalPolicyBinding c p =
      (tt, p1,
       [CallGetPolicyBinding ns ns;
        CallCreatePolicyBinding ns (authorizer.GetBootstrapPolicyBinding ns)
                                None]) /\
    authorizationetcd.policies (etcd p1) =
      authorizationetcd.policies (etcd p) /\
    authorizationetcd.policyBindings (etcd p1) =
      <[(ns, ns) := authorizer.GetBootstrapPolicyBinding ns]>
        (authorizationetcd.policyBindings (etcd p)).
Proof.
  intros Hlookup.
  unfold Origin.ensureGlobalPolicyBinding, bbind, Origin.GetPolicyBinding,
    authorizationetcd.GetPolicyBinding.
  fold ns. rewrite Hlookup.
  rewrite nilOrNotFound_NewNotFound. simpl.
  unfold Origin.CreatePolicyBinding, authorizationetcd.CreatePolicyBinding.
  simpl. fold ns. rewrite Hlookup. simpl.
  eexists. split; [reflexivity |]. split; reflexivity.
Qed.

(** The second statement never asks for a Policy to be created, creates
    at most one PolicyBinding, and leaves an object under the key of the
    global PolicyBinding; where that key held nothing or an object of its
    name, the statement asks for at most one creation and the key holds an
    object of its name afterwards. *)
Lemma ensureGlobalPolicyBinding_result (p : Process) :
  exists p1 calls,
    Origin.ensureGlobalPolicyBinding c p = (tt, p1, calls) /\
    authorizationetcd.policies (etcd p1) =
      authorizationetcd.policies (etcd p) /\
    is_Some (authorizationetcd.policyBindings (etcd p1) !! (ns, ns)) /\
    count createdPolicy calls = 0%nat /\
    (count createdPolicyBinding calls <= 1)%nat /\
    count attemptedPolicy calls = 0%nat /\
    ((forall binding,
        authorizationetcd.policyBindings (etcd p) !! (ns, ns) =
          Some binding ->
        authorizationapi.bindingName binding = ns) ->
     (count attemptedPolicyBinding calls <= 1)%nat /\
     forall binding,
       authorizationetcd.policyBindings (etcd p1) !! (ns, ns) =
         Some binding ->
       authorizationapi.bindingName binding = ns).
Proof.
  destruct (authorizationetcd.policyBindings (etcd p) !! (ns, ns))
    as [b|] eqn:Hlookup.
  - destruct (decide (authorizationapi.bindingName b = ns)) as [Hname|Hname].
    + exists p, [CallGetPolicyBinding ns ns].
      rewrite (ensureGlobalPolicyBinding_present p b Hlookup Hname).
      rewrite Hlookup. repeat split; try (by eexists); try apply Nat.le_0_l.
      intros b' Hb'. injection Hb' as <-. exact Hname.
    + destruct (ensureGlobalPolicyBinding_misnamed p b Hlookup Hname)
        as (p1 & calls & -> & Hetcd & Hpol & Hbind & Hatt).
      exists p1, calls. rewrite Hetcd, Hlookup, Hpol, Hbind, Hatt.
      repeat split; try (by eexists); try apply Nat.le_0_l;
        exfalso; apply Hname; auto.
  - destruct (ensureGlobalPolicyBinding_absent p Hlookup)
      as (p1 & -> & Hpolicies & Hbindings).
    eexists p1, _. split; [reflexivity |].
    rewrite Hpolicies, Hbindings, lookup_insert_eq.
    repeat split; try (by eexists); try apply Nat.le_refl.
    intros b' Hb'. injection Hb' as <-. reflexivity.
Qed.

(** Where an object is filed under the key of the global PolicyBinding,
    the second statement creates nothing and leaves the store as it is. *)
Lemma ensureGlobalPolicyBinding_settled (p : Process) :
  is_Some (authorizationetcd.policyBindings (etcd p) !! (ns, ns)) ->
  exists p1 calls,
    Origin.ensureGlobalPolicyBinding c p = (tt, p1, calls) /\
    etcd p1 = etcd p /\
    count createdPolicy calls = 0%nat /\
    count createdPolicyBinding calls = 0%nat.
Proof.
  intros [b Hlookup].
  destruct (decide (authorizationapi.bindingName b = ns)) as [Hname|Hname].
  - exists p, [CallGetPolicyBinding ns ns].
    rewrite (ensureGlobalPolicyBinding_present p b Hlookup Hname).
    repeat split.
  - destruct (ensureGlobalPolicyBinding_misnamed p b Hlookup Hname)
      as (p1 & calls & H & Hetcd & Hpol & Hbind & _).
    now exists p1, calls.
Qed.

(** *** The function *)

Lemma ensureComponentAuthorizationRules_returned (p p1 : Process) calls :
  Origin.ensureGlobalPolicy c p = (true, p1, calls) ->
  Origin.ensureComponentAuthorizationRules c p = (tt, p1, calls).
Proof.
  intros H. unfold Origin.ensureComponentAuthorizationRules, bbind.
  rewrite H. simpl. now rewrite app_nil_r.
Qed.

Lemma ensureComponentAuthorizationRules_continued (p p1 p2 : Process)
  calls1 calls2 :
  Origin.ensureGlobalPolicy c p = (false, p1, calls1) ->
  Origin.ensureGlobalPolicyBinding c p1 = (tt, p2, calls2) ->
  Origin.ensureComponentAuthorizationRules c p = (tt, p2, calls1 ++ calls2).
Proof.
  intros H1 H2. unfold Origin.ensureComponentAuthorizationRules, bbind.
  rewrite H1. simpl. now rewrite H2.
Qed.

(** With the global Policy there under its name, the whole function is the
    one read of the Policy. *)
Lemma ensureComponentAuthorizationRules_present (p : Process) policy :
  authorizationetcd.policies (etcd p) !! (ns, authorizer.PolicyName) =
    Some policy ->
  authorizationapi.policyName policy = authorizer.PolicyName ->
  Origin.ensureComponentAuthorizationRules c p =
  (tt, p, [CallGetPolicy ns authorizer.PolicyName]).
Proof.
  intros Hlookup Hname. apply ensureComponentAuthorizationRules_returned.
  now apply (ensureGlobalPolicy_present p policy).
Qed.

Lemma ensureComponentAuthorizationRules_settles (p : Process) :
  exists p1 calls,
    Origin.ensureComponentAuthorizationRules c p = (tt, p1, calls) /\
    settled c (etcd p1) /\
    (count createdPolicy calls <= 1)%nat /\
    (count createdPolicyBinding calls <= 1)%nat /\
    (filedByName c (etcd p) ->
     filedByName c (etcd p1) /\
     (count attemptedPolicy calls <= 1)%nat /\
     (count attemptedPolicyBinding calls <= 1)%nat).
Proof.
  destruct (authorizationetcd.policies (etcd p) !! (ns, authorizer.PolicyName))
    as [policy|] eqn:Hlookup.
  - destruct (decide (authorizationapi.policyName policy =
                      authorizer.PolicyName)) as [Hname|Hname].
    + exists p, [CallGetPolicy ns authorizer.PolicyName].
      rewrite (ensureComponentAuthorizationRules_present p policy Hlookup Hname).
      split; [reflexivity |]. split; [exists policy; auto |].
      split; [apply Nat.le_0_l |]. split; [apply Nat.le_0_l |].
      intros Hfiled. split; [exact Hfiled |]. split; apply Nat.le_0_l.
    + destruct (ensureGlobalPolicy_misnamed p policy Hlookup Hname)
        as (p1 & calls1 & H1 & Hetcd1 & Hpol1 & Hbind1).
      destruct (ensureGlobalPolicyBinding_result p1)
        as (p2 & calls2 & H2 & Hpolicies2 & Hsome2 & Hpol2 & Hbind2 & _).
      exists p2, (calls1 ++ calls2).
      rewrite (ensureComponentAuthorizationRules_continued _ _ _ _ _ H1 H2).
      split; [reflexivity |]. split.
      { exists policy. rewrite Hpolicies2, Hetcd1. auto. }
      rewrite !count_app, Hpol1, Hbind1, Hpol2. simpl.
      split; [apply Nat.le_0_l |]. split; [exact Hbind2 |].
      intros [Hfiled _]. exfalso. apply Hname, Hfiled, Hlookup.
  - destruct (ensureGlobalPolicy_absent p Hlookup)
      as (p1 & H1 & Hpolicies1 & Hbindings1).
    destruct (ensureGlobalPolicyBinding_result p1)
      as (p2 & calls2 & H2 & Hpolicies2 & Hsome2 & Hpol2 & Hbind2 & Hatt2
          & Hfiled2).
    eexists p2, _.
    rewrite (ensureComponentAuthorizationRules_continued _ _ _ _ _ H1 H2).
    split; [reflexivity |].
    assert (Hnow : authorizationetcd.policies (etcd p2)
                     !! (ns, authorizer.PolicyName) =
                   Some (authorizer.GetBootstrapPolicy ns)).
    { rewrite Hpolicies2, Hpolicies1. apply lookup_insert_eq. }
    split; [exists (authorizer.GetBootstrapPolicy ns); auto |].
    rewrite !count_app, Hpol2, Hatt2. simpl.
    split; [apply Nat.le_refl |]. split; [exact Hbind2 |].
    intros [_ Hfiled]. rewrite Hbindings1 in Hfiled2.
    destruct (Hfiled2 Hfiled) as [Hattempts Hnamed].
    split; [| split; [apply Nat.le_refl | exact Hattempts]].
    split; [| exact Hnamed].
    intros policy Hpolicy. fold ns in Hpolicy. rewrite Hnow in Hpolicy.
    injection Hpolicy as <-. reflexivity.
Qed.

Lemma ensureComponentAuthorizationRules_settled (p : Process) :
  settled c (etcd p) ->
  exists p1 calls,
    Origin.ensureComponentAuthorizationRules c p = (tt, p1, calls) /\
    etcd p1 = etcd p /\
    count createdPolicy calls = 0%nat /\
    count createdPolicyBinding calls = 0%nat /\
    (filedByName c (etcd p) ->
     count attemptedPolicy calls = 0%nat /\
     count attemptedPolicyBinding calls = 0%nat).
Proof.
  intros (policy & Hlookup & Hcase).
  destruct (decide (authorizationapi.policyName policy =
                    authorizer.PolicyName)) as [Hname|Hname].
  - exists p, [CallGetPolicy ns authorizer.PolicyName].
    rewrite (ensureComponentAuthorizationRules_present p policy Hlookup Hname).
    repeat split.
  - destruct Hcase as [Hname'|Hsome]; [contradiction |].
    destruct (ensureGlobalPolicy_misnamed p policy Hlookup Hname)
      as (p1 & calls1 & H1 & Hetcd1 & Hpol1 & Hbind1).
    rewrite <- Hetcd1 in Hsome.
    destruct (ensureGlobalPolicyBinding_settled p1 Hsome)
      as (p2 & calls2 & H2 & Hetcd2 & Hpol2 & Hbind2).
    exists p2, (calls1 ++ calls2).
    rewrite (ensureComponentAuthorizationRules_continued _ _ _ _ _ H1 H2).
    split; [reflexivity |]. split; [now rewrite Hetcd2 |].
    rewrite !count_app, Hpol1, Hbind1, Hpol2, Hbind2.
    repeat split.
    all: destruct H as [Hfiled _]; exfalso; apply Hname, Hfiled, Hlookup.
Qed.

(** C3. A run of the bootstrap on a store that holds the global Policy
    and the global PolicyBinding under their names reads the Policy and
    does nothing else: the process is as it was and no creation is asked
    for.  Two runs in a row on any store: the second run leaves the store
    of the first, and over both runs the registry accepts at most one
    Policy and at most one PolicyBinding; on a store that files objects by
    their names, at most one creation of each is even asked for. *)
Theorem bootstrap_creates_at_most_once (p : Process) :
  (forall policy binding,
     authorizationetcd.policies (etcd p) !! (ns, authorizer.PolicyName) =
       Some policy ->
     authorizationapi.policyName policy = authorizer.PolicyName ->
     authorizationetcd.policyBindings (etcd p) !! (ns, ns) = Some binding ->
     authorizationapi.bindingName binding = ns ->
     Origin.ensureComponentAuthorizationRules c p =
       (tt, p, [CallGetPolicy ns authorizer.PolicyName])) /\
  (let '(_, p1, calls1) := Origin.ensureComponentAuthorizationRules c p in
   let '(_, p2, calls2) := Origin.ensureComponentAuthorizationRules c p1 in
   etcd p2 = etcd p1 /\
   (count createdPolicy (calls1 ++ calls2) <= 1)%nat /\
   (count createdPolicyBinding (calls1 ++ calls2) <= 1)%nat /\
   (filedByName c (etcd p) ->
    (count attemptedPolicy (calls1 ++ calls2) <= 1)%nat /\
    (count attemptedPolicyBinding (calls1 ++ calls2) <= 1)%nat)).
Proof.
  split.
  - intros policy binding Hpolicy Hname _ _.
    now apply (ensureComponentAuthorizationRules_present p policy).
  - destruct (ensureComponentAuthorizationRules_settles p)
      as (p1 & calls1 & -> & Hsettled & Hpol1 & Hbind1 & Hfiled1).
    destruct (ensureComponentAuthorizationRules_settled p1 Hsettled)
      as (p2 & calls2 & -> & Hetcd & Hpol2 & Hbind2 & Hfiled2).
    split; [exact Hetcd |]. rewrite !count_app, Hpol2, Hbind2, !Nat.add_0_r.
    split; [exact Hpol1 |]. split; [exact Hbind1 |].
    intros Hfiled. destruct (Hfiled1 Hfiled) as (Hfiled' & Hatt1 & Hattb1).
    destruct (Hfiled2 Hfiled') as [-> ->]. rewrite !Nat.add_0_r. auto.
Qed.

(** C9. Where the bootstrap finds the global Policy under its name, it
    returns at once: its only call is the read of the Policy, so the
    PolicyBinding is not read, not checked and not created, and the
    process is as it was; a store without the global PolicyBinding is
    still without it afterwards. *)
Theorem policy_present_skips_binding (p : Process) policy :
  authorizationetcd.policies (etcd p) !! (ns, authorizer.PolicyName) =
    Some policy ->
  authorizationapi.policyName policy = authorizer.PolicyName ->
  let '(_, p1, calls) := Origin.ensureComponentAuthorizationRules c p in
  calls = [CallGetPolicy ns authorizer.PolicyName] /\
  List.filter touchesPolicyBinding calls = [] /\
  p1 = p /\
  (authorizationetcd.policyBindings (etcd p) !! (ns, ns) = None ->
   authorizationetcd.policyBindings (etcd p1) !! (ns, ns) = None).
Proof.
  intros Hpolicy Hname.
  rewrite (ensureComponentAuthorizationRules_present p policy Hpolicy Hname).
  repeat split. auto.
Qed.

End PolicyBootstrap.

(** *** The bootstrap on the example installation *)

Lemma bootstrap_creates_at_most_once_witness :
  let ns := Origin.MasterAuthorizationNamespace config in
  authorizationetcd.policies (etcd bootstrapped)
    !! (ns, authorizer.PolicyName) =
    Some (authorizer.GetBootstrapPolicy "master") /\
  authorizationetcd.policyBindings (etcd bootstrapped) !! (ns, ns) =
    Some (authorizer.GetBootstrapPolicyBinding "master") /\
  filedByName config (etcd boot) /\
  Origin.ensureComponentAuthorizationRules config bootstrapped =
    (tt, bootstrapped, [CallGetPolicy "master" "default"]) /\
  (let '(_, p1, calls1) := Origin.ensureComponentAuthorizationRules config boot in
   let '(_, p2, calls2) := Origin.ensureComponentAuthorizationRules config p1 in
   (count attemptedPolicy (calls1 ++ calls2) <= 1)%nat /\
   (count attemptedPolicyBinding (calls1 ++ calls2) <= 1)%nat).
Proof.
  intros ns.
  assert (Hfiled : filedByName config (etcd boot)).
  { split; intros x Hx; discriminate Hx. }
  split; [reflexivity |]. split; [reflexivity |]. split; [exact Hfiled |].
  split.
  - exact (proj1 (bootstrap_creates_at_most_once config bootstrapped)
                 _ _ eq_refl eq_refl eq_refl eq_refl).
  - pose proof (proj2 (bootstrap_creates_at_most_once config boot)) as H.
    destruct (Origin.ensureComponentAuthorizationRules config boot)
      as [[u1 p1] calls1].
    destruct (Origin.ensureComponentAuthorizationRules config p1)
      as [[u2 p2] calls2].
    exact (proj2 (proj2 (proj2 H)) Hfiled).
Defined.

Lemma policy_present_skips_binding_witness :
  let ns := Origin.MasterAuthorizationNamespace config in
  authorizationetcd.policies (etcd policyOnly)
    !! (ns, authorizer.PolicyName) =
    Some (authorizer.GetBootstrapPolicy "master") /\
  authorizationetcd.policyBindings (etcd policyOnly) !! (ns, ns) = None /\
  (let '(_, p1, calls) :=
     Origin.ensureComponentAuthorizationRules config policyOnly in
   calls = [CallGetPolicy "master" "default"] /\
   authorizationetcd.policyBindings (etcd p1) !! (ns, ns) = None).
Proof.
  intros ns. split; [reflexivity |]. split; [reflexivity |].
  pose proof (policy_present_skips_binding config policyOnly
                (authorizer.GetBootstrapPolicy "master") eq_refl eq_refl) as H.
  destruct (Origin.ensureComponentAuthorizationRules config policyOnly)
    as [[u p1] calls].
  destruct H as (Hcalls & _ & _ & Habsent).
  split; [exact Hcalls | exact (Habsent eq_refl)].
Defined.


(** ** The shared request context map *)

Section SharedContexts.
Context {A : authorizer.Package} {U : strconv.Unicode} {L : Origin.Libraries}.

(** [getRequestsToUsers] returns the shared map, which is the map of the
    configuration from then on. *)
Lemma getRequestsToUsers_shared (p : Process) :
  exists p',
    Origin.getRequestsToUsers p = Return (sharedContexts p) p' /\
    requestsToUsers p' = Some (sharedContexts p) /\
    etcd p' = etcd p.
Proof.
  unfold Origin.getRequestsToUsers, sharedContexts, Origin.allocate.
  destruct (requestsToUsers p) as [l|] eqn:Hfield.
  - exists p. auto.
  - eexists. split; [reflexivity |]. split; reflexivity.
Qed.

Lemma sharedContexts_configured (p : Process) (l : nat) :
  requestsToUsers p = Some l -> sharedContexts p = l.
Proof. intros H. unfold sharedContexts. now rewrite H. Qed.

(** A second call returns the same map and changes nothing. *)
Lemma getRequestsToUsers_again (p : Process) (l : nat) :
  requestsToUsers p = Some l -> Origin.getRequestsToUsers p = Return l p.
Proof. intros H. unfold Origin.getRequestsToUsers. now rewrite H. Qed.

End SharedContexts.

(** ** The chain in front of the protected container *)

Section ProtectedChain.
Context {A : authorizer.Package} {U : strconv.Unicode} {L : Origin.Libraries}.
Variable c : Origin.MasterConfig.

Lemma contextMap_setContextMap (l : nat) (m : RequestContextMap)
  (p : Process) :
  Origin.contextMap l (Origin.setContextMap l m p) = m.
Proof.
  unfold Origin.contextMap, Origin.setContextMap. simpl.
  now rewrite lookup_insert_eq.
Qed.

Lemma forbidden_trace (reason : string) (req : http.Request) (s : State) :
  trace (Origin.forbidden reason req s) = trace s ++ [forbiddenLog reason].
Proof. reflexivity. Qed.

Lemma serve_trace (f : Servlet) (req : http.Request) (s : State) :
  trace (Origin.serve f req s) = trace s ++ [CallServeHTTP req].
Proof.
  unfold Origin.serve, Origin.called. simpl.
  now destruct (f req (resp s, proc s)).
Qed.

(** The authorization stage starts by asking the attribute builder, which
    reads the context map as the stage finds it. *)
Lemma authorizationHandlerFunc_trace (contexts : nat) (f : Servlet)
  (req : http.Request) (s : State) :
  exists more,
    trace (Origin.authorizationHandlerFunc c contexts (Origin.serve f) req s) =
    trace s ++
    CallGetAttributes (Origin.contextMap contexts (proc s)) req :: more /\
    count is_CallGetAttributes more = 0%nat /\
    count is_CallAuthenticateRequest more = 0%nat.
Proof.
  unfold Origin.authorizationHandlerFunc.
  destruct (authorizer.GetAttributes _ req) as [attributes err].
  destruct err as [[|text]|].
  - rewrite serve_trace. simpl. rewrite <- !app_assoc. simpl.
    eexists. split; [reflexivity |]. split; reflexivity.
  - rewrite forbidden_trace. simpl. rewrite <- !app_assoc. simpl.
    eexists. split; [reflexivity |]. split; reflexivity.
  - destruct attributes as [a|].
    + simpl.
      destruct (authorizer.Authorize _ _ _) as [[allowed reason] err].
      destruct err as [e|], allowed; simpl;
        rewrite ?serve_trace, ?forbidden_trace; simpl;
        rewrite <- !app_assoc; simpl;
        (eexists; split; [reflexivity |]; split; reflexivity).
    + rewrite forbidden_trace. simpl. rewrite <- !app_assoc. simpl.
      eexists. split; [reflexivity |]. split; reflexivity.
Qed.

(** [Run] wraps the protected container in the authorization filter and
    that in the authentication filter, both over the shared map. *)
Lemma protectedHandler_chain (safe : restful.Container) (p : Process) :
  exists p',
    Origin.protectedHandler c safe p =
      Return (Origin.authenticationHandlerFilter
                (Origin.authorizationHandlerFunc
                   c (sharedContexts p)
                   (Origin.serve (Origin.ServeRoutes safe)))
                (Origin.Authenticator c) (sharedContexts p)) p' /\
    requestsToUsers p' = Some (sharedContexts p).
Proof.
  destruct (getRequestsToUsers_shared p) as (p' & Hfirst & Hfield & _).
  exists p'. split; [| exact Hfield].
  unfold Origin.protectedHandler, Origin.authorizationFilter, sbind, sret.
  rewrite Hfirst. now rewrite (getRequestsToUsers_again p' _ Hfield).
Qed.

(** C5.  The handler that [Run] mounts for the protected surface is the
    authentication filter around the authorization filter around the
    protected container, both filters over the one shared request context
    map.  On every request the first call of the chain is the one to the
    authenticator.  When the request is authenticated, the next call is
    the one to the attribute builder of the authorization filter, and the
    context map that the builder reads holds the identity of the request
    under the key of the request; the builder and the authenticator are
    not called again.  When the request is not authenticated, the
    authorization filter does not run. *)
Theorem authentication_precedes_authorization (safe : restful.Container)
  (p : Process) :
  exists contexts p',
    let authorization :=
      Origin.authorizationHandlerFunc
        c contexts (Origin.serve (Origin.ServeRoutes safe)) in
    let chain :=
      Origin.authenticationHandlerFilter
        authorization (Origin.Authenticator c) contexts in
    Origin.protectedHandler c safe p = Return chain p' /\
    requestsToUsers p' = Some contexts /\
    forall (req : http.Request) (s : State),
      match Origin.Authenticator c req with
      | (user, true, None) =>
        exists more,
          trace (chain req s) =
            trace s ++
            CallAuthenticateRequest req ::
            CallGetAttributes
              (<[http.addr req := user]>
                 (Origin.contextMap contexts (proc s))) req :: more /\
          count is_CallGetAttributes more = 0%nat /\
          count is_CallAuthenticateRequest more = 0%nat
      | _ => trace (chain req s) = trace s ++ [CallAuthenticateRequest req]
      end.
Proof.
  destruct (protectedHandler_chain safe p) as (p' & Hrun & Hfield).
  exists (sharedContexts p), p'. cbv zeta.
  split; [exact Hrun |]. split; [exact Hfield |].
  intros req s. unfold Origin.authenticationHandlerFilter.
  destruct (Origin.Authenticator c req) as [[user ok] err].
  destruct ok, err as [e|]; try reflexivity.
  simpl.
  destruct (authorizationHandlerFunc_trace
              (sharedContexts p) (Origin.ServeRoutes safe) req
              {| resp := resp (Origin.called (CallAuthenticateRequest req) s);
                 proc := Origin.setContextMap
                           (sharedContexts p)
                           (<[http.addr req := user]>
                              (Origin.contextMap (sharedContexts p)
                                                 (proc s)))
                           (proc s);
                 trace := trace s ++ [CallAuthenticateRequest req] |})
    as (more & Htrace & Hbuilder & Hauthenticator).
  exists more. split; [| split; assumption].
  simpl in Htrace. rewrite contextMap_setContextMap in Htrace.
  rewrite <- app_assoc in Htrace. exact Htrace.
Qed.

End ProtectedChain.

(** *** The chain on the example installation *)

Lemma authentication_precedes_authorization_witness :
  let req := request "/osapi/v1beta1/builds" in
  exists contexts p' more,
    let chain :=
      Origin.authenticationHandlerFilter
        (Origin.authorizationHandlerFunc
           config contexts
           (Origin.serve (Origin.ServeRoutes Origin.NewHandlerContainer)))
        (Origin.Authenticator config) contexts in
    Origin.protectedHandler config Origin.NewHandlerContainer boot =
      Return chain p' /\
    trace (chain req arrival) =
      CallAuthenticateRequest req ::
      CallGetAttributes
        (<[7%nat := {| userName := "alice" |}]>
           (Origin.contextMap contexts boot)) req :: more.
Proof.
  intros req.
  destruct (authentication_precedes_authorization
              config Origin.NewHandlerContainer boot)
    as (contexts & p' & Hrun & _ & Hreq).
  destruct (Hreq req arrival) as (more & Htrace & _).
  exists contexts, p', more. split; [exact Hrun | exact Htrace].
Defined.

(** ** Installation of the protected API *)

Section ProtectedAPI.
Context {A : authorizer.Package} {U : strconv.Unicode} {L : Origin.Libraries}.

Lemma isCurrentUserRoute_decide (route : restful.Route) :
  Origin.isCurrentUserRoute route =
  bool_decide (restful.Method route = "GET" /\
               restful.Path route = "/osapi/v1beta1/users/{name}").
Proof.
  unfold Origin.isCurrentUserRoute.
  change (Origin.OpenShiftAPIPrefixV1Beta1 +:+ "/users/{name}")
    with "/osapi/v1beta1/users/{name}".
  destruct (String.eqb_spec (restful.Method route) "GET") as [Hm|Hm],
           (String.eqb_spec (restful.Path route)
                            "/osapi/v1beta1/users/{name}") as [Hp|Hp];
    simpl; symmetry;
    [apply bool_decide_eq_true_2; auto | apply bool_decide_eq_false_2; tauto ..].
Qed.

Lemma versioned_root_decide (svc : restful.WebService) :
  String.eqb (restful.RootPath svc) Origin.OpenShiftAPIPrefixV1Beta1 =
  bool_decide (restful.RootPath svc = "/osapi/v1beta1").
Proof.
  change Origin.OpenShiftAPIPrefixV1Beta1 with "/osapi/v1beta1".
  destruct (String.eqb_spec (restful.RootPath svc) "/osapi/v1beta1");
    symmetry; [now apply bool_decide_eq_true_2 | now apply bool_decide_eq_false_2].
Qed.

(** The inner loop adds the filter to the current-user routes and counts
    them. *)
Lemma installUserFilter_routes (filter : restful.FilterFunction)
  (svc : restful.WebService) (routes : list restful.Route) :
  restful.RootPath svc = "/osapi/v1beta1" ->
  Origin.installUserFilter filter routes =
  (map (injectFilter filter svc) routes,
   length (base.filter
             (fun route =>
                restful.Method route = "GET" /\
                restful.Path route = "/osapi/v1beta1/users/{name}")
             routes)).
Proof.
  intros Hroot. induction routes as [|route rest IH]; [reflexivity |].
  cbn [Origin.installUserFilter]. rewrite IH, isCurrentUserRoute_decide.
  rewrite filter_cons. cbn [map]. unfold injectFilter.
  destruct (decide (restful.Method route = "GET" /\
                    restful.Path route = "/osapi/v1beta1/users/{name}"))
    as [Hroute|Hroute].
  - rewrite !bool_decide_eq_true_2 by tauto. reflexivity.
  - rewrite !bool_decide_eq_false_2 by tauto. reflexivity.
Qed.

Lemma withUserFilter_RootPath (filter : restful.FilterFunction)
  (svc : restful.WebService) :
  restful.RootPath (withUserFilter filter svc) = restful.RootPath svc.
Proof. unfold withUserFilter. now case_bool_decide. Qed.

Lemma withUserFilter_Routes (filter : restful.FilterFunction)
  (svc : restful.WebService) :
  restful.Routes (withUserFilter filter svc) =
  map (injectFilter filter svc) (restful.Routes svc).
Proof.
  unfold withUserFilter. case_bool_decide as Hroot; [reflexivity |].
  simpl. rewrite <- (map_id (restful.Routes svc)) at 1.
  apply map_ext. intros route. unfold injectFilter.
  rewrite bool_decide_eq_false_2 by tauto. reflexivity.
Qed.

Lemma currentUserRoutes_cons (svc : restful.WebService)
  (rest : list restful.WebService) :
  currentUserRoutes (svc :: rest) =
  (if decide (restful.RootPath svc = "/osapi/v1beta1") then
     base.filter (fun route =>
                    restful.Method route = "GET" /\
                    restful.Path route = "/osapi/v1beta1/users/{name}")
                 (restful.Routes svc)
   else []) ++ currentUserRoutes rest.
Proof.
  unfold currentUserRoutes. rewrite filter_cons.
  destruct (decide (restful.RootPath svc = "/osapi/v1beta1")).
  - cbn [flat_map]. now rewrite filter_app.
  - reflexivity.
Qed.

(** The shared map stays the shared map when it is asked for. *)
Lemma getRequestsToUsers_sharedContexts (p : Process) :
  exists p',
    Origin.getRequestsToUsers p = Return (sharedContexts p) p' /\
    requestsToUsers p' = Some (sharedContexts p) /\
    sharedContexts p' = sharedContexts p /\
    etcd p' = etcd p.
Proof.
  destruct (getRequestsToUsers_shared p) as (p' & Hcall & Hfield & Hstore).
  exists p'. repeat split; try assumption.
  now apply sharedContexts_configured.
Qed.

(** Once the shared map is there, the outer loop leaves the process as
    it is. *)
Lemma scanWebServices_configured (services : list restful.WebService) :
  forall (index : nat) (root : option nat) (userRoutesChanged : nat)
         (p : Process) (l : nat),
  requestsToUsers p = Some l ->
  exists result,
    Origin.scanWebServices services index root userRoutesChanged p =
      Return result p.
Proof.
  induction services as [|svc rest IH]; intros index root n p l Hfield.
  - eexists. reflexivity.
  - cbn [Origin.scanWebServices].
    destruct (String.eqb (restful.RootPath svc) "/").
    + destruct (IH (S index) (Some index) n p l Hfield) as ([[? ?] ?] & Hrest).
      unfold sbind. rewrite Hrest. eexists. reflexivity.
    + destruct (String.eqb (restful.RootPath svc)
                           Origin.OpenShiftAPIPrefixV1Beta1).
      * unfold sbind at 1.
        rewrite (getRequestsToUsers_again p l Hfield).
        destruct (Origin.installUserFilter _ _) as [routes changed].
        destruct (IH (S index) root (n + changed)%nat p l Hfield)
          as ([[? ?] ?] & Hrest).
        unfold sbind. rewrite Hrest. eexists. reflexivity.
      * destruct (IH (S index) root n p l Hfield) as ([[? ?] ?] & Hrest).
        unfold sbind. rewrite Hrest. eexists. reflexivity.
Qed.

(** The outer loop: every web service rooted at the versioned API prefix
    has got the filter on its current-user routes, and the counter went
    up by the number of these routes. *)
Lemma scanWebServices_services (services : list restful.WebService) :
  forall (index : nat) (root : option nat) (userRoutesChanged : nat)
         (p : Process),
  exists root' p',
    Origin.scanWebServices services index root userRoutesChanged p =
      Return (map (withUserFilter
                     (restful.currentUserContextFilter (sharedContexts p)))
                  services,
              root',
              (userRoutesChanged + length (currentUserRoutes services))%nat)
             p' /\
    sharedContexts p' = sharedContexts p /\
    etcd p' = etcd p /\
    ((0 < length (currentUserRoutes services))%nat ->
     requestsToUsers p' = Some (sharedContexts p)).
Proof.
  induction services as [|svc rest IH]; intros index root n p.
  - exists root, p. simpl. unfold sret. rewrite Nat.add_0_r.
    repeat split. intros H. inversion H.
  - cbn [Origin.scanWebServices]. rewrite versioned_root_decide.
    rewrite currentUserRoutes_cons. cbn [map]. unfold withUserFilter at 1.
    destruct (String.eqb_spec (restful.RootPath svc) "/") as [Hslash|Hslash].
    + rewrite bool_decide_eq_false_2 by (rewrite Hslash; discriminate).
      rewrite decide_False by (rewrite Hslash; discriminate).
      destruct (IH (S index) (Some index) n p)
        as (root' & p' & Hrest & Hshared & Hstore & Hfield).
      exists root', p'. unfold sbind. rewrite Hrest. simpl. unfold sret.
      repeat split; assumption.
    + destruct (decide (restful.RootPath svc = "/osapi/v1beta1"))
        as [Hroot|Hroot].
      * rewrite bool_decide_eq_true_2 by exact Hroot.
        destruct (getRequestsToUsers_sharedContexts p)
          as (p1 & Hcall & Hfield1 & Hshared1 & Hstore1).
        unfold sbind at 1. rewrite Hcall.
        rewrite (installUserFilter_routes _ svc _ Hroot).
        destruct (IH (S index) root
                     (n + length
                            (base.filter
                               (fun route =>
                                  restful.Method route = "GET" /\
                                  restful.Path route =
                                    "/osapi/v1beta1/users/{name}")
                               (restful.Routes svc)))%nat p1)
          as (root' & p' & Hrest & Hshared & Hstore & Hfield).
        exists root', p'. unfold sbind. rewrite Hrest. simpl. unfold sret.
        rewrite Hshared1, length_app, Nat.add_assoc.
        split; [reflexivity |].
        split; [congruence |]. split; [congruence |].
        intros _.
        destruct (scanWebServices_configured
                    rest (S index) root
                    (n + length
                           (base.filter
                              (fun route =>
                                 restful.Method route = "GET" /\
                                 restful.Path route =
                                   "/osapi/v1beta1/users/{name}")
                              (restful.Routes svc)))%nat
                    p1 _ Hfield1) as (result & Hkept).
        rewrite Hrest in Hkept. injection Hkept as _ <-. exact Hfield1.
      * rewrite bool_decide_eq_false_2 by exact Hroot.
        destruct (IH (S index) root n p)
          as (root' & p' & Hrest & Hshared & Hstore & Hfield).
        exists root', p'. unfold sbind. rewrite Hrest. simpl. unfold sret.
        repeat split; assumption.
Qed.

(** [initAPIVersionRoute] keeps the web services in place; the one it is
    given gets a route after the routes it has. *)
Lemma initAPIVersionRoute_lookup (root : nat) (version : string)
  (services : list restful.WebService) (i : nat) (svc : restful.WebService) :
  services !! i = Some svc ->
  exists svc' added,
    Origin.initAPIVersionRoute root version services !! i = Some svc' /\
    restful.RootPath svc' = restful.RootPath svc /\
    restful.Routes svc' = restful.Routes svc ++ added.
Proof.
  intros Hlookup. unfold Origin.initAPIVersionRoute.
  destruct (decide (root = i)) as [->|Hother].
  - rewrite list_lookup_alter_eq, Hlookup. simpl.
    eexists _, _. split; [reflexivity |]. split; reflexivity.
  - rewrite list_lookup_alter_ne by exact Hother.
    exists svc, []. rewrite app_nil_r. auto.
Qed.

(** The loop of [Run] over installers, when the installers before the
    last one return. *)
Lemma installAll_last (installers : list Origin.APIInstaller)
  (last : Origin.APIInstaller) :
  forall (container : restful.Container) (extra : list string) (p : Process)
         (container1 : restful.Container) (extra1 : list string)
         (p1 : Process),
  Origin.installAll installers container extra p =
    Return (container1, extra1) p1 ->
  Origin.installAll (installers ++ [last]) container extra p =
    match last container1 p1 with
    | Fatal format args p2 => Fatal format args p2
    | Return (container2, lines) p2 => Return (container2, extra1 ++ lines) p2
    end.
Proof.
  induction installers as [|i rest IH];
    intros container extra p container1 extra1 p1 Hrun.
  - injection Hrun as -> -> ->. simpl. unfold sbind.
    destruct (last container1 p1) as [format args p2 | [container2 lines] p2];
      reflexivity.
  - simpl in *. unfold sbind in *.
    destruct (i container p) as [format args p2 | [container2 lines] p2];
      [discriminate Hrun |].
    now apply IH.
Qed.

(** What [InstallProtectedAPI] does after [InstallREST]: it stops the
    process unless the web services hold one current-user route, and
    returns the container with the filter in place otherwise. *)
Lemma InstallProtectedAPI_outcome (container installed : restful.Container)
  (p : Process) :
  Origin.Defer
    (Origin.env
       "OPENSHIFT_DEFAULT_REGISTRY"
       "${DOCKER_REGISTRY_SERVICE_HOST}:${DOCKER_REGISTRY_SERVICE_PORT}") =
    None ->
  Origin.InstallREST container = (installed, None) ->
  let n := length (currentUserRoutes (restful.RegisteredWebServices installed)) in
  let filter := restful.currentUserContextFilter (sharedContexts p) in
  exists (root : nat) (added : list restful.WebService) (p' : Process),
    Origin.InstallProtectedAPI container p =
      (if Nat.eqb n 1 then
         Return ({| restful.RegisteredWebServices :=
                      Origin.initAPIVersionRoute
                        root "v1beta1"
                        (map (withUserFilter filter)
                             (restful.RegisteredWebServices installed) ++
                         added);
                    restful.Handlers := restful.Handlers installed |},
                 ["Started OpenShift API at %s/osapi/v1beta1"]) p'
       else
         Fatal "Could not find user route to install the current user filter."
               [] p') /\
    ((0 < n)%nat -> requestsToUsers p' = Some (sharedContexts p)).
Proof.
  intros Hregistry Hinstall n filter.
  destruct (scanWebServices_services
              (restful.RegisteredWebServices installed) 0 None 0 p)
    as (root' & p' & Hscan & _ & _ & Hfield).
  unfold Origin.InstallProtectedAPI. rewrite Hregistry, Hinstall.
  cbn [Origin.is_Some_b]. unfold sbind. rewrite Hscan. cbn [Nat.add].
  fold n. fold filter.
  destruct (Nat.eqb n 1); cbn [negb].
  - destruct root' as [r|].
    + exists r, [], p'. rewrite app_nil_r. split; [reflexivity | exact Hfield].
    + eexists _, [_], p'. split; [reflexivity | exact Hfield].
  - exists 0%nat, [], p'. split; [reflexivity | exact Hfield].
Qed.

(** The web services of [installed] are in [container] at their
    positions, their routes at theirs, each route with the filter added if
    it is a current-user route. *)
Lemma installed_routes_lookup (filter : restful.FilterFunction) (root : nat)
  (installed added : list restful.WebService) (i : nat)
  (svc : restful.WebService) :
  installed !! i = Some svc ->
  exists svc',
    Origin.initAPIVersionRoute
      root "v1beta1" (map (withUserFilter filter) installed ++ added) !! i =
      Some svc' /\
    restful.RootPath svc' = restful.RootPath svc /\
    forall (j : nat) (route : restful.Route),
      restful.Routes svc !! j = Some route ->
      restful.Routes svc' !! j = Some (injectFilter filter svc route).
Proof.
  intros Hlookup.
  assert (Hmapped : (map (withUserFilter filter) installed ++ added) !! i =
                    Some (withUserFilter filter svc)).
  { apply lookup_app_l_Some.
    change (map (withUserFilter filter) installed)
      with (withUserFilter filter <$> installed).
    now rewrite list_lookup_fmap, Hlookup. }
  destruct (initAPIVersionRoute_lookup root "v1beta1" _ i _ Hmapped)
    as (svc' & more & Hsvc & Hroot & Hroutes).
  exists svc'. split; [exact Hsvc |].
  split; [now rewrite Hroot, withUserFilter_RootPath |].
  intros j route Hroute. rewrite Hroutes, withUserFilter_Routes.
  apply lookup_app_l_Some.
  change (map (injectFilter filter svc) (restful.Routes svc))
    with (injectFilter filter svc <$> restful.Routes svc).
  now rewrite list_lookup_fmap, Hroute.
Qed.

Section Run.
Variable c : Origin.MasterConfig.

(** [Run] ends where the loop over the protected installers ends the
    process. *)
Lemma Run_fatal (protected unprotected : list Origin.APIInstaller)
  (p0 : Process) (format : string) (args : list LogArg) (p' : Process) :
  Origin.installAll (protected ++ [Origin.InstallProtectedAPI])
                    Origin.NewHandlerContainer []
                    (Origin.ensureComponentAuthorizationRules c p0).1.2 =
    Fatal format args p' ->
  Origin.Run c protected unprotected p0 = Fatal format args p'.
Proof.
  intros Hloop. unfold Origin.Run, sbind. now rewrite Hloop.
Qed.

(** [Run] returns when the loop over the protected installers returns,
    the caller has no unprotected installers of its own and the CORS
    patterns compile. *)
Lemma Run_started (protected : list Origin.APIInstaller) (p0 : Process)
  (container : restful.Container) (extra origins : list string)
  (p : Process) :
  Origin.installAll (protected ++ [Origin.InstallProtectedAPI])
                    Origin.NewHandlerContainer []
                    (Origin.ensureComponentAuthorizationRules c p0).1.2 =
    Return (container, extra) p ->
  Origin.CompileRegexps (Origin.CORSAllowedOrigins c) = (origins, None) ->
  exists started p',
    Origin.Run c protected [] p0 = Return started p' /\
    Origin.safeContainer started = container.
Proof.
  intros Hloop Hcors.
  destruct (protectedHandler_chain c container p) as (p' & Hchain & _).
  unfold Origin.Run, sbind. rewrite Hloop, Hchain. simpl.
  unfold Origin.ensureCORSAllowedOrigins. rewrite Hcors.
  destruct (Nat.eqb (length (Origin.CORSAllowedOrigins c)) 0);
    eexists _, _; (split; [reflexivity |]); reflexivity.
Qed.

(** C4.  [InstallProtectedAPI], run by [Run] after the protected
    installers of the caller on a container that [InstallREST] accepts,
    looks at the routes of the web services rooted at the versioned API
    prefix and counts the [GET] routes on the current-user path.  When the
    count is not 1 it ends the process with [glog.Fatalf], and so does
    [Run]: no server is started.  When the count is 1 it returns: the
    web services and their routes are in the container where they were,
    the current-user route with the filter over the shared request context
    map added after its filters and every other route as it was; the loop
    of [Run] over the protected installers returns this container, and
    [Run] itself returns with it when nothing else stops the startup. *)
Theorem current_user_route_checked
  (protected : list Origin.APIInstaller) (p0 : Process)
  (container installed : restful.Container) (extra : list string)
  (p : Process) :
  let booted := (Origin.ensureComponentAuthorizationRules c p0).1.2 in
  let n :=
    length (currentUserRoutes (restful.RegisteredWebServices installed)) in
  let filter := restful.currentUserContextFilter (sharedContexts p) in
  let line := "Started OpenShift API at %s/osapi/v1beta1" in
  let message :=
    "Could not find user route to install the current user filter." in
  Origin.installAll protected Origin.NewHandlerContainer [] booted =
    Return (container, extra) p ->
  Origin.Defer
    (Origin.env
       "OPENSHIFT_DEFAULT_REGISTRY"
       "${DOCKER_REGISTRY_SERVICE_HOST}:${DOCKER_REGISTRY_SERVICE_PORT}") =
    None ->
  Origin.InstallREST container = (installed, None) ->
  (n <> 1%nat ->
   exists p',
     Origin.InstallProtectedAPI container p = Fatal message [] p' /\
     forall unprotected,
       Origin.Run c protected unprotected p0 = Fatal message [] p') /\
  (n = 1%nat ->
   exists container' p',
     Origin.InstallProtectedAPI container p =
       Return (container', [line]) p' /\
     requestsToUsers p' = Some (sharedContexts p) /\
     (forall (i : nat) (svc : restful.WebService),
        restful.RegisteredWebServices installed !! i = Some svc ->
        exists svc',
          restful.RegisteredWebServices container' !! i = Some svc' /\
          restful.RootPath svc' = restful.RootPath svc /\
          forall (j : nat) (route : restful.Route),
            restful.Routes svc !! j = Some route ->
            restful.Routes svc' !! j =
              Some (injectFilter filter svc route)) /\
     Origin.installAll (protected ++ [Origin.InstallProtectedAPI])
                       Origin.NewHandlerContainer [] booted =
       Return (container', extra ++ [line]) p' /\
     forall origins,
       Origin.CompileRegexps (Origin.CORSAllowedOrigins c) =
         (origins, None) ->
       exists started p'',
         Origin.Run c protected [] p0 = Return started p'' /\
         Origin.safeContainer started = container').
Proof.
  intros booted n filter line message Hbefore Hregistry Hinstall.
  subst booted.
  destruct (InstallProtectedAPI_outcome container installed p
              Hregistry Hinstall)
    as (root & added & p' & Hcall & Hfield).
  fold n in Hcall, Hfield. fold filter in Hcall.
  pose proof (installAll_last protected Origin.InstallProtectedAPI
                _ _ _ _ _ _ Hbefore) as Hloop.
  split; intros Hcount.
  - apply Nat.eqb_neq in Hcount. rewrite Hcount in Hcall.
    exists p'. split; [exact Hcall |].
    intros unprotected. apply Run_fatal.
    rewrite Hloop, Hcall. reflexivity.
  - rewrite Hcount in Hcall, Hfield. cbn [Nat.eqb] in Hcall.
    rewrite Hcall in Hloop.
    eexists _, p'. split; [exact Hcall |].
    split; [apply Hfield; constructor |].
    split; [| split; [exact Hloop |]].
    + intros i svc Hsvc. cbn [restful.RegisteredWebServices].
      now apply installed_routes_lookup.
    + intros origins Hcors. exact (Run_started _ _ _ _ _ _ Hloop Hcors).
Qed.

End Run.

End ProtectedAPI.

(** *** The installation of the example *)

Lemma current_user_route_checked_witness :
  (exists p',
     @Origin.Run package tables librariesWithoutUsers config [] [] boot =
       Fatal "Could not find user route to install the current user filter."
             [] p') /\
  (exists started p',
     @Origin.Run package tables libraries config [] [] boot =
       Return started p' /\
     exists svc,
       restful.RegisteredWebServices (Origin.safeContainer started) !! 0%nat =
         Some svc /\
       restful.Routes svc !! 0%nat =
         Some {| restful.Method := "GET";
                 restful.Path := "/osapi/v1beta1/users/{name}";
                 restful.Filters :=
                   [restful.currentUserContextFilter 0] |}).
Proof.
  split.
  - destruct (proj1 (@current_user_route_checked
                       package tables librariesWithoutUsers config
                       [] boot Origin.NewHandlerContainer
                       {| restful.RegisteredWebServices :=
                            [apiServiceWithoutUsers];
                          restful.Handlers := [] |}
                       [] _ eq_refl eq_refl eq_refl))
      as (p' & _ & Hrun).
    + vm_compute. discriminate.
    + exists p'. apply Hrun.
  - destruct (proj2 (@current_user_route_checked
                       package tables libraries config
                       [] boot Origin.NewHandlerContainer
                       {| restful.RegisteredWebServices := [apiService];
                          restful.Handlers := [] |}
                       [] _ eq_refl eq_refl eq_refl))
      as (container' & p' & _ & _ & Hroutes & _ & Hrun).
    + vm_compute. reflexivity.
    + destruct (Hrun [] eq_refl) as (started & p'' & Hstarted & Hsafe).
      exists started, p''. split; [exact Hstarted |].
      destruct (Hroutes 0%nat apiService eq_refl)
        as (svc' & Hsvc & _ & Hroute).
      exists svc'. rewrite Hsafe. split; [exact Hsvc |].
      exact (Hroute 0%nat _ eq_refl).
Defined.

(** ** More of package [latest] *)

Lemma rangeContains_elem (ts : list string) (kind : string) :
  Latest.rangeContains ts kind = bool_decide (kind ∈ ts).
Proof.
  induction ts as [|t ts IH]; cbn [Latest.rangeContains].
  - symmetry. apply bool_decide_eq_false_2. apply not_elem_of_nil.
  - destruct (String.eqb_spec t kind) as [->|Hne].
    + symmetry. apply bool_decide_eq_true_2. apply list_elem_of_here.
    + rewrite IH. apply bool_decide_ext. rewrite elem_of_cons.
      split; [auto | intros [Heq|Hin]; [congruence | exact Hin]].
Qed.

(** X1. [OriginKind] answers [true] for the kinds of [originTypes] and
    for no other kind, and it does so for every [apiVersion]: the version
    is not looked at, so a kind of OpenShift is reported as owned also in a
    version that [InterfacesFor] rejects. *)
Theorem OriginKind_listed (kind apiVersion : string) :
  (Latest.OriginKind kind apiVersion = true <-> kind ∈ Latest.originTypes) /\
  (Latest.OriginKind kind apiVersion = false <-> kind ∉ Latest.originTypes).
Proof.
  unfold Latest.OriginKind. rewrite rangeContains_elem.
  split.
  - apply bool_decide_eq_true.
  - apply bool_decide_eq_false.
Qed.

Lemma versionToNamespaceScope_lookup (version : string) :
  Latest.versionToNamespaceScope !! version =
  if bool_decide (version = "v1beta1")
  then Some Latest.RESTScopeNamespaceLegacy else None.
Proof.
  unfold Latest.versionToNamespaceScope. simpl. case_bool_decide as Hv.
  - subst version. apply lookup_insert_eq.
  - rewrite lookup_insert_ne by congruence. apply lookup_empty.
Qed.

Lemma versionMixedCase_lookup (version : string) :
  Latest.versionMixedCase !! version =
  if bool_decide (version = "v1beta1") then Some true else None.
Proof.
  unfold Latest.versionMixedCase. simpl. case_bool_decide as Hv.
  - subst version. apply lookup_insert_eq.
  - rewrite lookup_insert_ne by congruence. apply lookup_empty.
Qed.

(** The body of the loop of [init], with the three map lookups decided. *)
Lemma registrationFor_decided (version kind : string) :
  Latest.registrationFor version kind =
  {| Latest.reg_scope :=
       if bool_decide (kind ∈ rootScopeAllowSet) then Some Latest.RESTScopeRoot
       else if bool_decide (version = "v1beta1")
            then Some Latest.RESTScopeNamespaceLegacy else None;
     Latest.reg_kind := kind;
     Latest.reg_version := version;
     Latest.reg_mixedCase := bool_decide (version = "v1beta1") |}.
Proof.
  unfold Latest.registrationFor.
  rewrite kindToRootScope_lookup, versionToNamespaceScope_lookup,
    versionMixedCase_lookup.
  repeat case_bool_decide; reflexivity.
Qed.

(** X2. The kinds that [init] registers with [Root] scope are the kinds
    of its root-scope table, in every version.  [OriginKind] reports each
    of them as owned by OpenShift, with one exception: [Identity] is
    registered with [Root] scope, and [OriginKind] answers [false] for
    it. *)
Theorem root_scope_kinds_owned :
  (forall version kind : string,
     Latest.reg_scope (Latest.registrationFor version kind) =
       Some Latest.RESTScopeRoot <->
     kind ∈ Latest.rootScopeKinds) /\
  (forall version kind : string,
     kind ∈ Latest.rootScopeKinds ->
     Latest.OriginKind kind version = true \/ kind = "Identity") /\
  (forall version : string,
     Latest.reg_scope (Latest.registrationFor version "Identity") =
       Some Latest.RESTScopeRoot /\
     Latest.OriginKind "Identity" version = false).
Proof.
  split; [| split].
  - intros version kind. rewrite registrationFor_decided.
    rewrite <- rootScopeAllowSet_kinds. simpl.
    case_bool_decide as Hroot; [tauto |].
    split; [| tauto]. case_bool_decide; discriminate.
  - intros version kind Hroot.
    unfold Latest.rootScopeKinds in Hroot. rewrite !elem_of_cons in Hroot.
    rewrite elem_of_nil in Hroot.
    repeat destruct Hroot as [Hroot | Hroot]; subst; auto; contradiction.
  - intros version. rewrite registrationFor_decided. split; reflexivity.
Qed.

Lemma init_v1beta1 (KnownTypes : string -> list string) :
  Latest.init KnownTypes =
  map (Latest.registrationFor "v1beta1") (KnownTypes "v1beta1").
Proof. unfold Latest.init, Latest.Versions. simpl. apply app_nil_r. Qed.

(** X3. [init] makes one [Add] call for each known kind of [v1beta1], in
    the order in which [KnownTypes] lists the kinds, each for the version
    [v1beta1]; the kinds that the scheme knows for other versions play no
    part. *)
Theorem init_one_registration_per_kind (KnownTypes : string -> list string) :
  map Latest.reg_kind (Latest.init KnownTypes) = KnownTypes "v1beta1" /\
  length (Latest.init KnownTypes) = length (KnownTypes "v1beta1") /\
  map Latest.reg_version (Latest.init KnownTypes) =
    map (fun _ => "v1beta1") (KnownTypes "v1beta1") /\
  (forall other : string -> list string,
     Latest.init (fun version =>
                    if String.eqb version "v1beta1"
                    then KnownTypes version else other version) =
     Latest.init KnownTypes).
Proof.
  rewrite init_v1beta1. rewrite !map_map, length_map.
  split; [apply map_id |]. split; [reflexivity |]. split; [reflexivity |].
  intros other. rewrite init_v1beta1. reflexivity.
Qed.

(** X4. A version without entries in the tables of [init]: were such a
    version listed, its kinds would be registered with [mixedCase] off,
    the kinds of the root-scope table with [Root] scope and every other
    kind with a [nil] scope. *)
Theorem registrationFor_unlisted_version (version kind : string) :
  version <> "v1beta1" ->
  Latest.registrationFor version kind =
  {| Latest.reg_scope :=
       if bool_decide (kind ∈ rootScopeAllowSet)
       then Some Latest.RESTScopeRoot else None;
     Latest.reg_kind := kind;
     Latest.reg_version := version;
     Latest.reg_mixedCase := false |}.
Proof.
  intros Hversion. rewrite registrationFor_decided.
  rewrite (bool_decide_eq_false_2 (version = "v1beta1")) by exact Hversion.
  reflexivity.
Qed.

Lemma registrationFor_unlisted_version_witness :
  Latest.registrationFor "v1beta2" "Build" =
    {| Latest.reg_scope := None;
       Latest.reg_kind := "Build";
       Latest.reg_version := "v1beta2";
       Latest.reg_mixedCase := false |} /\
  Latest.registrationFor "v1beta2" "Project" =
    {| Latest.reg_scope := Some Latest.RESTScopeRoot;
       Latest.reg_kind := "Project";
       Latest.reg_version := "v1beta2";
       Latest.reg_mixedCase := false |}.
Proof.
  split.
  - rewrite (registrationFor_unlisted_version "v1beta2" "Build")
      by discriminate.
    reflexivity.
  - rewrite (registrationFor_unlisted_version "v1beta2" "Project")
      by discriminate.
    reflexivity.
Defined.

(** X5. The function that the mapper of [init] asks for the interfaces
    of a version knows the versions of [Versions] and no others: for a
    listed version it returns the interfaces that [InterfacesFor] returns,
    and for any other version it returns [nil] and [false]. *)
Theorem versionInterfacesFunc_listed (version : string) :
  Latest.versionInterfacesFunc version =
  if bool_decide (version ∈ Latest.Versions)
  then ((Latest.InterfacesFor version).1, true)
  else (None, false).
Proof.
  unfold Latest.versionInterfacesFunc, Latest.InterfacesFor, Latest.Versions.
  destruct (String.eqb_spec version "v1beta1") as [->|Hne].
  - reflexivity.
  - rewrite bool_decide_eq_false_2; [reflexivity |].
    rewrite list_elem_of_singleton. exact Hne.
Qed.

(** ** [NewEtcdHelper] *)

(** X6. [NewEtcdHelper] accepts the empty version and [v1beta1] and
    nothing else.  The empty version stands for [latest.Version]: both
    give the helper with the client that was passed, the codec of
    [v1beta1] and the versioner over the shared accessor, and no error.
    Any other version gives the zero helper and the error of
    [latest.InterfacesFor]; the function never dereferences a [nil]
    [interfaces]. *)
Theorem NewEtcdHelper_versions {etcdClient : Type} (version : string)
  (client : option etcdClient) :
  Origin.NewEtcdHelper version client =
  if bool_decide (version = "" \/ version = "v1beta1") then
    Some ({| Origin.Client := client;
             Origin.Codec := Some Latest.v1beta1_Codec;
             Origin.ResourceVersioner :=
               Some {| Origin.adapted := Latest.accessor |} |}, None)
  else
    Some ({| Origin.Client := None; Origin.Codec := None;
             Origin.ResourceVersioner := None |},
          Some (errorString
                  ("unsupported storage version: " +:+ version +:+
                   " (valid: v1beta1)"))).
Proof.
  unfold Origin.NewEtcdHelper.
  destruct (decide (version = "")) as [->|Hempty].
  - rewrite bool_decide_eq_true_2 by auto. reflexivity.
  - assert (Hlength : Nat.eqb (String.length version) 0 = false).
    { destruct version; [contradiction | reflexivity]. }
    rewrite Hlength. unfold Latest.InterfacesFor.
    destruct (String.eqb_spec version "v1beta1") as [Hknown|Hother].
    + rewrite bool_decide_eq_true_2 by auto. reflexivity.
    + rewrite bool_decide_eq_false_2 by tauto. reflexivity.
Qed.

(** ** More of the master *)

(** X7. [getRequestsToUsers] allocates the shared request context map on
    first use and never again: the first call returns a map that is new
    (its address held no map before), empty, and stored in the
    configuration, with every other map and the policy store as they
    were; a call on a configuration that holds a map returns that map and
    changes nothing, so two calls in a row return the same map. *)
Theorem getRequestsToUsers_allocates_once (p : Process) :
  exists (l : nat) (p1 : Process),
    Origin.getRequestsToUsers p = Return l p1 /\
    requestsToUsers p1 = Some l /\
    Origin.getRequestsToUsers p1 = Return l p1 /\
    etcd p1 = etcd p /\
    match requestsToUsers p with
    | Some l0 => l = l0 /\ p1 = p
    | None =>
      heap p !! l = None /\
      Origin.contextMap l p1 = ∅ /\
      forall l' : nat, l' <> l -> heap p1 !! l' = heap p !! l'
    end.
Proof.
  unfold Origin.getRequestsToUsers at 1.
  destruct (requestsToUsers p) as [l0|] eqn:Hfield.
  - exists l0, p. split; [reflexivity |]. split; [exact Hfield |].
    split; [now apply getRequestsToUsers_again |]. auto.
  - unfold Origin.allocate. eexists _, _. split; [reflexivity |].
    split; [reflexivity |]. split; [now apply getRequestsToUsers_again |].
    split; [reflexivity |]. cbn [heap].
    split; [| split].
    + apply not_elem_of_dom. apply is_fresh.
    + unfold Origin.contextMap. cbn [heap]. now rewrite lookup_insert_eq.
    + intros l' Hother. now apply lookup_insert_ne.
Qed.

Section Installation.
Context {A : authorizer.Package} {U : strconv.Unicode} {L : Origin.Libraries}.

Lemma length_zero_decide (s : string) :
  Nat.eqb (String.length s) 0 = bool_decide (s = "").
Proof.
  destruct s; symmetry;
    [now apply bool_decide_eq_true_2 | now apply bool_decide_eq_false_2].
Qed.

Lemma env_decide (key defaultValue : string) :
  Origin.env key defaultValue =
  if bool_decide (Origin.Getenv key = "") then defaultValue
  else Origin.Getenv key.
Proof. unfold Origin.env. now rewrite length_zero_decide. Qed.

(** X8. The two ways in which [InstallProtectedAPI] ends the process
    before it looks at the routes.  The registry address is the value of
    [OPENSHIFT_DEFAULT_REGISTRY], or the service placeholder when the
    variable is unset or empty; when the service cache rejects the
    address, the process ends with a message that carries the address and
    the error, whatever [InstallREST] would have answered.  When the
    address is accepted and [InstallREST] fails, the process ends with the
    error of [InstallREST].  Neither path allocates the request context
    map or touches the policy store. *)
Theorem InstallProtectedAPI_fatal_errors (container : restful.Container)
  (p : Process) :
  let defaultRegistry :=
    if bool_decide (Origin.Getenv "OPENSHIFT_DEFAULT_REGISTRY" = "")
    then "${DOCKER_REGISTRY_SERVICE_HOST}:${DOCKER_REGISTRY_SERVICE_PORT}"
    else Origin.Getenv "OPENSHIFT_DEFAULT_REGISTRY" in
  (forall e : error,
     Origin.Defer defaultRegistry = Some e ->
     Origin.InstallProtectedAPI container p =
       Fatal "OPENSHIFT_DEFAULT_REGISTRY variable is invalid %q: %v"
             [ArgString defaultRegistry; ArgError (Some e)] p) /\
  (forall (installed : restful.Container) (e : error),
     Origin.Defer defaultRegistry = None ->
     Origin.InstallREST container = (installed, Some e) ->
     Origin.InstallProtectedAPI container p =
       Fatal "Unable to initialize API: %v" [ArgError (Some e)] p).
Proof.
  intros defaultRegistry. unfold Origin.InstallProtectedAPI.
  rewrite env_decide. fold defaultRegistry. split.
  - intros e Hdefer. rewrite Hdefer. reflexivity.
  - intros installed e Hdefer Hinstall. rewrite Hdefer, Hinstall. reflexivity.
Qed.

(** X9. [InstallUnprotectedAPI] mounts one handler, under the prefix of
    the build hooks, after the handlers that the container has; it adds
    no web service, reports no line and leaves the process as it is.  The
    handler passes the request to the webhook controller and calls neither
    the authenticator nor the attribute builder nor the authorizer. *)
Theorem InstallUnprotectedAPI_open (container : restful.Container)
  (p : Process) :
  exists handler : Handler,
    Origin.InstallUnprotectedAPI container p =
      Return ({| restful.RegisteredWebServices :=
                   restful.RegisteredWebServices container;
                 restful.Handlers :=
                   restful.Handlers container ++
                   [("/osapi/v1beta1/buildConfigHooks/", handler)] |}, [])
             p /\
    forall (req : http.Request) (s : State),
      trace (handler req s) = trace s ++ [CallServeHTTP req] /\
      (resp (handler req s), proc (handler req s)) =
        Origin.webhookController req (resp s, proc s).
Proof.
  exists (Origin.serve Origin.webhookController). split; [reflexivity |].
  intros req s. split; [apply serve_trace |].
  unfold Origin.serve, Origin.called. simpl.
  now destruct (Origin.webhookController req (resp s, proc s)).
Qed.

Lemma installAll_app (before after : list Origin.APIInstaller) :
  forall (container : restful.Container) (extra : list string) (p : Process),
  Origin.installAll (before ++ after) container extra p =
  match Origin.installAll before container extra p with
  | Fatal format args p1 => Fatal format args p1
  | Return (container1, extra1) p1 =>
    Origin.installAll after container1 extra1 p1
  end.
Proof.
  induction before as [|i rest IH]; intros container extra p;
    [reflexivity |].
  cbn [app Origin.installAll]. unfold sbind.
  destruct (i container p) as [format args p1 | [container1 lines] p1];
    [reflexivity | apply IH].
Qed.

Lemma installAll_lines (installers : list Origin.APIInstaller) :
  forall (container : restful.Container) (extra : list string) (p : Process)
         (container' : restful.Container) (extra' : list string)
         (p' : Process),
  Origin.installAll installers container extra p =
    Return (container', extra') p' ->
  exists lines, extra' = extra ++ lines.
Proof.
  induction installers as [|i rest IH];
    intros container extra p container' extra' p' Hrun.
  - injection Hrun as _ <- _. exists []. now rewrite app_nil_r.
  - cbn [Origin.installAll] in Hrun. unfold sbind in Hrun.
    destruct (i container p) as [format args p1 | [container1 lines] p1];
      [discriminate Hrun |].
    destruct (IH _ _ _ _ _ _ Hrun) as (more & ->).
    exists (lines ++ more). now rewrite app_assoc.
Qed.

(** X10. The loop of [Run] over a list of installers: the installers run
    in the order of the list, each on the container and the process that
    the one before it left; the lines that they report are appended to
    the lines collected so far, in that order; and an installer that ends
    the process ends the loop, the installers after it not being run. *)
Theorem installers_run_in_order (before after : list Origin.APIInstaller)
  (i : Origin.APIInstaller) (container : restful.Container)
  (extra : list string) (p : Process) :
  match Origin.installAll before container extra p with
  | Fatal format args p1 =>
    Origin.installAll (before ++ i :: after) container extra p =
      Fatal format args p1
  | Return (container1, extra1) p1 =>
    (exists lines, extra1 = extra ++ lines) /\
    match i container1 p1 with
    | Fatal format args p2 =>
      Origin.installAll (before ++ i :: after) container extra p =
        Fatal format args p2
    | Return (container2, lines) p2 =>
      Origin.installAll (before ++ i :: after) container extra p =
        Origin.installAll after container2 (extra1 ++ lines) p2
    end
  end.
Proof.
  rewrite installAll_app.
  destruct (Origin.installAll before container extra p)
    as [format args p1 | [container1 extra1] p1] eqn:Hbefore;
    [reflexivity |].
  split; [exact (installAll_lines _ _ _ _ _ _ _ Hbefore) |].
  cbn [Origin.installAll]. unfold sbind.
  destruct (i container1 p1) as [format args p2 | [container2 lines] p2];
    reflexivity.
Qed.

End Installation.

Section RunOutcome.
Context {A : authorizer.Package} {U : strconv.Unicode} {L : Origin.Libraries}.
Variable c : Origin.MasterConfig.

(** [Run] after its two loops over installers. *)
Lemma Run_outcome (protected unprotected : list Origin.APIInstaller)
  (p0 p1 p1' p2 : Process) (safe open : restful.Container)
  (extra1 extra2 : list string) (handler : Handler) :
  Origin.installAll (protected ++ [Origin.InstallProtectedAPI])
                    Origin.NewHandlerContainer []
                    (Origin.ensureComponentAuthorizationRules c p0).1.2 =
    Return (safe, extra1) p1 ->
  Origin.protectedHandler c safe p1 = Return handler p1' ->
  Origin.installAll (unprotected ++ [Origin.InstallUnprotectedAPI])
                    Origin.NewHandlerContainer extra1 p1' =
    Return (open, extra2) p2 ->
  Origin.Run c protected unprotected p0 =
  match Origin.ensureCORSAllowedOrigins c p2 with
  | Fatal format args p3 => Fatal format args p3
  | Return origins p3 =>
    let open' :=
      Origin.RegisterSwaggerService
        (restful.RegisteredWebServices safe ++
         restful.RegisteredWebServices (Origin.Handle "/" handler open))
        "/swaggerapi/" (Origin.Handle "/" handler open) in
    Return
      {| Origin.server :=
           {| Origin.Addr := Origin.MasterBindAddr c;
              Origin.Handler_ :=
                if negb (Nat.eqb (length origins) 0)
                then Origin.CORS (Origin.ContainerHandler open') origins
                else Origin.ContainerHandler open';
              Origin.ReadTimeout := 300000000000;
              Origin.WriteTimeout := 300000000000;
              Origin.MaxHeaderBytes := 1048576 |};
         Origin.tlsConfig :=
           if Origin.TLS c then
             Some {| Origin.MinVersion := 769;
                     Origin.ClientAuth := 1;
                     Origin.CertFile := Origin.MasterCertFile c;
                     Origin.KeyFile := Origin.MasterKeyFile c |}
           else None;
         Origin.startedLines :=
           extra2 ++ ["Started Swagger Schema API at %s/swaggerapi/"];
         Origin.probe :=
           {| Origin.network := "tcp";
              Origin.address := Origin.MasterBindAddr c;
              Origin.timeout := 100000000;
              Origin.interval := 100000000;
              Origin.retries := 100 |};
         Origin.safeContainer := safe;
         Origin.openContainer := open' |} p3
  end.
Proof.
  intros Hsafe Hhandler Hopen.
  unfold Origin.Run, sbind. rewrite Hsafe, Hhandler, Hopen.
  destruct (Origin.ensureCORSAllowedOrigins c p2) as [format args p3|origins p3];
    reflexivity.
Qed.

End RunOutcome.

Section Assembly.
Context {A : authorizer.Package} {U : strconv.Unicode} {L : Origin.Libraries}.
Variable c : Origin.MasterConfig.

(** [InstallProtectedAPI] leaves the policy store alone and hands out no
    other map than the shared one. *)
Lemma InstallProtectedAPI_process (container : restful.Container)
  (p : Process) (result : restful.Container * list string) (p' : Process) :
  Origin.InstallProtectedAPI container p = Return result p' ->
  etcd p' = etcd p /\ sharedContexts p' = sharedContexts p.
Proof.
  unfold Origin.InstallProtectedAPI.
  destruct (Origin.is_Some_b (Origin.Defer _)); [discriminate |].
  destruct (Origin.InstallREST container) as [installed err].
  destruct (Origin.is_Some_b err); [discriminate |].
  destruct (scanWebServices_services
              (restful.RegisteredWebServices installed) 0 None 0 p)
    as (root & p1 & Hscan & Hshared & Hstore & _).
  unfold sbind. rewrite Hscan.
  destruct (negb _); [discriminate |].
  destruct root as [r|]; intros Hrun; injection Hrun as _ <-; auto.
Qed.

(** X11. One request context map serves the whole protected surface.
    When [InstallProtectedAPI] returns, the filter that it added to the
    current-user route reads the shared map of the configuration, and the
    chain that [Run] builds next is the authentication filter over the
    authorization filter over the container, both over that same map;
    building the chain allocates nothing and leaves the process as
    [InstallProtectedAPI] left it. *)
Theorem protected_surface_shares_contexts (container installed : restful.Container)
  (p : Process) :
  Origin.Defer
    (Origin.env
       "OPENSHIFT_DEFAULT_REGISTRY"
       "${DOCKER_REGISTRY_SERVICE_HOST}:${DOCKER_REGISTRY_SERVICE_PORT}") =
    None ->
  Origin.InstallREST container = (installed, None) ->
  length (currentUserRoutes (restful.RegisteredWebServices installed)) =
    1%nat ->
  exists (container' : restful.Container) (p' : Process),
    Origin.InstallProtectedAPI container p =
      Return (container', ["Started OpenShift API at %s/osapi/v1beta1"]) p' /\
    requestsToUsers p' = Some (sharedContexts p) /\
    Origin.protectedHandler c container' p' =
      Return (Origin.authenticationHandlerFilter
                (Origin.authorizationHandlerFunc
                   c (sharedContexts p)
                   (Origin.serve (Origin.ServeRoutes container')))
                (Origin.Authenticator c) (sharedContexts p)) p' /\
    forall (i j : nat) (svc : restful.WebService) (route : restful.Route),
      restful.RegisteredWebServices installed !! i = Some svc ->
      restful.Routes svc !! j = Some route ->
      restful.RootPath svc = "/osapi/v1beta1" ->
      restful.Method route = "GET" ->
      restful.Path route = "/osapi/v1beta1/users/{name}" ->
      exists svc',
        restful.RegisteredWebServices container' !! i = Some svc' /\
        restful.Routes svc' !! j =
          Some {| restful.Method := "GET";
                  restful.Path := "/osapi/v1beta1/users/{name}";
                  restful.Filters :=
                    restful.Filters route ++
                    [restful.currentUserContextFilter (sharedContexts p)] |}.
Proof.
  intros Hregistry Hinstall Hcount.
  destruct (InstallProtectedAPI_outcome container installed p
              Hregistry Hinstall)
    as (root & added & p' & Hcall & Hfield).
  rewrite Hcount in Hcall, Hfield. cbn [Nat.eqb] in Hcall.
  assert (Hmap : requestsToUsers p' = Some (sharedContexts p)).
  { apply Hfield. constructor. }
  eexists _, p'. split; [exact Hcall |]. split; [exact Hmap |]. split.
  - unfold Origin.protectedHandler, Origin.authorizationFilter, sbind, sret.
    rewrite !(getRequestsToUsers_again p' _ Hmap). reflexivity.
  - intros i j svc route Hsvc Hroute Hroot Hmethod Hpath.
    destruct (installed_routes_lookup
                (restful.currentUserContextFilter (sharedContexts p))
                root _ added i svc Hsvc)
      as (svc' & Hsvc' & _ & Hroutes).
    exists svc'. split; [exact Hsvc' |].
    rewrite (Hroutes j route Hroute). unfold injectFilter.
    rewrite bool_decide_eq_true_2 by auto.
    now rewrite Hmethod, Hpath.
Qed.

Lemma ensureCORSAllowedOrigins_decided (p : Process) :
  Origin.ensureCORSAllowedOrigins c p =
  if bool_decide (Origin.CORSAllowedOrigins c = []) then Return [] p
  else
    match Origin.CompileRegexps (Origin.CORSAllowedOrigins c) with
    | (origins, None) => Return origins p
    | (_, Some e) =>
      Fatal "Invalid --cors-allowed-origins: %v" [ArgError (Some e)] p
    end.
Proof.
  unfold Origin.ensureCORSAllowedOrigins.
  destruct (Origin.CORSAllowedOrigins c) as [|origin rest]; [reflexivity |].
  rewrite bool_decide_eq_false_2 by discriminate. cbn [length Nat.eqb].
  destruct (Origin.CompileRegexps (origin :: rest)) as [origins [e|]];
    reflexivity.
Qed.

(** X12. [Run] and the CORS origins, once both loops over installers
    have returned.  With no origin configured the patterns are not
    compiled and the server is given the open container as it is.  With
    origins configured, [Run] ends the process when they do not compile,
    and otherwise wraps the open container in the CORS handler over the
    compiled patterns, unless there is none.  In every case in which [Run]
    returns, the process is as the installers left it. *)
Theorem Run_cors_origins (protected unprotected : list Origin.APIInstaller)
  (p0 p1 p1' p2 : Process) (safe open : restful.Container)
  (extra1 extra2 : list string) (handler : Handler) :
  Origin.installAll (protected ++ [Origin.InstallProtectedAPI])
                    Origin.NewHandlerContainer []
                    (Origin.ensureComponentAuthorizationRules c p0).1.2 =
    Return (safe, extra1) p1 ->
  Origin.protectedHandler c safe p1 = Return handler p1' ->
  Origin.installAll (unprotected ++ [Origin.InstallUnprotectedAPI])
                    Origin.NewHandlerContainer extra1 p1' =
    Return (open, extra2) p2 ->
  match Origin.Run c protected unprotected p0 with
  | Fatal format args p3 =>
    Origin.CORSAllowedOrigins c <> [] /\
    (exists origins e,
       Origin.CompileRegexps (Origin.CORSAllowedOrigins c) =
         (origins, Some e) /\
       format = "Invalid --cors-allowed-origins: %v" /\
       args = [ArgError (Some e)]) /\
    p3 = p2
  | Return started p3 =>
    (exists origins,
       (Origin.CORSAllowedOrigins c = [] /\ origins = [] \/
        Origin.CORSAllowedOrigins c <> [] /\
        Origin.CompileRegexps (Origin.CORSAllowedOrigins c) =
          (origins, None)) /\
       Origin.Handler_ (Origin.server started) =
         match origins with
         | [] => Origin.ContainerHandler (Origin.openContainer started)
         | _ :: _ =>
           Origin.CORS (Origin.ContainerHandler (Origin.openContainer started))
                       origins
         end) /\
    p3 = p2
  end.
Proof.
  intros Hsafe Hhandler Hopen.
  rewrite (Run_outcome c _ _ _ _ _ _ _ _ _ _ _ Hsafe Hhandler Hopen).
  rewrite ensureCORSAllowedOrigins_decided.
  case_bool_decide as Hnone.
  - split; [| reflexivity]. exists []. split; [left; auto | reflexivity].
  - destruct (Origin.CompileRegexps (Origin.CORSAllowedOrigins c))
      as [origins [e|]].
    + split; [exact Hnone |]. split; [| reflexivity].
      exists origins, e. auto.
    + split; [| reflexivity]. exists origins. split; [right; auto |].
      destruct origins; reflexivity.
Qed.

(** X13. [Run] with the installers of the master alone, when the
    installation of the protected API succeeds and the CORS patterns
    compile.  [Run] returns.  The lines to log are the one of the
    OpenShift API and then the one of the Swagger API.  The open container
    that is given to the Swagger registration holds no web service and
    two handlers: first the build hooks under their prefix, then, under
    the root path, the authentication filter over the authorization
    filter over the protected container.  The policy store is as the
    bootstrap left it, and the shared request context map is the one of
    the chain. *)
Theorem Run_builtin_installers (p0 : Process) (installed : restful.Container)
  (origins : list string) :
  let booted := (Origin.ensureComponentAuthorizationRules c p0).1.2 in
  let contexts := sharedContexts booted in
  Origin.Defer
    (Origin.env
       "OPENSHIFT_DEFAULT_REGISTRY"
       "${DOCKER_REGISTRY_SERVICE_HOST}:${DOCKER_REGISTRY_SERVICE_PORT}") =
    None ->
  Origin.InstallREST Origin.NewHandlerContainer = (installed, None) ->
  length (currentUserRoutes (restful.RegisteredWebServices installed)) =
    1%nat ->
  Origin.CompileRegexps (Origin.CORSAllowedOrigins c) = (origins, None) ->
  exists (started : Origin.Started) (p' : Process),
    Origin.Run c [] [] p0 = Return started p' /\
    Origin.startedLines started =
      ["Started OpenShift API at %s/osapi/v1beta1";
       "Started Swagger Schema API at %s/swaggerapi/"] /\
    etcd p' = etcd booted /\
    requestsToUsers p' = Some contexts /\
    Origin.openContainer started =
      Origin.RegisterSwaggerService
        (restful.RegisteredWebServices (Origin.safeContainer started))
        "/swaggerapi/"
        {| restful.RegisteredWebServices := [];
           restful.Handlers :=
             [("/osapi/v1beta1/buildConfigHooks/",
               Origin.serve Origin.webhookController);
              ("/",
               Origin.authenticationHandlerFilter
                 (Origin.authorizationHandlerFunc
                    c contexts
                    (Origin.serve
                       (Origin.ServeRoutes (Origin.safeContainer started))))
                 (Origin.Authenticator c) contexts)] |}.
Proof.
  intros booted contexts Hregistry Hinstall Hcount Hcors.
  destruct (InstallProtectedAPI_outcome Origin.NewHandlerContainer installed
              booted Hregistry Hinstall)
    as (root & added & p' & Hcall & Hfield).
  rewrite Hcount in Hcall, Hfield. cbn [Nat.eqb] in Hcall.
  assert (Hmap : requestsToUsers p' = Some contexts).
  { apply Hfield. constructor. }
  destruct (InstallProtectedAPI_process _ _ _ _ Hcall) as [Hstore _].
  pose proof (installAll_last [] Origin.InstallProtectedAPI
                Origin.NewHandlerContainer [] booted _ _ _ eq_refl) as Hsafe.
  rewrite Hcall in Hsafe. cbn [app] in Hsafe.
  match type of Hsafe with
  | _ = Return (?container, _) _ => set (safe := container) in *
  end.
  assert (Hhandler :
            Origin.protectedHandler c safe p' =
            Return (Origin.authenticationHandlerFilter
                      (Origin.authorizationHandlerFunc
                         c contexts
                         (Origin.serve (Origin.ServeRoutes safe)))
                      (Origin.Authenticator c) contexts) p').
  { unfold Origin.protectedHandler, Origin.authorizationFilter, sbind, sret.
    rewrite !(getRequestsToUsers_again p' _ Hmap). reflexivity. }
  pose proof (Run_outcome c [] [] p0 _ _ _ _ _ _ _ _ Hsafe Hhandler eq_refl)
    as Hrun.
  rewrite ensureCORSAllowedOrigins_decided, Hcors in Hrun.
  destruct (bool_decide (Origin.CORSAllowedOrigins c = []));
    (eexists _, p'; split; [exact Hrun |]);
    cbn [Origin.startedLines Origin.openContainer Origin.safeContainer
         restful.RegisteredWebServices Origin.Handle];
    change (restful.RegisteredWebServices Origin.NewHandlerContainer)
      with (@nil restful.WebService);
    rewrite (app_nil_r (restful.RegisteredWebServices safe));
    (split; [reflexivity |]); (split; [exact Hstore |]);
    (split; [exact Hmap |]); reflexivity.
Qed.

End Assembly.

Section VersionRoute.
Context {A : authorizer.Package} {U : strconv.Unicode} {L : Origin.Libraries}.

Lemma lastRootedAt_here (svc : restful.WebService)
  (rest : list restful.WebService) :
  restful.RootPath svc = "/" ->
  Forall (fun s => restful.RootPath s <> "/") rest ->
  lastRootedAt (svc :: rest) 0.
Proof.
  intros Hroot Hrest. split; [exists svc; auto |].
  intros [|j] s Hlater Hs; [lia |].
  exact (Forall_lookup_1 _ _ _ _ Hrest Hs).
Qed.

Lemma lastRootedAt_later (svc : restful.WebService)
  (rest : list restful.WebService) (r : nat) :
  lastRootedAt rest r -> lastRootedAt (svc :: rest) (S r).
Proof.
  intros [Hat Hafter]. split; [exact Hat |].
  intros [|j] s Hlater Hs; [lia |].
  apply (Hafter j s); [lia | exact Hs].
Qed.

(** The outer loop leaves [root] at the last web service rooted at [/],
    or as it was when there is none. *)
Lemma scanWebServices_root (services : list restful.WebService) :
  forall (index : nat) (root : option nat) (userRoutesChanged : nat)
         (p : Process),
  exists services' root' changed p',
    Origin.scanWebServices services index root userRoutesChanged p =
      Return (services', root', changed) p' /\
    ((exists r, root' = Some (index + r)%nat /\ lastRootedAt services r) \/
     (root' = root /\
      Forall (fun svc => restful.RootPath svc <> "/") services)).
Proof.
  induction services as [|svc rest IH]; intros index root n p.
  - eexists _, _, _, _. split; [reflexivity |]. right. auto.
  - cbn [Origin.scanWebServices].
    destruct (String.eqb_spec (restful.RootPath svc) "/") as [Hslash|Hslash].
    + destruct (IH (S index) (Some index) n p)
        as (services' & root' & changed & p' & Hrest & Hroot).
      unfold sbind. rewrite Hrest. eexists _, _, _, _.
      split; [reflexivity |]. left.
      destruct Hroot as [(r & -> & Hlast) | (-> & Hnone)].
      * exists (S r). split; [f_equal; lia | now apply lastRootedAt_later].
      * exists 0%nat. split; [f_equal; lia | now apply lastRootedAt_here].
    + assert (Hstep :
                forall root' : option nat,
                  (exists r, root' = Some (S index + r)%nat /\
                             lastRootedAt rest r) \/
                  (root' = root /\
                   Forall (fun s => restful.RootPath s <> "/") rest) ->
                  (exists r, root' = Some (index + r)%nat /\
                             lastRootedAt (svc :: rest) r) \/
                  (root' = root /\
                   Forall (fun s => restful.RootPath s <> "/")
                          (svc :: rest))).
      { intros root' [(r & -> & Hlast) | (-> & Hnone)].
        - left. exists (S r).
          split; [f_equal; lia | now apply lastRootedAt_later].
        - right. split; [reflexivity | now constructor]. }
      destruct (String.eqb (restful.RootPath svc)
                           Origin.OpenShiftAPIPrefixV1Beta1).
      * destruct (getRequestsToUsers_shared p) as (p1 & Hcall & _).
        unfold sbind at 1. rewrite Hcall.
        destruct (Origin.installUserFilter _ _) as [routes changed1].
        destruct (IH (S index) root (n + changed1)%nat p1)
          as (services' & root' & changed & p' & Hrest & Hroot).
        unfold sbind. rewrite Hrest. eexists _, _, _, _.
        split; [reflexivity |]. exact (Hstep _ Hroot).
      * destruct (IH (S index) root n p)
          as (services' & root' & changed & p' & Hrest & Hroot).
        unfold sbind. rewrite Hrest. eexists _, _, _, _.
        split; [reflexivity |]. exact (Hstep _ Hroot).
Qed.

(** X14. Where [InstallProtectedAPI] puts the route that lists the API
    versions.  When the container holds web services rooted at [/], the
    last of them gets the route [GET /osapi] after the routes it has, and
    no web service is added.  When it holds none, a new web service with
    that route alone is added after the web services of the container.
    Every other web service is as the installation of the current-user
    filter left it. *)
Theorem version_route_on_root (container installed : restful.Container)
  (p : Process) :
  let filter := restful.currentUserContextFilter (sharedContexts p) in
  let served :=
    map (withUserFilter filter) (restful.RegisteredWebServices installed) in
  Origin.Defer
    (Origin.env
       "OPENSHIFT_DEFAULT_REGISTRY"
       "${DOCKER_REGISTRY_SERVICE_HOST}:${DOCKER_REGISTRY_SERVICE_PORT}") =
    None ->
  Origin.InstallREST container = (installed, None) ->
  length (currentUserRoutes (restful.RegisteredWebServices installed)) =
    1%nat ->
  exists (container' : restful.Container) (p' : Process) (r : nat)
         (svc : restful.WebService),
    Origin.InstallProtectedAPI container p =
      Return (container', ["Started OpenShift API at %s/osapi/v1beta1"]) p' /\
    restful.RegisteredWebServices container' !! r = Some svc /\
    (forall i : nat,
       i <> r -> restful.RegisteredWebServices container' !! i = served !! i) /\
    ((exists svc0,
        lastRootedAt (restful.RegisteredWebServices installed) r /\
        restful.RegisteredWebServices installed !! r = Some svc0 /\
        restful.RootPath svc = "/" /\
        restful.Routes svc = restful.Routes svc0 ++ [versionRoute] /\
        length (restful.RegisteredWebServices container') =
          length (restful.RegisteredWebServices installed)) \/
     (Forall (fun s => restful.RootPath s <> "/")
             (restful.RegisteredWebServices installed) /\
      r = length (restful.RegisteredWebServices installed) /\
      restful.Routes svc = [versionRoute] /\
      length (restful.RegisteredWebServices container') =
        S (length (restful.RegisteredWebServices installed)))).
Proof.
  intros filter served Hregistry Hinstall Hcount.
  destruct (scanWebServices_services
              (restful.RegisteredWebServices installed) 0 None 0 p)
    as (root' & p' & Hscan & _).
  destruct (scanWebServices_root
              (restful.RegisteredWebServices installed) 0 None 0 p)
    as (services2 & root2 & changed2 & p2 & Hscan2 & Hroot).
  rewrite Hscan in Hscan2. injection Hscan2 as _ <- _ _. clear services2.
  unfold Origin.InstallProtectedAPI. rewrite Hregistry, Hinstall.
  cbn [Origin.is_Some_b]. unfold sbind. rewrite Hscan. cbn [Nat.add].
  rewrite Hcount. cbn [Nat.eqb negb]. fold filter. fold served.
  destruct Hroot as [(r & -> & Hlast) | (-> & Hnone)].
  - destruct Hlast as [(svc0 & Hsvc0 & Hslash) Hafter]. cbn [Nat.add].
    assert (Hserved : served !! r = Some svc0).
    { unfold served.
      change (map (withUserFilter filter)
                  (restful.RegisteredWebServices installed))
        with (withUserFilter filter <$>
              restful.RegisteredWebServices installed).
      rewrite list_lookup_fmap, Hsvc0. cbn. f_equal.
      unfold withUserFilter. rewrite bool_decide_eq_false_2; [reflexivity |].
      rewrite Hslash. discriminate. }
    eexists _, p', r, _. split; [reflexivity |].
    cbn [restful.RegisteredWebServices]. unfold Origin.initAPIVersionRoute.
    split; [rewrite list_lookup_alter_eq, Hserved; reflexivity |].
    split; [intros i Hother; apply list_lookup_alter_ne; congruence |].
    left. exists svc0. split; [split; [eauto | exact Hafter] |].
    split; [exact Hsvc0 |]. split; [exact Hslash |].
    split; [reflexivity |].
    rewrite length_alter. unfold served. apply length_map.
  - assert (Hlength : length served =
                      length (restful.RegisteredWebServices installed)).
    { unfold served. apply length_map. }
    eexists _, p', (length served), _. split; [reflexivity |].
    cbn [restful.RegisteredWebServices Origin.Add Origin.newWebService
         restful.RootPath String.length Nat.eqb].
    unfold Origin.initAPIVersionRoute.
    split.
    { rewrite list_lookup_alter_eq, list_lookup_middle by reflexivity.
      reflexivity. }
    split.
    { intros i Hother. rewrite list_lookup_alter_ne by congruence.
      destruct (decide (i < length served)%nat) as [Hin|Hout].
      - now apply lookup_app_l.
      - rewrite !lookup_ge_None_2; [reflexivity | lia |].
        rewrite length_app. simpl. lia. }
    right. split; [exact Hnone |]. split; [exact Hlength |].
    split; [reflexivity |].
    rewrite length_alter, length_app, Hlength. simpl. lia.
Qed.

End VersionRoute.

(** *** The assembly of the example installation *)

Lemma protected_surface_shares_contexts_witness :
  exists (container' : restful.Container) (p' : Process),
    Origin.InstallProtectedAPI Origin.NewHandlerContainer boot =
      Return (container', ["Started OpenShift API at %s/osapi/v1beta1"]) p' /\
    requestsToUsers p' = Some 0%nat /\
    Origin.protectedHandler config container' p' =
      Return (Origin.authenticationHandlerFilter
                (Origin.authorizationHandlerFunc
                   config 0
                   (Origin.serve (Origin.ServeRoutes container')))
                (Origin.Authenticator config) 0) p'.
Proof.
  destruct (@protected_surface_shares_contexts
              package tables libraries config Origin.NewHandlerContainer
              {| restful.RegisteredWebServices := [apiService];
                 restful.Handlers := [] |}
              boot eq_refl eq_refl eq_refl)
    as (container' & p' & Hcall & Hmap & Hchain & _).
  exists container', p'.
  split; [exact Hcall |]. split; [exact Hmap | exact Hchain].
Defined.

Lemma Run_cors_origins_witness :
  exists (started : Origin.Started) (p' : Process),
    Origin.Run config [] [] boot = Return started p' /\
    Origin.Handler_ (Origin.server started) =
      Origin.ContainerHandler (Origin.openContainer started).
Proof.
  pose proof (@Run_cors_origins
                package tables libraries config [] [] boot _ _ _ _ _ _ _ _
                eq_refl eq_refl eq_refl) as H.
  destruct (Origin.Run config [] [] boot) as [format args p3|started p3].
  - destruct H as (Hconfigured & _). exfalso. now apply Hconfigured.
  - destruct H as ((origins & [[_ ->] | [Hconfigured _]] & Hhandler) & _).
    + exists started, p3. split; [reflexivity | exact Hhandler].
    + exfalso. now apply Hconfigured.
Defined.

Lemma Run_builtin_installers_witness :
  exists (started : Origin.Started) (p' : Process),
    Origin.Run config [] [] boot = Return started p' /\
    Origin.startedLines started =
      ["Started OpenShift API at %s/osapi/v1beta1";
       "Started Swagger Schema API at %s/swaggerapi/"] /\
    requestsToUsers p' = Some 0%nat.
Proof.
  destruct (@Run_builtin_installers
              package tables libraries config boot
              {| restful.RegisteredWebServices := [apiService];
                 restful.Handlers := [] |}
              [] eq_refl eq_refl eq_refl eq_refl)
    as (started & p' & Hrun & Hlines & _ & Hmap & _).
  exists started, p'.
  split; [exact Hrun |]. split; [exact Hlines | exact Hmap].
Defined.

Lemma version_route_on_root_witness :
  exists (container' : restful.Container) (p' : Process)
         (svc : restful.WebService),
    Origin.InstallProtectedAPI Origin.NewHandlerContainer boot =
      Return (container', ["Started OpenShift API at %s/osapi/v1beta1"]) p' /\
    restful.RegisteredWebServices container' !! 1%nat = Some svc /\
    restful.Routes svc = [versionRoute].
Proof.
  destruct (@version_route_on_root
              package libraries Origin.NewHandlerContainer
              {| restful.RegisteredWebServices := [apiService];
                 restful.Handlers := [] |}
              boot eq_refl eq_refl eq_refl)
    as (container' & p' & r & svc & Hcall & Hsvc & _ & Hwhere).
  exists container', p', svc. split; [exact Hcall |].
  destruct Hwhere
    as [(svc0 & [(s & Hs & Hslash) _] & _) | (_ & Hr & Hroutes & _)].
  - exfalso. destruct r as [|r]; [| discriminate Hs].
    injection Hs as <-. discriminate Hslash.
  - simpl in Hr. subst r. split; [exact Hsvc | exact Hroutes].
Defined.

Section Documentation.
Context {A : authorizer.Package} {L : Origin.Libraries}.

Lemma initAPIVersionRoute_keeps (root : nat) (version : string)
  (services : list restful.WebService) (i : nat) (svc : restful.WebService) :
  services !! i = Some svc ->
  exists svc',
    Origin.initAPIVersionRoute root version services !! i = Some svc' /\
    restful.Documentation svc' = restful.Documentation svc /\
    restful.ApiVersion svc' = restful.ApiVersion svc.
Proof.
  intros Hlookup. unfold Origin.initAPIVersionRoute.
  destruct (decide (root = i)) as [->|Hother].
  - rewrite list_lookup_alter_eq, Hlookup. simpl.
    eexists. split; [reflexivity |]. split; reflexivity.
  - rewrite list_lookup_alter_ne by exact Hother.
    exists svc. auto.
Qed.

(** X15. The description of the web services after a successful
    [InstallProtectedAPI]: every web service rooted at the versioned API
    prefix is documented as the OpenShift REST API and carries the API
    version [v1beta1], also when it holds no current-user route; every
    other web service, the one that gets the version route included,
    keeps the documentation and the API version that it had. *)
Theorem versioned_services_documented
  (container installed : restful.Container) (p : Process) :
  Origin.Defer
    (Origin.env
       "OPENSHIFT_DEFAULT_REGISTRY"
       "${DOCKER_REGISTRY_SERVICE_HOST}:${DOCKER_REGISTRY_SERVICE_PORT}") =
    None ->
  Origin.InstallREST container = (installed, None) ->
  length (currentUserRoutes (restful.RegisteredWebServices installed)) =
    1%nat ->
  exists (container' : restful.Container) (p' : Process),
    Origin.InstallProtectedAPI container p =
      Return (container', ["Started OpenShift API at %s/osapi/v1beta1"]) p' /\
    forall (i : nat) (svc : restful.WebService),
      restful.RegisteredWebServices installed !! i = Some svc ->
      exists svc',
        restful.RegisteredWebServices container' !! i = Some svc' /\
        if bool_decide (restful.RootPath svc = "/osapi/v1beta1") then
          restful.Documentation svc' =
            "OpenShift REST API, version v1beta1" /\
          restful.ApiVersion svc' = "v1beta1"
        else
          restful.Documentation svc' = restful.Documentation svc /\
          restful.ApiVersion svc' = restful.ApiVersion svc.
Proof.
  intros Hregistry Hinstall Hcount.
  destruct (InstallProtectedAPI_outcome container installed p
              Hregistry Hinstall)
    as (root & added & p' & Hcall & _).
  rewrite Hcount in Hcall. cbn [Nat.eqb] in Hcall.
  eexists _, p'. split; [exact Hcall |].
  intros i svc Hsvc. cbn [restful.RegisteredWebServices].
  set (filter := restful.currentUserContextFilter (sharedContexts p)).
  assert (Hmapped :
            (map (withUserFilter filter)
                 (restful.RegisteredWebServices installed) ++ added) !! i =
            Some (withUserFilter filter svc)).
  { apply lookup_app_l_Some.
    change (map (withUserFilter filter)
                (restful.RegisteredWebServices installed))
      with (withUserFilter filter <$>
            restful.RegisteredWebServices installed).
    now rewrite list_lookup_fmap, Hsvc. }
  destruct (initAPIVersionRoute_keeps root "v1beta1" _ i _ Hmapped)
    as (svc' & Hsvc' & Hdoc & Hversion).
  exists svc'. split; [exact Hsvc' |]. rewrite Hdoc, Hversion.
  unfold withUserFilter. case_bool_decide; split; reflexivity.
Qed.

End Documentation.

Lemma versioned_services_documented_witness :
  exists (container' : restful.Container) (p' : Process)
         (svc' : restful.WebService),
    Origin.InstallProtectedAPI Origin.NewHandlerContainer boot =
      Return (container', ["Started OpenShift API at %s/osapi/v1beta1"]) p' /\
    restful.RegisteredWebServices container' !! 0%nat = Some svc' /\
    restful.Documentation svc' = "OpenShift REST API, version v1beta1" /\
    restful.ApiVersion svc' = "v1beta1".
Proof.
  destruct (@versioned_services_documented
              package libraries Origin.NewHandlerContainer
              {| restful.RegisteredWebServices := [apiService];
                 restful.Handlers := [] |}
              boot eq_refl eq_refl eq_refl)
    as (container' & p' & Hcall & Hservices).
  destruct (Hservices 0%nat apiService eq_refl) as (svc' & Hsvc' & Hdoc & Hversion).
  exists container', p', svc'.
  split; [exact Hcall |]. split; [exact Hsvc' |].
  split; [exact Hdoc | exact Hversion].
Defined.

(** ** The policy bootstrap and the errors of the registry *)

Section RegistryErrors.
Context {A : authorizer.Package} {Store : Type}.
Variable GetPolicy :
  string -> string -> Store ->
  option authorizationapi.Policy * option error.
Variable CreatePolicy :
  string -> authorizationapi.Policy -> Store -> option error * Store.
Variable GetPolicyBinding :
  string -> string -> Store ->
  option authorizationapi.PolicyBinding * option error.
Variable CreatePolicyBinding :
  string -> authorizationapi.PolicyBinding -> Store ->
  option error * Store.
Variable c : Origin.MasterConfig.

Let ns : string := Origin.MasterAuthorizationNamespace c.
Let run : Store -> unit * Store * list Call :=
  AnyRegistry.ensureComponentAuthorizationRules
    GetPolicy CreatePolicy GetPolicyBinding CreatePolicyBinding c.

Ltac first_step :=
  unfold run, AnyRegistry.ensureComponentAuthorizationRules,
    AnyRegistry.ensureGlobalPolicy, AnyRegistry.bind, AnyRegistry.ret,
    AnyRegistry.getPolicy, AnyRegistry.createPolicy, AnyRegistry.Errorf;
  fold ns.

Ltac second_step :=
  unfold AnyRegistry.ensureGlobalPolicyBinding, AnyRegistry.bind,
    AnyRegistry.ret, AnyRegistry.getPolicyBinding,
    AnyRegistry.createPolicyBinding, AnyRegistry.Errorf;
  fold ns.

(** X16. The bootstrap and a registry that fails.  The run starts with
    the one read of the Policy.  It asks for the Policy to be created
    when the read reported no error, or one whose text holds [ not found],
    and returned no object of the expected name; it does not ask after
    any other error of the read, which it logs instead.  Unless the read
    found the Policy under its name, in which case the run ends there
    with the store untouched, the PolicyBinding is read once, whatever
    the read or the creation of the Policy answered; and at most one
    PolicyBinding is asked for. *)
Theorem bootstrap_survives_registry_errors (r : Store) :
  let calls := (run r).2 in
  let existing := (GetPolicy ns authorizer.PolicyName r).1 in
  let err := (GetPolicy ns authorizer.PolicyName r).2 in
  let absent := Origin.nilOrNotFound err in
  let named :=
    Origin.existsNamed authorizationapi.policyName existing
                       authorizer.PolicyName in
  (exists rest,
     calls = CallGetPolicy ns authorizer.PolicyName :: rest /\
     count is_CallGetPolicy rest = 0%nat) /\
  count attemptedPolicy calls = (if absent && negb named then 1 else 0)%nat /\
  count is_CallGetPolicyBinding calls =
    (if absent && named then 0 else 1)%nat /\
  (count attemptedPolicyBinding calls <= 1)%nat /\
  (if absent && named
   then run r = (tt, r, [CallGetPolicy ns authorizer.PolicyName])
   else True) /\
  (if absent then True
   else
     exists rest,
       calls =
         CallGetPolicy ns authorizer.PolicyName ::
         CallGlog None "Error getting policy: %v due to %v\n"
                  [ArgString authorizer.PolicyName; ArgError err] ::
         CallGetPolicyBinding ns ns :: rest).
Proof.
  cbv zeta. first_step.
  destruct (GetPolicy ns authorizer.PolicyName r) as [existing err].
  cbn [fst snd].
  assert (Hsecond :
            forall (r1 : Store) (before : list Call),
              count is_CallGetPolicy before = 0%nat ->
              count is_CallGetPolicyBinding before = 0%nat ->
              count attemptedPolicyBinding before = 0%nat ->
              let '(_, _, calls2) :=
                AnyRegistry.ensureGlobalPolicyBinding
                  GetPolicyBinding CreatePolicyBinding c r1 in
              count is_CallGetPolicy (before ++ calls2) = 0%nat /\
              count is_CallGetPolicyBinding (before ++ calls2) = 1%nat /\
              (count attemptedPolicyBinding (before ++ calls2) <= 1)%nat /\
              count attemptedPolicy (before ++ calls2) =
                count attemptedPolicy before /\
              exists rest, calls2 = CallGetPolicyBinding ns ns :: rest).
  { intros r1 before Hread Hbinding Hattempt. second_step.
    destruct (GetPolicyBinding ns ns r1) as [existing2 err2].
    destruct (Origin.nilOrNotFound err2); cbv beta iota;
      [destruct (Origin.existsNamed authorizationapi.bindingName existing2 ns);
       cbv beta iota;
       [| destruct (CreatePolicyBinding ns _ r1) as [err3 r3];
          destruct (Origin.is_Some_b err3); cbv beta iota] |];
      rewrite !count_app, Hread, Hbinding, Hattempt; cbn;
      rewrite ?Nat.add_0_r; repeat split; eauto. }
  destruct (Origin.nilOrNotFound err); cbv beta iota;
    [destruct (Origin.existsNamed authorizationapi.policyName existing
                                  authorizer.PolicyName);
     cbv beta iota |]; cbn [andb negb].
  - cbn. (split; [eexists; split; reflexivity |]). repeat split; auto.
  - destruct (CreatePolicy ns _ r) as [err1 r1]. cbv beta iota.
    destruct (Origin.is_Some_b err1); cbv beta iota.
    + specialize (Hsecond r1
                    [CallCreatePolicy
                       ns (authorizer.GetBootstrapPolicy ns) err1;
                     CallGlog None "Error creating policy: %v due to %v\n"
                              [ArgPolicy (authorizer.GetBootstrapPolicy ns);
                               ArgError err1]]
                    eq_refl eq_refl eq_refl).
      destruct (AnyRegistry.ensureGlobalPolicyBinding _ _ c r1)
        as [[u r2] calls2].
      destruct Hsecond as (Hread & Hbinding & Hattempt & Hpolicy & _).
      simpl.
      split; [eexists; split; [reflexivity | exact Hread] |].
      split; [exact Hpolicy |]. split; [exact Hbinding |].
      split; [exact Hattempt |]. auto.
    + specialize (Hsecond r1
                    [CallCreatePolicy
                       ns (authorizer.GetBootstrapPolicy ns) err1]
                    eq_refl eq_refl eq_refl).
      destruct (AnyRegistry.ensureGlobalPolicyBinding _ _ c r1)
        as [[u r2] calls2].
      destruct Hsecond as (Hread & Hbinding & Hattempt & Hpolicy & _).
      simpl.
      split; [eexists; split; [reflexivity | exact Hread] |].
      split; [exact Hpolicy |]. split; [exact Hbinding |].
      split; [exact Hattempt |]. auto.
  - specialize (Hsecond r
                  [CallGlog None "Error getting policy: %v due to %v\n"
                            [ArgString authorizer.PolicyName; ArgError err]]
                  eq_refl eq_refl eq_refl).
    destruct (AnyRegistry.ensureGlobalPolicyBinding _ _ c r)
      as [[u r2] calls2].
    destruct Hsecond as (Hread & Hbinding & Hattempt & Hpolicy & rest & ->).
    simpl.
    split; [eexists; split; [reflexivity | exact Hread] |].
    split; [exact Hpolicy |]. split; [exact Hbinding |].
    split; [exact Hattempt |]. split; [exact I |]. eexists. reflexivity.
Qed.

(** X17. The bootstrap logs the failures of the registry and nothing
    else.  The lines that a run logs with [glog.Errorf] are as many as
    the creations that the registry refused, plus one when the read of
    the Policy failed with an error other than [ not found], plus one when
    the PolicyBinding was read and that read failed so.  A run on a
    registry that answers every call without such an error logs
    nothing. *)
Theorem bootstrap_logs_registry_failures (r : Store) :
  let calls := (run r).2 in
  let existing := (GetPolicy ns authorizer.PolicyName r).1 in
  let err := (GetPolicy ns authorizer.PolicyName r).2 in
  let absent := Origin.nilOrNotFound err in
  let named :=
    Origin.existsNamed authorizationapi.policyName existing
                       authorizer.PolicyName in
  let r1 :=
    if absent && negb named
    then (CreatePolicy ns (authorizer.GetBootstrapPolicy ns) r).2
    else r in
  let err2 := (GetPolicyBinding ns ns r1).2 in
  count is_Errorf calls =
  (count refusedCreation calls +
   (if absent then 0 else 1) +
   (if absent && named then 0
    else if Origin.nilOrNotFound err2 then 0 else 1))%nat.
Proof.
  cbv zeta. first_step.
  destruct (GetPolicy ns authorizer.PolicyName r) as [existing err].
  cbn [fst snd].
  assert (Hsecond :
            forall (r1 : Store) (before : list Call),
              let '(_, _, calls2) :=
                AnyRegistry.ensureGlobalPolicyBinding
                  GetPolicyBinding CreatePolicyBinding c r1 in
              count is_Errorf (before ++ calls2) =
              (count is_Errorf before +
               (count refusedCreation (before ++ calls2) -
                count refusedCreation before) +
               (if Origin.nilOrNotFound (GetPolicyBinding ns ns r1).2
                then 0 else 1))%nat /\
              (count refusedCreation before <=
               count refusedCreation (before ++ calls2))%nat).
  { intros r1 before. second_step.
    destruct (GetPolicyBinding ns ns r1) as [existing2 err2]. cbn [snd].
    destruct (Origin.nilOrNotFound err2); cbv beta iota;
      [destruct (Origin.existsNamed authorizationapi.bindingName existing2 ns);
       cbv beta iota;
       [| destruct (CreatePolicyBinding ns _ r1) as [[e3|] r3];
          cbn [Origin.is_Some_b]; cbv beta iota] |];
      rewrite !count_app; unfold count; cbn; lia. }
  destruct (Origin.nilOrNotFound err); cbv beta iota;
    [destruct (Origin.existsNamed authorizationapi.policyName existing
                                  authorizer.PolicyName);
     cbv beta iota |]; cbn [andb negb].
  - reflexivity.
  - destruct (CreatePolicy ns _ r) as [[e1|] r1]; cbn [Origin.is_Some_b snd];
      cbv beta iota.
    + specialize (Hsecond r1
                    [CallCreatePolicy
                       ns (authorizer.GetBootstrapPolicy ns) (Some e1);
                     CallGlog None "Error creating policy: %v due to %v\n"
                              [ArgPolicy (authorizer.GetBootstrapPolicy ns);
                               ArgError (Some e1)]]).
      destruct (AnyRegistry.ensureGlobalPolicyBinding _ _ c r1)
        as [[u r2] calls2].
      destruct Hsecond as [Hlogged Hrefused]. unfold count in *. simpl in *.
      destruct (Origin.nilOrNotFound (GetPolicyBinding ns ns r1).2); lia.
    + specialize (Hsecond r1
                    [CallCreatePolicy
                       ns (authorizer.GetBootstrapPolicy ns) None]).
      destruct (AnyRegistry.ensureGlobalPolicyBinding _ _ c r1)
        as [[u r2] calls2].
      destruct Hsecond as [Hlogged Hrefused]. unfold count in *. simpl in *.
      destruct (Origin.nilOrNotFound (GetPolicyBinding ns ns r1).2); lia.
  - specialize (Hsecond r
                  [CallGlog None "Error getting policy: %v due to %v\n"
                            [ArgString authorizer.PolicyName; ArgError err]]).
    destruct (AnyRegistry.ensureGlobalPolicyBinding _ _ c r)
      as [[u r2] calls2].
    destruct Hsecond as [Hlogged Hrefused]. unfold count in *. simpl in *.
    destruct (Origin.nilOrNotFound (GetPolicyBinding ns ns r).2); lia.
Qed.

(** X18. The bootstrap of a registry that holds neither global object.
    When the read of the Policy reports it missing and the creation of
    the bootstrap Policy is accepted, and the read of the PolicyBinding on
    the store so obtained reports it missing and the creation of the
    bootstrap PolicyBinding is accepted, the run consists of these four
    calls in this order, logs nothing, and leaves the store of the last
    creation. *)
Theorem bootstrap_fresh_registry (r r1 r2 : Store) (err err2 : option error) :
  GetPolicy ns authorizer.PolicyName r = (None, err) ->
  Origin.nilOrNotFound err = true ->
  CreatePolicy ns (authorizer.GetBootstrapPolicy ns) r = (None, r1) ->
  GetPolicyBinding ns ns r1 = (None, err2) ->
  Origin.nilOrNotFound err2 = true ->
  CreatePolicyBinding ns (authorizer.GetBootstrapPolicyBinding ns) r1 =
    (None, r2) ->
  run r =
  (tt, r2,
   [CallGetPolicy ns authorizer.PolicyName;
    CallCreatePolicy ns (authorizer.GetBootstrapPolicy ns) None;
    CallGetPolicyBinding ns ns;
    CallCreatePolicyBinding ns (authorizer.GetBootstrapPolicyBinding ns)
                            None]).
Proof.
  intros Hread Habsent Hcreate Hread2 Habsent2 Hcreate2.
  first_step. rewrite Hread, Habsent. cbn [Origin.existsNamed].
  rewrite Hcreate. cbn [Origin.is_Some_b]. second_step.
  rewrite Hread2, Habsent2. cbn [Origin.existsNamed].
  rewrite Hcreate2. reflexivity.
Qed.

End RegistryErrors.

(** Over the policy store of the process, the bootstrap over any registry
    is the bootstrap of the master. *)
Lemma AnyRegistry_etcd {A : authorizer.Package} (c : Origin.MasterConfig)
  (p : Process) :
  AnyRegistry.ensureComponentAuthorizationRules
    authorizationetcd.GetPolicy authorizationetcd.CreatePolicy
    authorizationetcd.GetPolicyBinding authorizationetcd.CreatePolicyBinding
    c (etcd p) =
  let '(u, p1, calls) := Origin.ensureComponentAuthorizationRules c p in
  (u, etcd p1, calls).
Proof.
  unfold AnyRegistry.ensureComponentAuthorizationRules,
    AnyRegistry.ensureGlobalPolicy, AnyRegistry.ensureGlobalPolicyBinding,
    AnyRegistry.bind, AnyRegistry.ret, AnyRegistry.getPolicy,
    AnyRegistry.createPolicy, AnyRegistry.getPolicyBinding,
    AnyRegistry.createPolicyBinding, AnyRegistry.Errorf,
    Origin.ensureComponentAuthorizationRules, Origin.ensureGlobalPolicy,
    Origin.ensureGlobalPolicyBinding, bbind, bret, Origin.GetPolicy,
    Origin.CreatePolicy, Origin.GetPolicyBinding, Origin.CreatePolicyBinding,
    Origin.Errorf.
  repeat (case_match; simplify_eq/=); congruence.
Qed.

(** *** The bootstrap of the example installation, over its store *)

Lemma bootstrap_fresh_registry_witness :
  exists r2 : authorizationetcd.Etcd,
    AnyRegistry.ensureComponentAuthorizationRules
      authorizationetcd.GetPolicy authorizationetcd.CreatePolicy
      authorizationetcd.GetPolicyBinding
      authorizationetcd.CreatePolicyBinding
      config authorizationetcd.empty =
    (tt, r2,
     [CallGetPolicy "master" "default";
      CallCreatePolicy "master" (authorizer.GetBootstrapPolicy "master") None;
      CallGetPolicyBinding "master" "master";
      CallCreatePolicyBinding
        "master" (authorizer.GetBootstrapPolicyBinding "master") None]) /\
    authorizationetcd.GetPolicy "master" "default" r2 =
      (Some (authorizer.GetBootstrapPolicy "master"), None) /\
    authorizationetcd.GetPolicyBinding "master" "master" r2 =
      (Some (authorizer.GetBootstrapPolicyBinding "master"), None).
Proof.
  eexists. split.
  - apply (@bootstrap_fresh_registry
             package authorizationetcd.Etcd
             authorizationetcd.GetPolicy authorizationetcd.CreatePolicy
             authorizationetcd.GetPolicyBinding
             authorizationetcd.CreatePolicyBinding
             config authorizationetcd.empty _ _ _ _
             eq_refl eq_refl eq_refl eq_refl eq_refl eq_refl).
  - split; reflexivity.
Defined.
